(** * finance-tracker: the forecasting and recommendation engine

    A shallow embedding of [src/ml/recommender.py] together with the
    parts of pandas and scikit-learn it calls, and of the queries and
    JSON endpoints of [src/app.py], followed by the theorems that relate
    the embedding to the engine's specification and by further
    properties of the engine and of the endpoints.

    Numbers.  The engine computes on IEEE doubles; the specification
    speaks of real numbers.  The source is embedded at both levels.

    - Modules [Py], [Pandas], [Fmt], [LinearRegression], [Models],
      [Recommender] and [App] follow the specification's level: an amount
      is an exact rational ([Q]), equality of amounts is [Qeq] and the
      literals [1.2], [0.2] and [0.0] are the rationals [6/5], [1/5] and
      [0].  They carry the properties that do not rest on how a result is
      rounded: which rows are selected and grouped, the order and the
      wording of the messages, the guards.

    - Modules [Double], [Library], [Ieee] and [IeeeApp] embed the same
      source lines on binary64 numbers.  They carry the properties that
      rounding, overflow and [nan] decide.  The arithmetic written in the
      source is the IEEE arithmetic of the kernel's primitive floats; the
      arithmetic inside pandas and scikit-learn is a parameter.

    Exceptions.  A Python expression that can raise is embedded in the
    [result] monad; an expression that cannot raise is a plain term.

    Libraries.  [groupby(...).sum()] is a single pass that accumulates
    each row into its group and keeps the groups sorted by label;
    [LinearRegression] is scikit-learn's centred least squares on one
    feature; [pd.to_datetime] on the stored dates is the identity. *)

From Stdlib Require Import ZArith QArith Qround Qabs Qminmax Qfield.
From Stdlib Require Import String Ascii List Permutation Bool Lia Lqa.
From Stdlib Require Import Sorted OrdersEx Morphisms Setoid SetoidList DecimalString.
From Stdlib Require Floats Qpower.
Import ListNotations.

Local Open Scope string_scope.
Local Open Scope Q_scope.

(* ================================================================= *)
(** ** Python: exceptions *)

Module Py.

Inductive exn : Type :=
| IndexError
| ValueError
| ZeroDivisionError.

Inductive result (A : Type) : Type :=
| Ok (a : A)
| Raise (e : exn).

Arguments Ok {A} a.
Arguments Raise {A} e.

Definition bind {A B : Type} (r : result A) (k : A -> result B) : result B :=
  match r with
  | Ok a => k a
  | Raise e => Raise e
  end.

(** The builtin [max(a, b)]: the first argument, unless the second is
    strictly greater. *)
Definition max (a b : Q) : Q :=
  if Qle_bool b a then a else b.

(** [a < b] on numbers. *)
Definition lt (a b : Q) : bool := negb (Qle_bool b a).

(** [a / b] with the divisor checked.  On numpy's doubles a division by
    zero returns [inf] or [nan]; the embedding is stricter and treats
    every division by zero as an exception. *)
Definition div (a b : Q) : result Q :=
  if Qeq_bool b 0 then Raise ZeroDivisionError else Ok (a / b).

(** [l.append(x)], as a function of the list before the call. *)
Definition append {A : Type} (l : list A) (x : A) : list A :=
  (l ++ [x])%list.

(** [range(lo, hi)] *)
Definition range (lo hi : Z) : list Z :=
  map (fun i => lo + Z.of_nat i)%Z (seq 0 (Z.to_nat (hi - lo))).

End Py.

Import Py.

Notation "x <- c1 ;; c2" := (Py.bind c1 (fun x => c2))
  (at level 61, c1 at next level, right associativity).

(* ================================================================= *)
(** ** pandas: the Series operations the engine uses *)

Module Pandas.

(** A [Series] indexed by strings, as [groupby(...).sum()] returns it:
    the index labels with their values, in index order. *)
Definition Series : Type := list (string * Q).

Definition values (s : Series) : list Q := map snd s.
Definition index (s : Series) : list string := map fst s.

(** Accumulate [v] into the group labelled [k]; the groups are kept in
    ascending label order. *)
Fixpoint add_to_group (k : string) (v : Q) (g : Series) : Series :=
  match g with
  | [] => [(k, v)]
  | (k', s) :: g' =>
      match String_as_OT.compare k k' with
      | Eq => (k', s + v) :: g'
      | Lt => (k, v) :: g
      | Gt => (k', s) :: add_to_group k v g'
      end
  end.

(** [df.groupby(key)['amount'].sum()]: one entry per distinct label,
    holding the sum of the amounts carrying it, sorted by label
    (pandas' default [sort=True]). *)
Definition groupby_sum (rows : list (string * Q)) : Series :=
  fold_left (fun g kv => add_to_group (fst kv) (snd kv) g) rows [].

(** [Series.sum()]; the sum of an empty series is [0]. *)
Definition sum (l : list Q) : Q := fold_right Qplus 0 l.

(** [Series.mean()].  pandas returns [nan] for an empty series; the
    embedding is stricter: the division by the length is checked. *)
Definition mean (l : list Q) : result Q :=
  Py.div (sum l) (inject_Z (Z.of_nat (length l))).

(** [s.iloc[-1]]: raises [IndexError] on an empty series. *)
Definition iloc_last (l : list Q) : result Q :=
  match rev l with
  | [] => Raise IndexError
  | x :: _ => Ok x
  end.

(** [s.iloc[:-1]]: everything but the last element. *)
Definition iloc_init (l : list Q) : list Q := removelast l.

(** [Series.max()] of an integer column.  pandas returns [nan] for an
    empty column; the embedding is stricter and raises. *)
Definition max (l : list Z) : result Z :=
  match l with
  | [] => Raise ValueError
  | x :: l' => Ok (fold_left Z.max l' x)
  end.

(** Insertion of an entry into a series sorted by descending value;
    an entry goes after the entries of equal value. *)
Fixpoint insert_desc (e : string * Q) (s : Series) : Series :=
  match s with
  | [] => [e]
  | e' :: s' =>
      if Qle_bool (snd e) (snd e') then e' :: insert_desc e s'
      else e :: s
  end.

(** [s.sort_values(ascending=False)], as an insertion sort; entries of
    equal value keep their index order. *)
Definition sort_values_desc (s : Series) : Series :=
  fold_left (fun acc e => insert_desc e acc) s [].

(** [s.head(n)] *)
Definition head (n : nat) (s : Series) : Series := firstn n s.

End Pandas.

(* ================================================================= *)
(** ** Python: fixed-point formatting in f-strings *)

Module Fmt.

(** The decimal digits of a non-negative integer. *)
Definition digits (z : Z) : string :=
  NilZero.string_of_uint (N.to_uint (Z.to_N z)).

(** Left-pad [s] with zeros to width [w]. *)
Fixpoint zeros (n : nat) : string :=
  match n with
  | O => EmptyString
  | S n' => "0" ++ zeros n'
  end.

Definition zfill (w : nat) (s : string) : string :=
  zeros (w - String.length s) ++ s.

(** Rounding to the nearest integer, ties to the even one: the
    rounding of [format] and of [round]. *)
Definition round_half_even (q : Q) : Z :=
  let fl := Qfloor q in
  match Qcompare (q - inject_Z fl) (1 # 2) with
  | Lt => fl
  | Gt => (fl + 1)%Z
  | Eq => if Z.even fl then fl else (fl + 1)%Z
  end.

(** [f'{x:.<d>f}']: sign, integer part and [d] decimals of [x] rounded
    at the [d]-th decimal. *)
Definition fixed (d : nat) (x : Q) : string :=
  let p := (10 ^ Z.of_nat d)%Z in
  let n := round_half_even (Qabs x * inject_Z p) in
  let sign := if Qle_bool 0 x then EmptyString else "-" in
  let frac := match d with
              | O => EmptyString
              | S _ => "." ++ zfill d (digits (n mod p))
              end in
  sign ++ digits (n / p) ++ frac.

End Fmt.

(* ================================================================= *)
(** ** scikit-learn: [LinearRegression] on one feature *)

Module LinearRegression.

(** A fitted model: [coef_] and [intercept_]. *)
Record model : Type := Model { coef_ : Q; intercept_ : Q }.

Definition average (l : list Q) : Q :=
  Pandas.sum l / inject_Z (Z.of_nat (length l)).

Definition center (l : list Q) : list Q :=
  let a := average l in map (fun v => v - a) l.

Fixpoint dot (u v : list Q) : Q :=
  match u, v with
  | a :: u', b :: v' => a * b + dot u' v'
  | _, _ => 0
  end.

(** [LinearRegression().fit(X, y)] with the default
    [fit_intercept=True]: both columns are centred on their means, the
    least-squares problem is solved on the centred data (the solution
    of least norm, which is [0] when the centred feature vanishes), and
    the intercept is recovered from the means.  Empty input and columns
    of different lengths are rejected with [ValueError]. *)
Definition fit (X y : list Q) : result model :=
  if (length X =? 0)%nat then Raise ValueError
  else if negb (length X =? length y)%nat then Raise ValueError
  else
    let X_offset := average X in
    let y_offset := average y in
    let Xc := center X in
    let yc := center y in
    let sxx := dot Xc Xc in
    let coef := if Qeq_bool sxx 0 then 0 else dot Xc yc / sxx in
    Ok (Model coef (y_offset - X_offset * coef)).

(** [model.predict([[x]])[0]] *)
Definition predict (m : model) (x : Q) : Q :=
  x * coef_ m + intercept_ m.

End LinearRegression.

(* ================================================================= *)
(** ** [models.py] *)

Module Models.

(** [datetime.date] *)
Record date : Type := Date { year : Z; month : Z; day : Z }.

(** A row of the [transaction] table. *)
Record Transaction : Type := {
  id : Z;
  user_id : Z;
  date_ : date;
  amount : Q;              (* always positive *)
  ttype : string;          (* 'income' or 'expense' *)
  category : string;
  description : option string
}.

(** The session's view of the database: the rows of the table, in the
    order a query returns them. *)
Definition db : Type := list Transaction.

End Models.

(* ================================================================= *)
(** ** [ml/recommender.py] *)

Module Recommender.

Import Models.

(** A row of the DataFrame built by [_query_user_df]. *)
Record Row : Type := {
  r_date : date;
  r_amount : Q;
  r_type : string;
  r_category : string
}.

Definition DataFrame : Type := list Row.

(** [df.empty] *)
Definition empty (df : DataFrame) : bool :=
  match df with
  | [] => true
  | _ :: _ => false
  end.

(** [df[df['type'] == t]] *)
Definition of_type (t : string) (df : DataFrame) : DataFrame :=
  filter (fun r => String.eqb (r_type r) t) df.

(** The dictionary built for a row of the query. *)
Definition to_row (r : Transaction) : Row :=
  {| r_date := date_ r;
     r_amount := amount r;
     r_type := ttype r;
     r_category := category r |}.

Definition _query_user_df (d : db) (uid : Z) : DataFrame :=
  let rows := filter (fun r => Z.eqb (user_id r) uid) d in
  map to_row rows.

(** [date.dt.to_period('M').astype(str)]: the month token [YYYY-MM]. *)
Definition ym (d : date) : string :=
  Fmt.zfill 4 (Fmt.digits (year d)) ++ "-" ++ Fmt.zfill 2 (Fmt.digits (month d)).

(** [expenses.groupby('ym')['amount'].sum()] over the expense rows of
    [df]: the monthly expense series. *)
Definition monthly (df : DataFrame) : Pandas.Series :=
  let expenses := of_type "expense" df in
  Pandas.groupby_sum (map (fun r => (ym (r_date r), r_amount r)) expenses).

Definition predict_next_month_expense (d : db) (uid : Z) : result Q :=
  let df := _query_user_df d uid in
  if empty df then Ok 0
  else
    let expenses := of_type "expense" df in
    if empty expenses then Ok 0
    else
      let m := Pandas.groupby_sum
                 (map (fun r => (ym (r_date r), r_amount r)) expenses) in
      if (length m <? 2)%nat then
        if (0 <? length m)%nat then Pandas.iloc_last (Pandas.values m)
        else Ok 0
      else
        let idx := Py.range 1 (Z.of_nat (length m) + 1) in
        let X := map inject_Z idx in
        let y := Pandas.values m in
        model <- LinearRegression.fit X y ;;
        mx <- Pandas.max idx ;;
        let next_idx := (mx + 1)%Z in
        let pred := LinearRegression.predict model (inject_Z next_idx) in
        Ok (Py.max pred 0).

Definition msg_no_data : string :=
  "Add at least 2 months of data to get personalized savings insights.".

Definition msg_savings_rate (pct : Q) : string :=
  "Your overall savings rate is " ++ Fmt.fixed 1 pct
    ++ "%. Aim for 20%+ as a baseline.".

Definition msg_add_income : string :=
  "Add income entries to compute your savings rate.".

(** The double-quote character. *)
Definition dquote : string := String (ascii_of_nat 34) EmptyString.

Definition msg_high_spend (cv : string * Q) : string :=
  "High spend in " ++ dquote ++ fst cv ++ dquote ++ " category: ₹"
    ++ Fmt.fixed 0 (snd cv)
    ++ ". Consider setting a monthly cap or finding cheaper alternatives.".

Definition msg_volatility : string :=
  "Last month's expenses exceeded your previous average by 20%+. Review discretionary categories.".

Definition msg_predicted_target (pred target_save : Q) : string :=
  "Predicted next month expense: ₹" ++ Fmt.fixed 0 pred
    ++ ". Set a savings target of at least ₹" ++ Fmt.fixed 0 target_save ++ ".".

Definition msg_predicted_only (pred : Q) : string :=
  "Predicted next month expense: ₹" ++ Fmt.fixed 0 pred
    ++ ". Add income to compute a savings target.".

Definition amounts (df : DataFrame) : list Q := map r_amount df.

Definition generate_recommendations (d : db) (uid : Z) : result (list string) :=
  let df := _query_user_df d uid in
  let recs : list string := [] in
  if empty df then Ok (append recs (msg_no_data))
  else
    (* Basic ratios *)
    let total_income := Pandas.sum (amounts (of_type "income" df)) in
    let total_expense := Pandas.sum (amounts (of_type "expense" df)) in
    recs <- (if Py.lt 0 total_income then
               q <- Py.div (total_income - total_expense) total_income ;;
               let savings_rate := Py.max q 0 in
               Ok (append recs (msg_savings_rate (savings_rate * 100)))
             else Ok (append recs (msg_add_income))) ;;
    (* Category suggestions (top 3 spend categories) *)
    let cat := Pandas.sort_values_desc
                 (Pandas.groupby_sum
                    (map (fun r => (r_category r, r_amount r))
                         (of_type "expense" df))) in
    let top3 := Pandas.head 3 cat in
    let recs := fold_left (fun recs cv => append recs (msg_high_spend cv)) top3 recs in
    (* Volatility check: if last month higher than prior avg *)
    recs <- (if negb (empty (of_type "expense" df)) then
               let expenses := of_type "expense" df in
               let monthly := Pandas.groupby_sum
                                (map (fun r => (ym (r_date r), r_amount r)) expenses) in
               if (2 <=? length monthly)%nat then
                 last <- Pandas.iloc_last (Pandas.values monthly) ;;
                 prev_avg <- Pandas.mean (Pandas.iloc_init (Pandas.values monthly)) ;;
                 if Py.lt ((6 # 5) * prev_avg) last
                 then Ok (append recs (msg_volatility))
                 else Ok recs
               else Ok recs
             else Ok recs) ;;
    (* Prediction informed suggestion *)
    pred <- predict_next_month_expense d uid ;;
    if Py.lt 0 total_income then
      let target_save := Py.max (total_income * (1 # 5)) 0 in
      Ok (append recs (msg_predicted_target pred target_save))
    else
      Ok (append recs (msg_predicted_only pred)).

End Recommender.

(* ================================================================= *)
(** ** Vocabulary of the specification *)

Module Spec.

Import Models Recommender.

(** The sum of the amounts labelled [k] in a list of labelled amounts. *)
Definition total (k : string) (rows : list (string * Q)) : Q :=
  Pandas.sum (map snd (filter (fun kv => String.eqb (fst kv) k) rows)).

(** The labels of a series ascend strictly. *)
Definition ascending (s : Pandas.Series) : Prop :=
  StronglySorted String_as_OT.lt (Pandas.index s).


(** The number of elements of a column, as a rational. *)
Definition card (l : list Q) : Q := inject_Z (Z.of_nat (length l)).

(** The position of a month on the calendar. *)
Definition month_index (d : date) : Z := (year d * 12 + (month d - 1))%Z.

(** A date whose year has at most four digits and whose month is one of
    the twelve. *)
Definition on_calendar (d : date) : Prop :=
  (0 <= year d <= 9999)%Z /\ (1 <= month d <= 12)%Z.

(** The year and the month parts of a month token. *)
Definition year_token (y : Z) : string := Fmt.zfill 4 (Fmt.digits y).
Definition month_token (m : Z) : string := Fmt.zfill 2 (Fmt.digits m).

(** [f i; f (i + 1); ...], [n] elements. *)
Fixpoint enum_from {A : Type} (f : Z -> A) (n : nat) (i : Z) : list A :=
  match n with
  | O => []
  | S n' => f i :: enum_from f n' (i + 1)
  end.

(** Every element of the list is strictly below the next one. *)
Fixpoint increasing (l : list string) : bool :=
  match l with
  | a :: (b :: _) as l' =>
      match String_as_OT.compare a b with
      | Lt => increasing l'
      | _ => false
      end
  | _ => true
  end.

(** The transactions of user [uid]. *)
Definition transactions_of (d : db) (uid : Z) : list Transaction :=
  filter (fun t => Z.eqb (user_id t) uid) d.

(** The expense transactions of user [uid]. *)
Definition expenses_of (d : db) (uid : Z) : list Transaction :=
  filter (fun t => Z.eqb (user_id t) uid && String.eqb (ttype t) "expense") d.

(** What user [uid] spent in the month with token [k]. *)
Definition month_total (d : db) (uid : Z) (k : string) : Q :=
  Pandas.sum (map amount
    (filter (fun t => String.eqb (ym (date_ t)) k) (expenses_of d uid))).


(** What user [uid] earned and spent overall. *)
Definition total_income (d : db) (uid : Z) : Q :=
  Pandas.sum (map amount
    (filter (fun t => Z.eqb (user_id t) uid && String.eqb (ttype t) "income") d)).

Definition total_expense (d : db) (uid : Z) : Q :=
  Pandas.sum (map amount (expenses_of d uid)).

(** The monthly expense series of user [uid], as the engine builds it. *)
Definition monthly_series (d : db) (uid : Z) : Pandas.Series :=
  monthly (_query_user_df d uid).

(** The expense of user [uid] per category, as the engine groups it. *)
Definition category_series (d : db) (uid : Z) : Pandas.Series :=
  Pandas.groupby_sum
    (map (fun t => (category t, amount t)) (expenses_of d uid)).

(** The categories the engine reports, with their totals. *)
Definition top_categories (d : db) (uid : Z) : Pandas.Series :=
  Pandas.head 3 (Pandas.sort_values_desc (category_series d uid)).

(** The mean of all the months but the most recent one. *)
Definition prior_mean (ys : list Q) : Q :=
  Pandas.sum (removelast ys) / card (removelast ys).

(** The most recent month exceeds 1.2 times the mean of the months
    before it. *)
Definition volatileb (ys : list Q) : bool :=
  (2 <=? length ys)%nat && Py.lt ((6 # 5) * prior_mean ys) (last ys 0).

(** The savings rate: [(income - expense) / income], floored at zero. *)
Definition savings_rate (income expense : Q) : Q :=
  Qmax ((income - expense) / income) 0.

(** The first and the last recommendation of a user with transactions. *)
Definition rec_first (d : db) (uid : Z) : string :=
  let ti := total_income d uid in
  let te := total_expense d uid in
  if Py.lt 0 ti then msg_savings_rate (Py.max ((ti - te) / ti) 0 * 100)
  else msg_add_income.

Definition rec_last (d : db) (uid : Z) (pred : Q) : string :=
  let ti := total_income d uid in
  if Py.lt 0 ti then msg_predicted_target pred (Py.max (ti * (1 # 5)) 0)
  else msg_predicted_only pred.

(** The part of [predict_next_month_expense] that follows the
    grouping, as a function of the monthly series. *)
Definition forecast_of (m : Pandas.Series) : result Q :=
  if (length m <? 2)%nat then
    if (0 <? length m)%nat then Pandas.iloc_last (Pandas.values m)
    else Ok 0
  else
    let idx := Py.range 1 (Z.of_nat (length m) + 1) in
    let X := map inject_Z idx in
    let y := Pandas.values m in
    model <- LinearRegression.fit X y ;;
    mx <- Pandas.max idx ;;
    let next_idx := (mx + 1)%Z in
    let pred := LinearRegression.predict model (inject_Z next_idx) in
    Ok (Py.max pred 0).

(** The positional index column [1, 2, ..., n] of a series of [n] points. *)
Definition positions (n : nat) : list Q :=
  map inject_Z (Py.range 1 (Z.of_nat n + 1)).

(** Sum of squared residuals of the line [a * x + b] against the
    points [(x, y)] of two columns. *)
Fixpoint sse_xy (a b : Q) (xs ys : list Q) : Q :=
  match xs, ys with
  | x :: xs', y :: ys' =>
      (y - (a * x + b)) * (y - (a * x + b)) + sse_xy a b xs' ys'
  | _, _ => 0
  end.

(** Sum of squared residuals of the line [a * i + b] against the
    observations [ys], the first of which has index [i0]. *)
Fixpoint sse_from (i0 : Z) (a b : Q) (ys : list Q) : Q :=
  match ys with
  | [] => 0
  | y :: ys' =>
      (y - (a * inject_Z i0 + b)) * (y - (a * inject_Z i0 + b))
      + sse_from (i0 + 1) a b ys'
  end.

(** ... against the positional index 1, 2, ..., n. *)
Definition sse (a b : Q) (ys : list Q) : Q := sse_from 1 a b ys.

(** [a * i + b] is an ordinary least-squares line for [ys]. *)
Definition least_squares (a b : Q) (ys : list Q) : Prop :=
  forall a' b', sse a b ys <= sse a' b' ys.

End Spec.

(* ================================================================= *)
(** ** Sample databases *)

Module Examples.

Import Models.

Definition tx (i u : Z) (y m dd : Z) (a : Q) (t c : string) : Transaction :=
  {| id := i; user_id := u; date_ := Date y m dd; amount := a;
     ttype := t; category := c; description := None |}.

(** User 1 spent 100 in January and 200 in March 2024 (nothing in
    February); the rows are stored out of order, among rows of user 2. *)
Definition two_months_up : db :=
  [ tx 1 1 2024 3 3 150 "expense" "Rent";
    tx 2 2 2024 2 9 999 "expense" "Travel";
    tx 3 1 2024 1 20 60 "expense" "Food";
    tx 4 1 2024 3 28 50 "expense" "Food";
    tx 5 1 2024 1 5 40 "expense" "Food" ].

(** User 1 spent 40 and 60 in May 2024 and earned 70 in June. *)
Definition one_month : db :=
  [ tx 1 1 2024 5 1 40 "expense" "Food";
    tx 2 1 2024 6 1 70 "income" "Salary";
    tx 3 1 2024 5 30 60 "expense" "Food" ].

(** Rows of user 2 only. *)
Definition other_user_only : db :=
  [ tx 1 2 2024 5 1 40 "expense" "Food" ].




End Examples.

(* ================================================================= *)
(** ** [app.py]: the queries and the JSON endpoints

    A query is the list of the rows it selects, in the order the
    database returns them; the logged-in user is the argument [uid]
    ([login_required] has let the request through) and a request
    argument read with [type=int] is an [option Z].  SQL sums are exact,
    as the amounts are. *)

Module App.

Import Models.

(** What an endpoint can raise. *)
Inductive failure : Type :=
| IntValueError (s : string)
| KeyError (k : string).

Inductive outcome (A : Type) : Type :=
| Return (a : A)
| Fail (f : failure).

Arguments Return {A} a.
Arguments Fail {A} f.

(** SQLite's [strftime('%Y', date)] and [strftime('%m', date)] on a
    stored date. *)
Definition strftime_Y (d : date) : string := Fmt.zfill 4 (Fmt.digits (year d)).

Definition strftime_m (d : date) : string := Fmt.zfill 2 (Fmt.digits (month d)).

(** [date.isoformat()], which is also the text SQLite stores and orders
    by. *)
Definition isoformat (d : date) : string :=
  Fmt.zfill 4 (Fmt.digits (year d)) ++ "-" ++ Fmt.zfill 2 (Fmt.digits (month d))
    ++ "-" ++ Fmt.zfill 2 (Fmt.digits (day d)).

(** [str(n)] of an integer. *)
Definition str_int (n : Z) : string :=
  if (n <? 0)%Z then "-" ++ Fmt.digits (- n) else Fmt.digits n.

(** [f'{n:0<w>d}']: zero-padded to width [w], the sign counted. *)
Definition fmt_0d (w : nat) (n : Z) : string :=
  if (n <? 0)%Z then "-" ++ Fmt.zfill (w - 1) (Fmt.digits (- n))
  else Fmt.zfill w (Fmt.digits n).

(** [int(s)] of a string of decimal digits, with an optional sign. *)
Definition int (s : string) : outcome Z :=
  match NilZero.int_of_string s with
  | Some i => Return (Z.of_int i)
  | None => Fail (IntValueError s)
  end.

(** Truth value of an optional integer: [None] and [0] are false. *)
Definition truthy (o : option Z) : bool :=
  match o with
  | Some n => negb (n =? 0)%Z
  | None => false
  end.

(** [x or 0] on the result of an SQL sum ([None] for no row). *)
Definition or_0 (o : option Q) : Q :=
  match o with
  | Some x => if Qeq_bool x 0 then 0 else x
  | None => 0
  end.

(** [d or ''] on a nullable text. *)
Definition or_empty (o : option string) : string :=
  match o with
  | Some s => s
  | None => EmptyString
  end.

(** [func.sum(...)]: [NULL] over no row. *)
Definition sql_sum (l : list Q) : option Q :=
  match l with
  | [] => None
  | _ :: _ => Some (Pandas.sum l)
  end.

(** [case((Transaction.ttype == t, Transaction.amount), else_=0)] *)
Definition case_ttype (t : string) (r : Transaction) : Q :=
  if String.eqb (ttype r) t then amount r else 0.

(** Insertion of a label into an ascending list of distinct labels. *)
Fixpoint insert_distinct (k : string) (l : list string) : list string :=
  match l with
  | [] => [k]
  | k' :: l' =>
      match String_as_OT.compare k k' with
      | Eq => l
      | Lt => k :: l
      | Gt => k' :: insert_distinct k l'
      end
  end.

(** [.distinct().order_by(...)] on one text column. *)
Definition distinct_order_by (l : list string) : list string :=
  fold_left (fun acc k => insert_distinct k acc) l [].

(** Insertion of a text into an ascending list, after its equals. *)
Fixpoint insert_sorted (k : string) (l : list string) : list string :=
  match l with
  | [] => [k]
  | k' :: l' =>
      match String_as_OT.compare k k' with
      | Lt => k :: l
      | _ => k' :: insert_sorted k l'
      end
  end.

(** [sorted(keys)] *)
Definition sorted (l : list string) : list string :=
  fold_left (fun acc k => insert_sorted k acc) l [].

(** [query.filter_by(user_id=uid)] *)
Definition of_user (uid : Z) (query : list Transaction) : list Transaction :=
  filter (fun t => Z.eqb (user_id t) uid) query.

(** [query.filter_by(ttype=t)] *)
Definition of_ttype (t : string) (query : list Transaction) : list Transaction :=
  filter (fun r => String.eqb (ttype r) t) query.

(** [query.filter(func.strftime('%Y', Transaction.date) == f'{year:04d}')] *)
Definition in_year (y : Z) (query : list Transaction) : list Transaction :=
  filter (fun t => String.eqb (strftime_Y (date_ t)) (fmt_0d 4 y)) query.

(** [query.filter(func.strftime('%m', Transaction.date) == f'{month:02d}')] *)
Definition in_month (m : Z) (query : list Transaction) : list Transaction :=
  filter (fun t => String.eqb (strftime_m (date_ t)) (fmt_0d 2 m)) query.

Definition _apply_year_month_filters
    (query : list Transaction) (year month : option Z) : list Transaction :=
  let query :=
    match year with
    | Some y => if truthy year then in_year y query else query
    | None => query
    end in
  let query :=
    match month with
    | Some m => if truthy month then in_month m query else query
    | None => query
    end in
  query.

(** [api_available_years]: [now_year] is [datetime.now().year]. *)
Fixpoint ints (l : list string) : outcome (list Z) :=
  match l with
  | [] => Return []
  | s :: l' =>
      match int s with
      | Fail f => Fail f
      | Return n =>
          match ints l' with
          | Fail f => Fail f
          | Return ns => Return (n :: ns)
          end
      end
  end.

Definition api_available_years (now_year : Z) (d : db) (uid : Z) : outcome (list Z) :=
  let years_rows :=
    distinct_order_by (map (fun t => strftime_Y (date_ t)) (of_user uid d)) in
  match ints years_rows with
  | Fail f => Fail f
  | Return [] => Return [now_year]
  | Return years => Return years
  end.

(** The JSON object of [api_summary]. *)
Record Summary : Type := {
  income : Q;
  expense : Q;
  balance : Q
}.

Definition api_summary
    (d : db) (uid : Z) (year month : option Z) (t_type : option string) : Summary :=
  if match t_type with Some t => String.eqb t "income" | None => false end then
    let q := of_ttype "income" (of_user uid d) in
    let q := _apply_year_month_filters q year month in
    let totals_income := sql_sum (map amount q) in
    {| income := or_0 totals_income; expense := 0; balance := or_0 totals_income |}
  else if match t_type with Some t => String.eqb t "expense" | None => false end then
    let q := of_ttype "expense" (of_user uid d) in
    let q := _apply_year_month_filters q year month in
    let totals_expense := sql_sum (map amount q) in
    {| income := 0; expense := or_0 totals_expense; balance := - or_0 totals_expense |}
  else
    let q := of_user uid d in
    let q := _apply_year_month_filters q year month in
    let totals_income := sql_sum (map (case_ttype "income") q) in
    let totals_expense := sql_sum (map (case_ttype "expense") q) in
    {| income := or_0 totals_income;
       expense := or_0 totals_expense;
       balance := or_0 totals_income - or_0 totals_expense |}.

(** [api_category_breakdown]: the groups are returned in label order;
    a group is never empty, so its sum is never [NULL]. *)
Definition api_category_breakdown
    (d : db) (uid : Z) (year month : option Z) : list (string * Q) :=
  let q := of_user uid d in
  let q := _apply_year_month_filters q year month in
  let rows :=
    map (fun r => (fst r, Some (snd r)))
        (Pandas.groupby_sum (map (fun t => (category t, case_ttype "expense" t)) q)) in
  map (fun r => (fst r, or_0 (snd r)))
      (filter (fun r => Py.lt 0 (or_0 (snd r))) rows).

(** A Python [dict] with text keys: the items in insertion order. *)
Definition dict (V : Type) : Type := list (string * V).

(** [d[k] = v] *)
Fixpoint dict_set {V : Type} (d : dict V) (k : string) (v : V) : dict V :=
  match d with
  | [] => [(k, v)]
  | (k', v') :: d' =>
      if String.eqb k' k then (k', v) :: d' else (k', v') :: dict_set d' k v
  end.

(** [d[k]] *)
Fixpoint dict_get {V : Type} (d : dict V) (k : string) : outcome V :=
  match d with
  | [] => Fail (KeyError k)
  | (k', v') :: d' => if String.eqb k' k then Return v' else dict_get d' k
  end.

(** [d.keys()] *)
Definition dict_keys {V : Type} (d : dict V) : list string := map fst d.

(** The year [api_monthly_trend] reports on when the request names
    none: the latest year of the user's transactions, or the current
    one. *)
Definition default_year (now_year : Z) (d : db) (uid : Z) : outcome Z :=
  let year_row :=
    distinct_order_by (map (fun t => strftime_Y (date_ t)) (of_user uid d)) in
  match rev year_row with
  | [] => Return now_year
  | y :: _ => int y
  end.

(** The grouped rows of [api_monthly_trend]: month label, summed income,
    summed expense, in label order. *)
Definition trend_rows (d : db) (uid : Z) (year : Z)
    : list (string * (option Q * option Q)) :=
  let q := in_year year (of_user uid d) in
  map (fun m =>
         let g := filter (fun t => String.eqb (strftime_m (date_ t)) m) q in
         (m, (sql_sum (map (case_ttype "income") g),
              sql_sum (map (case_ttype "expense") g))))
      (distinct_order_by (map (fun t => strftime_m (date_ t)) q)).

(** An item of the JSON array of [api_monthly_trend]. *)
Record TrendItem : Type := {
  t_month : string;
  t_income : Q;
  t_expense : Q
}.

Fixpoint trend_items (year : Z) (monthly : dict (Q * Q)) (keys : list string)
    : outcome (list TrendItem) :=
  match keys with
  | [] => Return []
  | m :: keys' =>
      match dict_get monthly m with
      | Fail f => Fail f
      | Return v =>
          match trend_items year monthly keys' with
          | Fail f => Fail f
          | Return items =>
              Return ({| t_month := str_int year ++ "-" ++ m;
                         t_income := fst v;
                         t_expense := snd v |} :: items)
          end
      end
  end.

Definition api_monthly_trend
    (now_year : Z) (d : db) (uid : Z) (year : option Z) : outcome (list TrendItem) :=
  match (match year with
         | Some y => if truthy year then Return y else default_year now_year d uid
         | None => default_year now_year d uid
         end) with
  | Fail f => Fail f
  | Return year =>
      let rows := trend_rows d uid year in
      let monthly : dict (Q * Q) :=
        map (fun m => (Fmt.zfill 2 (str_int m), (0, 0))) (Py.range 1 13) in
      let monthly :=
        fold_left
          (fun monthly r =>
             dict_set monthly (fst r) (or_0 (fst (snd r)), or_0 (snd (snd r))))
          rows monthly in
      trend_items year monthly (sorted (dict_keys monthly))
  end.

(** An item of the JSON array of [api_transactions]. *)
Record TxItem : Type := {
  j_id : Z;
  j_date : string;
  j_amount : Q;
  j_type : string;
  j_category : string;
  j_description : string
}.

Definition tx_item (tx : Transaction) : TxItem :=
  {| j_id := id tx;
     j_date := isoformat (date_ tx);
     j_amount := amount tx;
     j_type := ttype tx;
     j_category := category tx;
     j_description := or_empty (description tx) |}.

(** Insertion into a list ordered by descending date; a row goes after
    the rows of the same date. *)
Fixpoint insert_date_desc (t : Transaction) (l : list Transaction) : list Transaction :=
  match l with
  | [] => [t]
  | t' :: l' =>
      match String_as_OT.compare (isoformat (date_ t)) (isoformat (date_ t')) with
      | Gt => t :: l
      | _ => t' :: insert_date_desc t l'
      end
  end.

(** [query.order_by(Transaction.date.desc())] *)
Definition order_by_date_desc (query : list Transaction) : list Transaction :=
  fold_left (fun acc t => insert_date_desc t acc) query [].

Definition api_transactions
    (d : db) (uid : Z) (year month : option Z) (t_type : option string) : list TxItem :=
  let q := of_user uid d in
  let q := match year with
           | Some y => if truthy year then in_year y q else q
           | None => q
           end in
  let q := match month with
           | Some m => if truthy month then in_month m q else q
           | None => q
           end in
  let q := match t_type with
           | Some t =>
               if String.eqb t "income" || String.eqb t "expense"
               then of_ttype t q else q
           | None => q
           end in
  let txs := order_by_date_desc q in
  map tx_item txs.

(** The JSON object of the delete endpoints. *)
Record Response : Type := {
  success : bool;
  message : string
}.

(** [db.session.delete(t)] followed by the commit: the row with the
    primary key of [t] goes. *)
Definition session_delete (t : Transaction) (d : db) : db :=
  filter (fun r => negb (Z.eqb (id r) (id t))) d.

Definition delete_transaction (d : db) (uid : Z) (txn_id : Z) : db * Response :=
  let txn := find (fun t => Z.eqb (id t) txn_id && Z.eqb (user_id t) uid) d in
  match txn with
  | None => (d, {| success := false; message := "Transaction not found." |})
  | Some txn =>
      (session_delete txn d,
       {| success := true; message := "Transaction deleted." |})
  end.

Definition delete_month (d : db) (uid : Z) (year month : option Z) : db * Response :=
  match year, month with
  | Some y, Some m =>
      if negb (truthy year) || negb (truthy month) then
        (d, {| success := false; message := "Year and month required." |})
      else
        let txs := in_month m (in_year y (of_user uid d)) in
        let count := length txs in
        let d' := fold_left (fun d t => session_delete t d) txs d in
        (d', {| success := true;
                message := "Deleted " ++ str_int (Z.of_nat count)
                             ++ " transactions for " ++ str_int m ++ "/"
                             ++ str_int y ++ "." |})
  | _, _ => (d, {| success := false; message := "Year and month required." |})
  end.

Definition delete_year (d : db) (uid : Z) (year : option Z) : db * Response :=
  match year with
  | Some y =>
      if negb (truthy year) then
        (d, {| success := false; message := "Year required." |})
      else
        let txs := in_year y (of_user uid d) in
        let count := length txs in
        let d' := fold_left (fun d t => session_delete t d) txs d in
        (d', {| success := true;
                message := "Deleted " ++ str_int (Z.of_nat count)
                             ++ " transactions for year " ++ str_int y ++ "." |})
  | None => (d, {| success := false; message := "Year required." |})
  end.

(** What a form view answers with: the flashed messages with their
    categories, and the page. *)
Inductive page : Type :=
| Render (template : string)
| Redirect (endpoint : string).

Record Reply : Type := {
  flashed : list (string * string);
  page_ : page
}.

(** The primary key SQLite gives to a new row: one more than the
    largest in use, and 1 in an empty table. *)
Definition next_id (d : db) : Z := (fold_left Z.max (map id d) 0 + 1)%Z.

(** [add_transaction], from the parsed form on: [post] is
    [request.method == 'POST'], [tdate] is the date [strptime] returns
    ([None] when it raises), [amount] is the number [float] returns
    ([None] when it raises, which the view does not catch), and the other
    fields are the form values ([None] when the field is missing). *)
Definition add_transaction
    (d : db) (uid : Z) (post : bool) (tdate : option date) (amount : option Q)
    (ttype category description : option string) : Py.result (db * Reply) :=
  if post then
    match tdate with
    | None =>
        Py.Ok (d, {| flashed := [("Invalid date format.", "error")];
                     page_ := Render "add_transaction.html" |})
    | Some tdate =>
        match amount with
        | None => Py.Raise Py.ValueError
        | Some amount =>
            let category := match category with Some c => c | None => "Other" end in
            let description :=
              match description with Some s => s | None => EmptyString end in
            let rejected :=
              Py.Ok (d, {| flashed := [("Type must be income or expense.", "error")];
                           page_ := Render "add_transaction.html" |}) in
            match ttype with
            | None => rejected
            | Some ttype =>
                if negb (String.eqb ttype "income" || String.eqb ttype "expense")
                then rejected
                else
                  let tx := {| id := next_id d;
                               user_id := uid;
                               date_ := tdate;
                               Models.amount := amount;
                               Models.ttype := ttype;
                               Models.category := category;
                               Models.description := Some description |} in
                  Py.Ok ((d ++ [tx])%list,
                         {| flashed := [("Transaction added.", "success")];
                            page_ := Redirect "dashboard" |})
            end
        end
    end
  else
    Py.Ok (d, {| flashed := []; page_ := Render "add_transaction.html" |}).

(** The JSON object of [api_recommendations]. *)
Record Recommendations : Type := {
  recommendations : list string;
  next_month_expense_prediction : Q
}.

Definition api_recommendations (d : db) (uid : Z) : Py.result Recommendations :=
  recs <- Recommender.generate_recommendations d uid ;;
  pred <- Recommender.predict_next_month_expense d uid ;;
  Py.Ok {| recommendations := recs; next_month_expense_prediction := pred |}.

End App.

(* ================================================================= *)
(** ** More sample databases *)

Module Samples.

Import Models.

(** User 1 has income only. *)
Definition income_only : db :=
  [ Examples.tx 1 1 2024 1 1 900 "income" "Salary";
    Examples.tx 2 2 2024 1 2 50 "expense" "Food" ].


(** Two users over two years. *)
Definition ledger : db :=
  [ Examples.tx 1 1 2023 12 24 100 "expense" "Gifts";
    Examples.tx 2 2 2024 1 3 40 "expense" "Food";
    Examples.tx 3 1 2024 1 5 2000 "income" "Salary";
    Examples.tx 4 1 2024 1 9 600 "expense" "Rent";
    Examples.tx 5 1 2024 3 2 30 "expense" "Food";
    Examples.tx 6 1 2024 3 2 20 "expense" "Food" ].

End Samples.

(* ================================================================= *)
(** ** Vocabulary for the endpoints *)

Module AppSpec.

Import Models.

(** An optional request argument that is absent, zero, or within
    [lo .. hi]. *)
Definition absent_or_within (lo hi : Z) (o : option Z) : Prop :=
  match o with
  | Some n => n = 0%Z \/ (lo <= n <= hi)%Z
  | None => True
  end.

(** The number [n] passes the filter requested by [o]: an absent or
    zero argument requests no filter. *)
Definition passes (o : option Z) (n : Z) : bool :=
  match o with
  | Some k => (k =? 0)%Z || (n =? k)%Z
  | None => true
  end.

(** The transaction is of the requested year and month. *)
Definition selected (year month : option Z) (t : Transaction) : bool :=
  passes year (Models.year (date_ t)) && passes month (Models.month (date_ t)).

(** What user [uid] received ([t] = income) or spent ([t] = expense)
    in the requested year and month. *)
Definition selected_total
    (d : db) (uid : Z) (year month : option Z) (t : string) : Q :=
  Pandas.sum
    (map amount
       (filter (fun r => Z.eqb (user_id r) uid && selected year month r
                         && String.eqb (ttype r) t) d)).

(** What user [uid] spent in category [c] in the requested year and
    month. *)
Definition spent_in
    (d : db) (uid : Z) (year month : option Z) (c : string) : Q :=
  Pandas.sum
    (map amount
       (filter (fun r => Z.eqb (user_id r) uid && selected year month r
                         && String.eqb (ttype r) "expense"
                         && String.eqb (category r) c) d)).

(** The transaction is of the requested type: only [income] and
    [expense] request a filter. *)
Definition type_selected (t_type : option string) (t : Transaction) : bool :=
  match t_type with
  | Some s =>
      if String.eqb s "income" || String.eqb s "expense"
      then String.eqb (ttype t) s else true
  | None => true
  end.

(** A date with a day of the month. *)
Definition on_calendar_day (d : date) : Prop :=
  Spec.on_calendar d /\ (1 <= day d <= 31)%Z.

(** The position of a day on the calendar. *)
Definition day_index (d : date) : Z := (Spec.month_index d * 32 + day d)%Z.

(** The type of every row is one of the two kinds. *)
Definition valid_types (d : db) : Prop :=
  forall r, In r d -> ttype r = "income" \/ ttype r = "expense".

(** The primary key is a key. *)
Definition unique_ids (d : db) : Prop := NoDup (map id d).

End AppSpec.

(* ================================================================= *)
(** * The engine on IEEE doubles

    The amounts the application stores and the engine computes with are
    binary64 floating-point numbers.  The modules below embed the same
    source lines once more with that arithmetic: an amount is a [float],
    the literals [1.2], [0.2] and [0.0] are the doubles Python reads, and
    every operation written in the source rounds as IEEE 754 prescribes.

    What the source delegates to pandas and scikit-learn (adding up a
    column, averaging it, sorting it, fitting and evaluating a line) is
    code outside the repository whose rounding the repository does not
    fix.  The engine therefore takes these operations as a parameter, a
    record of [kernels], and the theorems about it hold for every choice
    of them; [plain] and [compensated] are two concrete choices used to
    evaluate the engine on sample data. *)

#[local] Set Warnings "-inexact-float".

(* ================================================================= *)
(** ** Python: [float] *)

Module Double.

Import Floats.

(** [a > b] *)
Definition gt (a b : float) : bool := PrimFloat.ltb b a.

(** The builtin [max(a, b)]: the first argument, unless the second is
    strictly greater.  A [nan] first argument is returned as it is, since
    no comparison with it holds. *)
Definition max (a b : float) : float :=
  if PrimFloat.ltb a b then b else a.

(** Neither an infinity nor [nan]. *)
Definition isfinite (x : float) : bool :=
  match Prim2SF x with
  | S754_zero _ | S754_finite _ _ _ => true
  | S754_infinity _ | S754_nan => false
  end.

(** The real number a finite double stands for, as a fraction in lowest
    terms ([0] for the infinities and [nan]). *)
Definition value (x : float) : Q :=
  match Prim2SF x with
  | S754_finite s m e => Qred (inject_Z (cond_Zopp s (Zpos m)) * Qpower 2 e)
  | S754_zero _ | S754_infinity _ | S754_nan => 0
  end.

(** [float(n)] of an integer: the nearest double. *)
Definition of_int (n : Z) : float :=
  SF2Prim (binary_normalize prec emax n 0 false).

(** [f'{x:.<d>f}'] of a double: the decimal expansion of its exact
    value, rounded at the [d]-th decimal; [nan], [inf] and the sign of a
    negative zero are printed as such. *)
Definition fixed (d : nat) (x : float) : string :=
  match Prim2SF x with
  | S754_nan => "nan"
  | S754_infinity s => if s then "-inf" else "inf"
  | S754_zero s => if s then "-" ++ Fmt.fixed d 0 else Fmt.fixed d 0
  | S754_finite _ _ _ => Fmt.fixed d (value x)
  end.

End Double.

(* ================================================================= *)
(** ** pandas and scikit-learn on doubles *)

Module Library.

Import Floats.

(** The numeric operations of the libraries the engine calls. *)
Record kernels : Type := {
  (** the total of one group of [groupby(...)['amount'].sum()], from the
      amounts of the group in row order *)
  group_sum : list float -> float;
  (** [Series.sum()] *)
  series_sum : list float -> float;
  (** [Series.mean()] *)
  series_mean : list float -> float;
  (** [Series.sort_values(ascending=False)] *)
  sort_values_desc : list (string * float) -> list (string * float);
  (** a fitted [LinearRegression] *)
  model : Type;
  (** [LinearRegression().fit(X, y)] on an integer column [X] *)
  fit : list Z -> list float -> result model;
  (** [model.predict([[x]])[0]] *)
  predict : model -> Z -> float
}.

(** A total of amounts none of which is below zero is not below zero. *)
Definition keeps_sign (k : kernels) : Prop :=
  forall l : list float,
    (forall x, In x l -> PrimFloat.ltb x 0%float = false) ->
    PrimFloat.ltb (group_sum k l) 0%float = false.

(** A series with labels, as [groupby(...).sum()] returns it. *)
Definition Series : Type := list (string * float).

Definition values (s : Series) : list float := map snd s.
Definition index (s : Series) : list string := map fst s.

(** Put the row [v] into the group labelled [k]: the groups are kept in
    ascending label order and each group keeps its rows in row order. *)
Fixpoint add_to_group (k : string) (v : float) (g : list (string * list float))
    : list (string * list float) :=
  match g with
  | [] => [(k, [v])]
  | (k', vs) :: g' =>
      match String_as_OT.compare k k' with
      | Eq => (k', (vs ++ [v])%list) :: g'
      | Lt => (k, [v]) :: g
      | Gt => (k', vs) :: add_to_group k v g'
      end
  end.

(** [df.groupby(key)]: the rows of each label, the labels sorted. *)
Definition groupby (rows : list (string * float)) : list (string * list float) :=
  fold_left (fun g kv => add_to_group (fst kv) (snd kv) g) rows [].

(** [df.groupby(key)['amount'].sum()] *)
Definition groupby_sum (k : kernels) (rows : list (string * float)) : Series :=
  map (fun g => (fst g, group_sum k (snd g))) (groupby rows).

(** [s.iloc[-1]]: raises [IndexError] on an empty series. *)
Definition iloc_last (l : list float) : result float :=
  match rev l with
  | [] => Raise IndexError
  | x :: _ => Ok x
  end.

(** [s.iloc[:-1]] *)
Definition iloc_init (l : list float) : list float := removelast l.

(** [s.head(n)] *)
Definition head (n : nat) (s : Series) : Series := firstn n s.

(** *** Two concrete sets of kernels *)

(** A column added up by a plain loop, from [0.0] on, in row order. *)
Definition loop_sum (l : list float) : float :=
  fold_left PrimFloat.add l 0%float.

(** A column added up with Kahan's compensation, as the grouped sum of
    recent pandas versions does; a compensation that is [nan] is reset. *)
Fixpoint kahan_loop (l : list float) (sumx comp : float) : float :=
  match l with
  | [] => sumx
  | val :: l' =>
      let y := (val - comp)%float in
      let t := (sumx + y)%float in
      let c := (t - sumx - y)%float in
      kahan_loop l' t (if PrimFloat.is_nan c then 0%float else c)
  end.

Definition kahan_sum (l : list float) : float := kahan_loop l 0%float 0%float.

(** The sum divided by the number of elements; [nan] on no element. *)
Definition average (l : list float) : float :=
  (loop_sum l / Double.of_int (Z.of_nat (length l)))%float.

(** An entry goes after the entries that are not smaller; [nan] goes
    last. *)
Fixpoint insert_desc (e : string * float) (s : Series) : Series :=
  match s with
  | [] => [e]
  | e' :: s' =>
      if PrimFloat.is_nan (snd e) then e' :: insert_desc e s'
      else if PrimFloat.is_nan (snd e') then e :: s
      else if PrimFloat.leb (snd e) (snd e') then e' :: insert_desc e s'
      else e :: s
  end.

Definition insertion_sort_desc (s : Series) : Series :=
  fold_left (fun acc e => insert_desc e acc) s [].

(** A fitted line. *)
Record line : Type := Line { coef_ : float; intercept_ : float }.

Fixpoint dot_from (acc : float) (u v : list float) : float :=
  match u, v with
  | a :: u', b :: v' => dot_from (acc + a * b)%float u' v'
  | _, _ => acc
  end.

(** Least squares on one feature by scikit-learn's formulas: the
    target is checked to be finite, both columns are centred on their
    averages, the centred data are checked to be finite, the coefficient
    is the quotient of the two dot products and the intercept is
    recovered from the averages.  The solver scikit-learn calls rounds
    differently in the last digits. *)
Definition centred_fit (X : list Z) (y : list float) : result line :=
  if (length X =? 0)%nat then Raise ValueError
  else if negb (length X =? length y)%nat then Raise ValueError
  else if negb (forallb Double.isfinite y) then Raise ValueError
  else
    let Xf := map Double.of_int X in
    let X_offset := average Xf in
    let y_offset := average y in
    let Xc := map (fun v => v - X_offset)%float Xf in
    let yc := map (fun v => v - y_offset)%float y in
    if negb (forallb Double.isfinite (Xc ++ yc)%list) then Raise ValueError
    else
      let sxx := dot_from 0%float Xc Xc in
      let coef := if PrimFloat.eqb sxx 0%float then 0%float
                  else (dot_from 0%float Xc yc / sxx)%float in
      Ok (Line coef (y_offset - X_offset * coef)%float).

Definition line_at (m : line) (x : Z) : float :=
  (Double.of_int x * coef_ m + intercept_ m)%float.

(** Plain loops throughout. *)
Definition plain : kernels :=
  {| group_sum := loop_sum;
     series_sum := loop_sum;
     series_mean := average;
     sort_values_desc := insertion_sort_desc;
     model := line;
     fit := centred_fit;
     predict := line_at |}.

(** The same with compensated grouped sums. *)
Definition compensated : kernels :=
  {| group_sum := kahan_sum;
     series_sum := loop_sum;
     series_mean := average;
     sort_values_desc := insertion_sort_desc;
     model := line;
     fit := centred_fit;
     predict := line_at |}.

End Library.

(* ================================================================= *)
(** ** [models.py] and [ml/recommender.py] on doubles *)

Module Ieee.

Import Floats Library.

(** A row of the [transaction] table. *)
Record Transaction : Type := {
  id : Z;
  user_id : Z;
  date_ : Models.date;
  amount : float;          (* always positive *)
  ttype : string;          (* 'income' or 'expense' *)
  category : string;
  description : option string
}.

Definition db : Type := list Transaction.

(** A row of the DataFrame built by [_query_user_df]. *)
Record Row : Type := {
  r_date : Models.date;
  r_amount : float;
  r_type : string;
  r_category : string
}.

Definition DataFrame : Type := list Row.

(** [df.empty] *)
Definition empty (df : DataFrame) : bool :=
  match df with
  | [] => true
  | _ :: _ => false
  end.

(** [df[df['type'] == t]] *)
Definition of_type (t : string) (df : DataFrame) : DataFrame :=
  filter (fun r => String.eqb (r_type r) t) df.

Definition to_row (r : Transaction) : Row :=
  {| r_date := date_ r;
     r_amount := amount r;
     r_type := ttype r;
     r_category := category r |}.

Definition _query_user_df (d : db) (uid : Z) : DataFrame :=
  let rows := filter (fun r => Z.eqb (user_id r) uid) d in
  map to_row rows.

Definition amounts (df : DataFrame) : list float := map r_amount df.

Definition predict_next_month_expense
    (k : kernels) (d : db) (uid : Z) : result float :=
  let df := _query_user_df d uid in
  if empty df then Ok 0%float
  else
    let expenses := of_type "expense" df in
    if empty expenses then Ok 0%float
    else
      let m := groupby_sum k
                 (map (fun r => (Recommender.ym (r_date r), r_amount r)) expenses) in
      if (length m <? 2)%nat then
        if (0 <? length m)%nat then iloc_last (values m)
        else Ok 0%float
      else
        let idx := Py.range 1 (Z.of_nat (length m) + 1) in
        let X := idx in
        let y := values m in
        model <- fit k X y ;;
        mx <- Pandas.max idx ;;
        let next_idx := (mx + 1)%Z in
        let pred := predict k model next_idx in
        Ok (Double.max pred 0%float).

Definition msg_savings_rate (pct : float) : string :=
  "Your overall savings rate is " ++ Double.fixed 1 pct
    ++ "%. Aim for 20%+ as a baseline.".

Definition msg_high_spend (cv : string * float) : string :=
  "High spend in " ++ Recommender.dquote ++ fst cv ++ Recommender.dquote
    ++ " category: ₹" ++ Double.fixed 0 (snd cv)
    ++ ". Consider setting a monthly cap or finding cheaper alternatives.".

Definition msg_predicted_target (pred target_save : float) : string :=
  "Predicted next month expense: ₹" ++ Double.fixed 0 pred
    ++ ". Set a savings target of at least ₹" ++ Double.fixed 0 target_save ++ ".".

Definition msg_predicted_only (pred : float) : string :=
  "Predicted next month expense: ₹" ++ Double.fixed 0 pred
    ++ ". Add income to compute a savings target.".

Definition generate_recommendations
    (k : kernels) (d : db) (uid : Z) : result (list string) :=
  let df := _query_user_df d uid in
  let recs : list string := [] in
  if empty df then Ok (append recs Recommender.msg_no_data)
  else
    (* Basic ratios *)
    let total_income := series_sum k (amounts (of_type "income" df)) in
    let total_expense := series_sum k (amounts (of_type "expense" df)) in
    let recs :=
      if Double.gt total_income 0%float then
        let savings_rate :=
          Double.max ((total_income - total_expense) / total_income)%float 0%float in
        append recs (msg_savings_rate (savings_rate * 100)%float)
      else append recs Recommender.msg_add_income in
    (* Category suggestions (top 3 spend categories) *)
    let cat := sort_values_desc k
                 (groupby_sum k
                    (map (fun r => (r_category r, r_amount r))
                         (of_type "expense" df))) in
    let top3 := head 3 cat in
    let recs := fold_left (fun recs cv => append recs (msg_high_spend cv)) top3 recs in
    (* Volatility check: if last month higher than prior avg *)
    recs <- (if negb (empty (of_type "expense" df)) then
               let expenses := of_type "expense" df in
               let monthly := groupby_sum k
                                (map (fun r => (Recommender.ym (r_date r), r_amount r))
                                     expenses) in
               if (2 <=? length monthly)%nat then
                 last <- iloc_last (values monthly) ;;
                 let prev_avg := series_mean k (iloc_init (values monthly)) in
                 if Double.gt last (1.2 * prev_avg)%float
                 then Ok (append recs Recommender.msg_volatility)
                 else Ok recs
               else Ok recs
             else Ok recs) ;;
    (* Prediction informed suggestion *)
    pred <- predict_next_month_expense k d uid ;;
    if Double.gt total_income 0%float then
      let target_save := Double.max (total_income * 0.2)%float 0%float in
      Ok (append recs (msg_predicted_target pred target_save))
    else
      Ok (append recs (msg_predicted_only pred)).

End Ieee.

(* ================================================================= *)
(** ** [app.py] on doubles: the endpoints that read or store an amount *)

Module IeeeApp.

Import Floats Library Ieee.

(** The JSON object of [api_recommendations]. *)
Record Recommendations : Type := {
  recommendations : list string;
  next_month_expense_prediction : float
}.

Definition api_recommendations
    (k : kernels) (d : db) (uid : Z) : result Recommendations :=
  recs <- generate_recommendations k d uid ;;
  pred <- predict_next_month_expense k d uid ;;
  Ok {| recommendations := recs; next_month_expense_prediction := pred |}.

(** What [add_transaction] lets escape: the [ValueError] of [float] on
    text that is no number, and the [IntegrityError] of the commit. *)
Inductive escape : Type :=
| FloatValueError
| IntegrityError.

Inductive answer (A : Type) : Type :=
| Answer (a : A)
| Escapes (e : escape).

Arguments Answer {A} a.
Arguments Escapes {A} e.

(** The primary key SQLite gives to a new row: one more than the
    largest in use, and 1 in an empty table. *)
Definition next_id (d : db) : Z := (fold_left Z.max (map id d) 0 + 1)%Z.

(** [add_transaction], from the parsed form on: [post] is
    [request.method == 'POST'], [tdate] is the date [strptime] returns
    ([None] when it raises), [amount] is the double [float] returns
    ([None] when it raises, which the view does not catch; [float] reads
    [nan] and [inf] as numbers), and the other fields are the form values
    ([None] when the field is missing).  SQLite stores a [nan] as NULL,
    which the NOT NULL constraint of the column refuses at the commit. *)
Definition add_transaction
    (d : db) (uid : Z) (post : bool) (tdate : option Models.date)
    (amount : option float) (ttype category description : option string)
    : answer (db * App.Reply) :=
  if post then
    match tdate with
    | None =>
        Answer (d, {| App.flashed := [("Invalid date format.", "error")];
                      App.page_ := App.Render "add_transaction.html" |})
    | Some tdate =>
        match amount with
        | None => Escapes FloatValueError
        | Some amount =>
            let category := match category with Some c => c | None => "Other" end in
            let description :=
              match description with Some s => s | None => EmptyString end in
            let rejected :=
              Answer (d, {| App.flashed := [("Type must be income or expense.", "error")];
                            App.page_ := App.Render "add_transaction.html" |}) in
            match ttype with
            | None => rejected
            | Some ttype =>
                if negb (String.eqb ttype "income" || String.eqb ttype "expense")
                then rejected
                else
                  let tx := {| id := next_id d;
                               user_id := uid;
                               date_ := tdate;
                               Ieee.amount := amount;
                               Ieee.ttype := ttype;
                               Ieee.category := category;
                               Ieee.description := Some description |} in
                  if PrimFloat.is_nan amount then Escapes IntegrityError
                  else
                    Answer ((d ++ [tx])%list,
                            {| App.flashed := [("Transaction added.", "success")];
                               App.page_ := App.Redirect "dashboard" |})
            end
        end
    end
  else
    Answer (d, {| App.flashed := []; App.page_ := App.Render "add_transaction.html" |}).

End IeeeApp.

(* ================================================================= *)
(** ** Vocabulary for the engine on doubles *)

Module IeeeSpec.

Import Floats Library Ieee.

(** The transactions of user [uid]. *)
Definition transactions_of (d : db) (uid : Z) : list Transaction :=
  filter (fun t => Z.eqb (user_id t) uid) d.

(** The expense transactions of user [uid]. *)
Definition expenses_of (d : db) (uid : Z) : list Transaction :=
  filter (fun t => Z.eqb (user_id t) uid && String.eqb (ttype t) "expense") d.

(** The amounts user [uid] spent in the month with token [m], in the
    order of the stored rows. *)
Definition month_amounts (d : db) (uid : Z) (m : string) : list float :=
  map amount
    (filter (fun t => String.eqb (Recommender.ym (date_ t)) m) (expenses_of d uid)).

(** [months] lists, in ascending order and once each, the month tokens
    in which user [uid] has an expense. *)
Definition month_list (d : db) (uid : Z) (months : list string) : Prop :=
  StronglySorted String_as_OT.lt months
  /\ forall m, In m months
               <-> exists t, In t (expenses_of d uid) /\ Recommender.ym (date_ t) = m.

(** The amounts user [uid] spent in category [c], in the order of the
    stored rows. *)
Definition category_amounts (d : db) (uid : Z) (c : string) : list float :=
  map amount (filter (fun t => String.eqb (category t) c) (expenses_of d uid)).

(** [cats] lists, in ascending order and once each, the categories in
    which user [uid] has an expense. *)
Definition category_list (d : db) (uid : Z) (cats : list string) : Prop :=
  StronglySorted String_as_OT.lt cats
  /\ forall c, In c cats <-> exists t, In t (expenses_of d uid) /\ category t = c.

(** The total of each month of [months], as the library adds it up. *)
Definition month_totals
    (k : kernels) (d : db) (uid : Z) (months : list string) : list float :=
  map (fun m => group_sum k (month_amounts d uid m)) months.

(** The positional index column [1, 2, ..., n]. *)
Definition positions (n : nat) : list Z := Py.range 1 (Z.of_nat n + 1).

(** What user [uid] earned and spent overall, as the library adds it up. *)
Definition total_income (k : kernels) (d : db) (uid : Z) : float :=
  series_sum k
    (map amount
       (filter (fun t => Z.eqb (user_id t) uid && String.eqb (ttype t) "income") d)).

Definition total_expense (k : kernels) (d : db) (uid : Z) : float :=
  series_sum k (map amount (expenses_of d uid)).

(** The condition of the volatility check on the monthly totals [ys]:
    there are two or more, and the last one is above the product, in
    double precision, of [1.2] and the library's mean of the others. *)
Definition exceeds_average (k : kernels) (ys : list float) : bool :=
  (2 <=? length ys)%nat
  && PrimFloat.ltb (1.2 * series_mean k (removelast ys))%float (last ys 0%float).

(** The mean of the real numbers a column of doubles stands for. *)
Definition exact_mean (ys : list float) : Q :=
  Pandas.sum (map Double.value ys) / inject_Z (Z.of_nat (length ys)).

(** The same comparison in exact arithmetic: the real number the last
    total stands for is above 1.2 times the mean of the real numbers the
    others stand for. *)
Definition exceeds_average_exactly (ys : list float) : Prop :=
  (2 <= length ys)%nat
  /\ (6 # 5) * exact_mean (removelast ys) < Double.value (last ys 0%float).

(** No amount is below zero (nor [nan]). *)
Definition amounts_nonnegative (d : db) : Prop :=
  forall t, In t d -> PrimFloat.leb 0%float (amount t) = true.

(** Every amount is a finite number. *)
Definition amounts_finite (d : db) : Prop :=
  forall t, In t d -> Double.isfinite (amount t) = true.

(** The type of every row is one of the two kinds. *)
Definition valid_types (d : db) : Prop :=
  forall t, In t d -> ttype t = "income" \/ ttype t = "expense".

(** The first and the last recommendation of a user with transactions. *)
Definition rec_first (k : kernels) (d : db) (uid : Z) : string :=
  let ti := total_income k d uid in
  let te := total_expense k d uid in
  if Double.gt ti 0%float
  then msg_savings_rate (Double.max ((ti - te) / ti)%float 0%float * 100)%float
  else Recommender.msg_add_income.

Definition rec_last (k : kernels) (d : db) (uid : Z) (pred : float) : string :=
  let ti := total_income k d uid in
  if Double.gt ti 0%float
  then msg_predicted_target pred (Double.max (ti * 0.2)%float 0%float)
  else msg_predicted_only pred.

(** The categories the engine reports, with their totals. *)
Definition top_categories (k : kernels) (d : db) (uid : Z) : Series :=
  head 3
    (sort_values_desc k
       (groupby_sum k (map (fun t => (category t, amount t)) (expenses_of d uid)))).

(** The part of [predict_next_month_expense] that follows the
    grouping, as a function of the monthly totals. *)
Definition forecast (k : kernels) (ys : list float) : result float :=
  if (length ys <? 2)%nat then
    if (0 <? length ys)%nat then iloc_last ys else Ok 0%float
  else
    model <- fit k (positions (length ys)) ys ;;
    Ok (Double.max (predict k model (Z.of_nat (length ys) + 1)) 0%float).

(** The primary key is a key. *)
Definition unique_ids (d : db) : Prop := NoDup (map id d).

End IeeeSpec.

(* ================================================================= *)
(** ** Sample databases with doubles *)

Module IeeeSamples.

Import Floats Ieee.

Definition tx (i u : Z) (y m dd : Z) (a : float) (t c : string) : Transaction :=
  {| id := i; user_id := u; date_ := Models.Date y m dd; amount := a;
     ttype := t; category := c; description := None |}.

(** User 1 spent 7.0 in January and 8.4 in February. *)
Definition seven_then_8_4 : db :=
  [ tx 1 1 2024 1 5 7.0%float "expense" "Food";
    tx 2 1 2024 2 5 8.4%float "expense" "Food" ].

(** User 1 spent 100 in each of three months and [x] in the fourth. *)
Definition three_flat_then (x : float) : db :=
  [ tx 1 1 2024 1 5 100%float "expense" "Food";
    tx 2 1 2024 2 5 100%float "expense" "Food";
    tx 3 1 2024 3 5 100%float "expense" "Food";
    tx 4 1 2024 4 5 x "expense" "Food" ].

(** User 1 spent 1e308 twice in January and 1 in February. *)
Definition two_huge_then_one : db :=
  [ tx 1 1 2024 1 5 1e308%float "expense" "Rent";
    tx 2 1 2024 1 6 1e308%float "expense" "Rent";
    tx 3 1 2024 2 5 1%float "expense" "Food" ].

(** User 1 spent 1e308 in January and 1 in February. *)
Definition huge_then_one : db :=
  [ tx 1 1 2024 1 5 1e308%float "expense" "Rent";
    tx 2 1 2024 2 5 1%float "expense" "Food" ].

(** User 1 spent 500 in January and 100 in February. *)
Definition two_months_down : db :=
  [ tx 1 1 2024 1 5 500%float "expense" "Rent";
    tx 2 1 2024 2 5 100%float "expense" "Rent" ].

(** User 1 spent 100 in January and 200 in March (nothing in
    February); the rows are stored out of order, among rows of user 2. *)
Definition two_months_up : db :=
  [ tx 1 1 2024 3 3 150%float "expense" "Rent";
    tx 2 2 2024 2 9 999%float "expense" "Travel";
    tx 3 1 2024 1 7 60%float "expense" "Food";
    tx 4 1 2024 3 20 50%float "expense" "Food";
    tx 5 1 2024 1 30 40%float "expense" "Rent";
    tx 6 1 2024 2 1 5000%float "income" "Salary" ].

(** The expenses of [two_months_up] under other categories and days,
    month after month, for user 7, among an income row and a row of
    user 1. *)
Definition two_months_other : db :=
  [ tx 10 7 2024 1 31 60%float "expense" "Misc";
    tx 11 7 2024 2 14 5000%float "income" "Salary";
    tx 12 7 2024 1 2 40%float "expense" "Gifts";
    tx 13 1 2024 1 1 77%float "expense" "Food";
    tx 14 7 2024 3 9 150%float "expense" "Misc";
    tx 15 7 2024 3 10 50%float "expense" "Misc" ].

(** User 1 spent 1, 1 and 2 in three months. *)
Definition one_one_two : db :=
  [ tx 1 1 2024 1 5 1%float "expense" "Food";
    tx 2 1 2024 2 5 1%float "expense" "Food";
    tx 3 1 2024 3 5 2%float "expense" "Food" ].

(** Three expenses of user 1 in one month, of 0.25, 2^53 and 1, and the
    same rows with the last two exchanged. *)
Definition quarter_big_one : db :=
  [ tx 1 1 2024 1 5 0.25%float "expense" "Food";
    tx 2 1 2024 1 6 9007199254740992%float "expense" "Rent";
    tx 3 1 2024 1 7 1%float "expense" "Food" ].

Definition quarter_one_big : db :=
  [ tx 1 1 2024 1 5 0.25%float "expense" "Food";
    tx 3 1 2024 1 7 1%float "expense" "Food";
    tx 2 1 2024 1 6 9007199254740992%float "expense" "Rent" ].

End IeeeSamples.

Import Models Recommender Spec.

(* ================================================================= *)
(** * Theorems *)

(** ** The order on labels *)

Lemma str_lt_irrefl (a : string) : ~ String_as_OT.lt a a.
Proof. apply (StrictOrder_Irreflexive a). Qed.

Lemma str_lt_trans (a b c : string) :
  String_as_OT.lt a b -> String_as_OT.lt b c -> String_as_OT.lt a c.
Proof. apply (StrictOrder_Transitive a b c). Qed.

Ltac str_absurd :=
  exfalso;
  match goal with
  | H : String_as_OT.lt ?a ?a |- _ => exact (str_lt_irrefl a H)
  | H1 : String_as_OT.lt ?a ?b, H2 : String_as_OT.lt ?b ?a |- _ =>
      exact (str_lt_irrefl a (str_lt_trans a b a H1 H2))
  | H1 : String_as_OT.lt ?a ?b, H2 : String_as_OT.lt ?b ?c,
    H3 : String_as_OT.lt ?c ?a |- _ =>
      exact (str_lt_irrefl a (str_lt_trans a c a (str_lt_trans a b c H1 H2) H3))
  end.

Ltac cmp_cases :=
  repeat match goal with
         | |- context [String_as_OT.compare ?a ?b] =>
             destruct (String_as_OT.compare_spec a b);
             unfold String_as_OT.eq in *; subst; simpl
         end.

(** ** Month tokens follow the calendar *)

Section Calendar.

Lemma str_compare_refl (a : string) : String_as_OT.compare a a = Eq.
Proof.
  destruct (String_as_OT.compare_spec a a) as [_|H|H];
    [reflexivity | | ]; destruct (str_lt_irrefl a H).
Qed.

Lemma str_compare_gt (a b : string) :
  String_as_OT.lt b a -> String_as_OT.compare a b = Gt.
Proof.
  intros H. destruct (String_as_OT.compare_spec a b) as [E|H'|_].
  - unfold String_as_OT.eq in E. subst. destruct (str_lt_irrefl b H).
  - destruct (str_lt_irrefl a (str_lt_trans a b a H' H)).
  - reflexivity.
Qed.

(** Comparison is lexicographic over prefixes of equal length. *)
Lemma str_compare_app (a b s t : string) :
  String.length a = String.length b ->
  String_as_OT.compare (a ++ s) (b ++ t)
  = match String_as_OT.compare a b with
    | Eq => String_as_OT.compare s t
    | c => c
    end.
Proof.
  revert b. induction a as [|x a IH]; intros [|y b] Hlen;
    simpl in Hlen; try discriminate.
  - reflexivity.
  - cbn [String.append String_as_OT.compare].
    destruct (Ascii_as_OT.compare x y); [|reflexivity ..].
    apply IH. now injection Hlen.
Qed.

Lemma enum_from_nth (A : Type) (f : Z -> A) (dflt : A) (n : nat) :
  forall (i : Z) (k : nat),
    (k < n)%nat -> nth k (enum_from f n i) dflt = f (i + Z.of_nat k)%Z.
Proof.
  induction n as [|n IH]; intros i k Hk; [lia|].
  destruct k as [|k]; cbn [enum_from nth].
  - f_equal. lia.
  - rewrite IH by lia. f_equal. lia.
Qed.

Lemma enum_from_length (A : Type) (f : Z -> A) (n : nat) (i : Z) :
  length (enum_from f n i) = n.
Proof.
  revert i. induction n as [|n IH]; intros i; simpl; auto.
Qed.

Lemma increasing_nth (l : list string) :
  increasing l = true ->
  forall i j, (i < j < length l)%nat ->
    String_as_OT.lt (nth i l EmptyString) (nth j l EmptyString).
Proof.
  induction l as [|a l IH]; intros Hinc i j Hij; [simpl in Hij; lia|].
  destruct l as [|b l]; [simpl in Hij; lia|].
  cbn [increasing] in Hinc.
  destruct (String_as_OT.compare a b) eqn:Hab; try discriminate.
  destruct j as [|j]; [lia|].
  destruct i as [|i].
  - cbn [nth]. destruct j as [|j]; [exact Hab|].
    apply (str_lt_trans a b); [exact Hab|].
    apply (IH Hinc 0%nat (S j)). simpl in *. lia.
  - apply (IH Hinc i j). simpl in *. lia.
Qed.

Lemma enum_increasing (f : Z -> string) (n : nat) (lo : Z) :
  increasing (enum_from f n lo) = true ->
  forall x y : Z,
    (lo <= x < y)%Z -> (y < lo + Z.of_nat n)%Z ->
    String_as_OT.lt (f x) (f y).
Proof.
  intros Hinc x y Hxy Hy.
  pose proof (increasing_nth _ Hinc (Z.to_nat (x - lo)) (Z.to_nat (y - lo))) as H.
  rewrite enum_from_length in H.
  rewrite !(enum_from_nth _ f EmptyString n lo) in H by lia.
  replace (lo + Z.of_nat (Z.to_nat (x - lo)))%Z with x in H by lia.
  replace (lo + Z.of_nat (Z.to_nat (y - lo)))%Z with y in H by lia.
  apply H. lia.
Qed.

Lemma year_tokens_increasing :
  increasing (enum_from year_token (Z.to_nat 10000) 0) = true.
Proof. vm_compute. reflexivity. Qed.

Lemma year_tokens_length :
  forallb (fun s => (String.length s =? 4)%nat)
          (enum_from year_token (Z.to_nat 10000) 0) = true.
Proof. vm_compute. reflexivity. Qed.

Lemma month_tokens_increasing :
  increasing (enum_from month_token 12 1) = true.
Proof. vm_compute. reflexivity. Qed.

Lemma year_token_length (y : Z) :
  (0 <= y <= 9999)%Z -> String.length (year_token y) = 4%nat.
Proof.
  intros Hy. pose proof year_tokens_length as H.
  rewrite forallb_forall in H.
  apply Nat.eqb_eq, H.
  rewrite <- (Z.add_0_l y), <- (Z2Nat.id y) by lia.
  rewrite <- (enum_from_nth _ year_token EmptyString (Z.to_nat 10000) 0) by lia.
  apply nth_In. rewrite enum_from_length. lia.
Qed.

Lemma year_token_lt (y y' : Z) :
  (0 <= y < y')%Z -> (y' <= 9999)%Z ->
  String_as_OT.lt (year_token y) (year_token y').
Proof.
  intros H H'. apply (enum_increasing _ _ 0 year_tokens_increasing); lia.
Qed.

Lemma month_token_lt (m m' : Z) :
  (1 <= m < m')%Z -> (m' <= 12)%Z ->
  String_as_OT.lt (month_token m) (month_token m').
Proof.
  intros H H'. apply (enum_increasing _ _ 1 month_tokens_increasing); lia.
Qed.

Lemma ym_compare (d d' : date) :
  on_calendar d -> on_calendar d' ->
  String_as_OT.compare (ym d) (ym d')
  = (month_index d ?= month_index d')%Z.
Proof.
  intros [Hy Hm] [Hy' Hm']. unfold ym, month_index.
  fold (year_token (year d)) (year_token (year d')).
  fold (month_token (month d)) (month_token (month d')).
  rewrite str_compare_app by (rewrite !year_token_length; auto).
  cbn [String.append String_as_OT.compare].
  change (Ascii_as_OT.compare "-" "-") with Eq. cbv iota.
  destruct (Z.lt_trichotomy (year d) (year d')) as [Hlt|[Heq|Hgt]].
  - pose proof (year_token_lt _ _ (conj (proj1 Hy) Hlt) (proj2 Hy')) as H.
    unfold String_as_OT.lt in H. rewrite H. symmetry. apply Z.compare_lt_iff. lia.
  - rewrite Heq, str_compare_refl.
    destruct (Z.lt_trichotomy (month d) (month d')) as [Mlt|[Meq|Mgt]].
    + pose proof (month_token_lt _ _ (conj (proj1 Hm) Mlt) (proj2 Hm')) as H.
      unfold String_as_OT.lt in H. rewrite H. symmetry. apply Z.compare_lt_iff. lia.
    + rewrite Meq, str_compare_refl. symmetry. apply Z.compare_eq_iff. lia.
    + rewrite str_compare_gt
        by (apply month_token_lt; lia).
      symmetry. apply Z.compare_gt_iff. lia.
  - rewrite str_compare_gt by (apply year_token_lt; lia).
    symmetry. apply Z.compare_gt_iff. lia.
Qed.

(** The order of the month tokens is the order of the months: the
    monthly series, ascending in its tokens, is chronological. *)
Lemma ym_chronological (d d' : date) :
  on_calendar d -> on_calendar d' ->
  (String_as_OT.lt (ym d) (ym d') <-> (month_index d < month_index d')%Z).
Proof.
  intros H H'. unfold String_as_OT.lt. rewrite (ym_compare d d' H H').
  apply Z.compare_lt_iff.
Qed.

End Calendar.

(** ** Grouping *)

Section Grouping.

Import Pandas.


(** *** What a group holds *)

Lemma total_nil (k : string) : total k [] == 0.
Proof. reflexivity. Qed.

Lemma total_cons (k k' : string) (v : Q) (rows : list (string * Q)) :
  total k ((k', v) :: rows)
  == (if String.eqb k' k then v else 0) + total k rows.
Proof.
  unfold total; simpl. destruct (String.eqb k' k); simpl; ring.
Qed.

Lemma total_add_to_group (k k' : string) (v : Q) (g : Series) :
  total k (add_to_group k' v g)
  == total k g + (if String.eqb k' k then v else 0).
Proof.
  induction g as [|[k0 s] g IH]; simpl.
  - rewrite total_cons, total_nil. ring.
  - cmp_cases; rewrite !total_cons; try rewrite IH;
      repeat match goal with
             | |- context [String.eqb ?a ?b] => destruct (String.eqb a b)
             end; ring.
Qed.

Lemma total_fold (k : string) (rows : list (string * Q)) (g : Series) :
  total k (fold_left (fun g kv => add_to_group (fst kv) (snd kv) g) rows g)
  == total k g + total k rows.
Proof.
  revert g. induction rows as [|[k' v] rows IH]; intros g; simpl.
  - rewrite total_nil. ring.
  - rewrite IH, total_add_to_group, total_cons. ring.
Qed.

(** The entries labelled [k] of the grouped series add up to the
    amounts labelled [k] in the rows. *)
Lemma total_groupby_sum (k : string) (rows : list (string * Q)) :
  total k (groupby_sum rows) == total k rows.
Proof.
  unfold groupby_sum. rewrite total_fold, total_nil. ring.
Qed.

(** *** The labels of a grouped series: ascending, hence distinct *)

Lemma add_to_group_index (k k' : string) (v : Q) (g : Series) :
  In k (index (add_to_group k' v g)) <-> k = k' \/ In k (index g).
Proof.
  induction g as [|[k0 s] g IH]; simpl.
  - intuition.
  - cmp_cases; try rewrite IH; intuition.
Qed.

Lemma add_to_group_ascending (k : string) (v : Q) (g : Series) :
  ascending g -> ascending (add_to_group k v g).
Proof.
  unfold ascending.
  induction g as [|[k0 s] g IH]; simpl; intros H.
  - repeat constructor.
  - inversion H as [|? ? Hs Hall]; subst.
    cmp_cases.
    + constructor; auto.
    + constructor; [constructor; auto|].
      constructor; auto.
      eapply Forall_impl; [|exact Hall]. intros a Ha.
      eapply str_lt_trans; eauto.
    + constructor; [apply IH; auto|].
      apply Forall_forall. intros x Hx.
      apply add_to_group_index in Hx. destruct Hx as [->|Hx]; auto.
      rewrite Forall_forall in Hall. auto.
Qed.

Lemma fold_ascending (rows : list (string * Q)) (g : Series) :
  ascending g ->
  ascending (fold_left (fun g kv => add_to_group (fst kv) (snd kv) g) rows g).
Proof.
  revert g. induction rows as [|[k v] rows IH]; simpl; intros g H; auto.
  apply IH, add_to_group_ascending, H.
Qed.

Lemma groupby_sum_ascending (rows : list (string * Q)) :
  ascending (groupby_sum rows).
Proof.
  apply fold_ascending. constructor.
Qed.

Lemma fold_index (k : string) (rows : list (string * Q)) (g : Series) :
  In k (index (fold_left (fun g kv => add_to_group (fst kv) (snd kv) g) rows g))
  <-> In k (index g) \/ In k (map fst rows).
Proof.
  revert g. induction rows as [|[k' v] rows IH]; intros g; simpl.
  - intuition.
  - rewrite IH, add_to_group_index. intuition.
Qed.

(** The labels of the grouped series are exactly the labels that occur. *)
Lemma groupby_sum_index (k : string) (rows : list (string * Q)) :
  In k (index (groupby_sum rows)) <-> In k (map fst rows).
Proof.
  unfold groupby_sum. rewrite fold_index. simpl. intuition.
Qed.

End Grouping.

(** ** Least squares *)

Section Regression.

Import Pandas LinearRegression.

Lemma card_cons (x : Q) (l : list Q) : card (x :: l) == card l + 1.
Proof.
  unfold card. simpl length. rewrite Nat2Z.inj_succ, <- Z.add_1_r.
  now rewrite inject_Z_plus.
Qed.

Lemma card_pos (l : list Q) : l <> [] -> 0 < card l.
Proof.
  destruct l as [|x l]; [congruence|]. intros _.
  unfold card. replace 0 with (inject_Z 0) by reflexivity.
  rewrite <- Zlt_Qlt. simpl length. lia.
Qed.

Lemma dot_shift (a b : Q) (X : list Q) :
  forall y, length X = length y ->
  dot (map (fun v => v - a) X) (map (fun v => v - b) y)
  == dot X y - a * sum y - b * sum X + card X * a * b.
Proof.
  induction X as [|x X IH]; intros [|y0 y] Hlen; simpl in *; try discriminate.
  - unfold card; simpl. ring.
  - rewrite IH by lia. rewrite card_cons. ring.
Qed.

Lemma sse_xy_expand (a b : Q) (X : list Q) :
  forall y, length X = length y ->
  sse_xy a b X y
  == dot y y - 2 * a * dot X y - 2 * b * sum y
     + a * a * dot X X + 2 * a * b * sum X + card X * b * b.
Proof.
  induction X as [|x X IH]; intros [|y0 y] Hlen; simpl in *; try discriminate.
  - unfold card; simpl. ring.
  - rewrite IH by lia. rewrite card_cons. ring.
Qed.

Lemma dot_self_nonneg (l : list Q) : 0 <= dot l l.
Proof.
  induction l as [|x l IH]; simpl; [apply Qle_refl|].
  assert (0 <= x * x) by nra. lra.
Qed.

Lemma dot_self_zero (l : list Q) :
  dot l l == 0 -> Forall (fun v => v == 0) l.
Proof.
  induction l as [|x l IH]; simpl; intros H; constructor.
  - pose proof (dot_self_nonneg l). nra.
  - apply IH. pose proof (dot_self_nonneg l).
    assert (0 <= x * x) by nra. lra.
Qed.

(** The algebra behind the normal equations: the excess of the
    squared error of any line over that of the fitted one is a sum of
    two squares. *)
Lemma ols_excess (n Sx Sy Sxx Sxy Syy cxx cxy a b a' b' : Q) :
  ~ n == 0 -> ~ cxx == 0 ->
  cxx == Sxx - Sx * Sx / n ->
  cxy == Sxy - Sx * Sy / n ->
  a == cxy / cxx ->
  b == Sy / n - Sx / n * a ->
  (Syy - 2 * a' * Sxy - 2 * b' * Sy + a' * a' * Sxx + 2 * a' * b' * Sx + n * b' * b')
  - (Syy - 2 * a * Sxy - 2 * b * Sy + a * a * Sxx + 2 * a * b * Sx + n * b * b)
  == n * ((b' - b) + Sx / n * (a' - a)) * ((b' - b) + Sx / n * (a' - a))
     + cxx * (a' - a) * (a' - a).
Proof.
  intros Hn Hc Hcxx Hcxy Ha Hb.
  rewrite Hb, Ha, Hcxy. rewrite Hcxx in Hc |- *.
  field. split; auto.
  intros H. apply Hc. field_simplify_eq; auto.
Qed.

Lemma center_dot (X y : list Q) :
  X <> [] -> length X = length y ->
  dot (center X) (center y) == dot X y - sum X * sum y / card X.
Proof.
  intros HX Hlen. unfold center.
  rewrite dot_shift by assumption.
  unfold average. fold (card X). fold (card y).
  assert (Hc : card y == card X) by (unfold card; now rewrite Hlen).
  rewrite Hc.
  pose proof (card_pos X HX). field. lra.
Qed.

Lemma fit_Ok (X y : list Q) :
  X <> [] -> length X = length y ->
  fit X y =
    Ok (let coef := if Qeq_bool (dot (center X) (center X)) 0 then 0
                    else dot (center X) (center y) / dot (center X) (center X) in
        Model coef (average y - average X * coef)).
Proof.
  intros HX Hlen. unfold fit.
  destruct X as [|x X]; [congruence|]. simpl length.
  rewrite <- Hlen. simpl length. now rewrite Nat.eqb_refl.
Qed.

(** The excess of the squared error of the line [a' * x + b'] over
    that of the fitted line. *)
Lemma fit_excess (X y : list Q) (m : model) (a' b' : Q) :
  fit X y = Ok m ->
  ~ dot (center X) (center X) == 0 ->
  sse_xy a' b' X y - sse_xy (coef_ m) (intercept_ m) X y
  == card X * ((b' - intercept_ m) + sum X / card X * (a' - coef_ m))
            * ((b' - intercept_ m) + sum X / card X * (a' - coef_ m))
     + dot (center X) (center X) * (a' - coef_ m) * (a' - coef_ m).
Proof.
  intros Hfit Hc.
  assert (HX : X <> []) by (intros ->; discriminate).
  assert (Hlen : length X = length y).
  { unfold fit in Hfit.
    destruct (length X =? 0)%nat; [discriminate|].
    destruct (length X =? length y)%nat eqn:E; [|discriminate].
    now apply Nat.eqb_eq. }
  rewrite (fit_Ok X y HX Hlen) in Hfit. cbv zeta in Hfit.
  injection Hfit as <-. simpl coef_. simpl intercept_.
  destruct (Qeq_bool (dot (center X) (center X)) 0) eqn:E.
  { apply Qeq_bool_iff in E. contradiction. }
  rewrite !sse_xy_expand by assumption.
  pose proof (card_pos X HX) as Hn.
  apply ols_excess with (cxy := dot (center X) (center y)); auto.
  - lra.
  - apply center_dot; auto.
  - apply center_dot; auto.
  - reflexivity.
  - unfold average. fold (card X). fold (card y).
    assert (Hcy : card y == card X) by (unfold card; now rewrite Hlen).
    rewrite Hcy. reflexivity.
Qed.

(** The fitted line minimises the squared error. *)
Lemma fit_minimises (X y : list Q) (m : model) :
  fit X y = Ok m ->
  ~ dot (center X) (center X) == 0 ->
  forall a' b', sse_xy (coef_ m) (intercept_ m) X y <= sse_xy a' b' X y.
Proof.
  intros Hfit Hc a' b'.
  pose proof (fit_excess X y m a' b' Hfit Hc) as E.
  assert (HX : X <> []) by (intros ->; discriminate).
  pose proof (card_pos X HX) as Hn.
  pose proof (dot_self_nonneg (center X)) as Hnn.
  set (t := (b' - intercept_ m) + sum X / card X * (a' - coef_ m)) in *.
  set (u := a' - coef_ m) in *.
  assert (0 <= card X * t * t) by nra.
  assert (0 <= dot (center X) (center X) * u * u) by nra.
  lra.
Qed.

(** ... and no other line does. *)
Lemma fit_unique (X y : list Q) (m : model) (a b : Q) :
  fit X y = Ok m ->
  ~ dot (center X) (center X) == 0 ->
  (forall a' b', sse_xy a b X y <= sse_xy a' b' X y) ->
  a == coef_ m /\ b == intercept_ m.
Proof.
  intros Hfit Hc Hmin.
  pose proof (fit_excess X y m a b Hfit Hc) as E.
  pose proof (Hmin (coef_ m) (intercept_ m)) as Hle.
  assert (HX : X <> []) by (intros ->; discriminate).
  pose proof (card_pos X HX) as Hn.
  pose proof (dot_self_nonneg (center X)) as Hnn.
  set (t := (b - intercept_ m) + sum X / card X * (a - coef_ m)) in *.
  set (u := a - coef_ m) in *.
  set (c := dot (center X) (center X)) in *.
  assert (Hcp : 0 < c) by lra.
  assert (Ht : 0 <= card X * t * t) by nra.
  assert (Hu : 0 <= c * u * u) by nra.
  assert (Hu0 : u == 0).
  { assert (Hz : c * (u * u) == 0) by lra.
    apply Qmult_integral in Hz. destruct Hz as [Hz|Hz]; [lra|].
    apply Qmult_integral in Hz. tauto. }
  assert (Ht0 : t == 0).
  { assert (Hz : card X * (t * t) == 0) by lra.
    apply Qmult_integral in Hz. destruct Hz as [Hz|Hz]; [lra|].
    apply Qmult_integral in Hz. tauto. }
  split.
  - unfold u in Hu0. lra.
  - unfold t in Ht0. fold u in Ht0. rewrite Hu0 in Ht0. lra.
Qed.

End Regression.

(** ** The forecast as a function of the monthly series *)

Section Forecast.

Import Pandas LinearRegression.


Lemma range_1 (n : nat) :
  Py.range 1 (Z.of_nat n + 1) = map (fun i => (1 + Z.of_nat i)%Z) (seq 0 n).
Proof.
  unfold Py.range. f_equal. f_equal. lia.
Qed.

Lemma positions_length (n : nat) : length (positions n) = n.
Proof.
  unfold positions. rewrite range_1, !length_map. apply length_seq.
Qed.

Lemma fold_max_seq (k : nat) :
  forall (a : nat) (acc : Z), acc = Z.of_nat a ->
  fold_left Z.max (map (fun i => (1 + Z.of_nat i)%Z) (seq a k)) acc
  = Z.of_nat (a + k).
Proof.
  induction k as [|k IH]; intros a acc ->; cbn [seq map fold_left].
  - f_equal. lia.
  - rewrite (IH (S a)) by lia. f_equal. lia.
Qed.

Lemma max_range_1 (n : nat) :
  (1 <= n)%nat -> Pandas.max (Py.range 1 (Z.of_nat n + 1)) = Ok (Z.of_nat n).
Proof.
  intros Hn. rewrite range_1. destruct n as [|n]; [lia|].
  cbn [seq map Pandas.max]. f_equal. rewrite (fold_max_seq n 1) by lia. lia.
Qed.

Lemma sse_from_xy (a b : Q) (ys : list Q) :
  forall (i0 : Z) (s : nat),
  sse_from i0 a b ys
  == sse_xy a b
       (map inject_Z
            (map (fun i => (i0 + Z.of_nat i - Z.of_nat s)%Z) (seq s (length ys))))
       ys.
Proof.
  induction ys as [|y ys IH]; intros i0 s;
    cbn [sse_from length seq map sse_xy]; [reflexivity|].
  replace (i0 + Z.of_nat s - Z.of_nat s)%Z with i0 by lia.
  rewrite (IH (i0 + 1)%Z (S s)).
  rewrite (map_ext (fun i => (i0 + 1 + Z.of_nat i - Z.of_nat (S s))%Z)
                   (fun i => (i0 + Z.of_nat i - Z.of_nat s)%Z))
    by (intros; lia).
  reflexivity.
Qed.

(** The squared error against the positional index is the squared
    error against the index column the engine builds. *)
Lemma sse_positions (a b : Q) (ys : list Q) :
  sse a b ys == sse_xy a b (positions (length ys)) ys.
Proof.
  unfold sse, positions. rewrite range_1, (sse_from_xy a b ys 1 0).
  rewrite (map_ext (fun i => (1 + Z.of_nat i - Z.of_nat 0)%Z)
                   (fun i => (1 + Z.of_nat i)%Z))
    by (intros; lia).
  reflexivity.
Qed.

(** With two points or more the index column is not constant. *)
Lemma positions_spread (n : nat) :
  (2 <= n)%nat ->
  ~ dot (center (positions n)) (center (positions n)) == 0.
Proof.
  intros Hn H0. apply dot_self_zero in H0.
  destruct n as [|[|n]]; try lia.
  unfold center in H0. set (avg := average _) in H0.
  unfold positions in H0. rewrite range_1 in H0. simpl in H0.
  inversion H0 as [|? ? H1 H0']; subst.
  inversion H0' as [|? ? H2 _]; subst.
  assert (E1 : inject_Z 1 == 1) by reflexivity.
  assert (E2 : inject_Z 2 == 2) by reflexivity.
  lra.
Qed.

Lemma forecast_of_many (m : Series) :
  (2 <= length m)%nat ->
  exists model,
    fit (positions (length m)) (values m) = Ok model
    /\ forecast_of m
       = Ok (Py.max (predict model (inject_Z (Z.of_nat (length m) + 1))) 0).
Proof.
  intros Hn. unfold forecast_of.
  destruct (Nat.ltb_spec (length m) 2) as [?|_]; [lia|].
  cbv zeta. fold (positions (length m)).
  assert (Hfit : fit (positions (length m)) (values m)
                 = Ok (let coef := if Qeq_bool (dot (center (positions (length m))) (center (positions (length m)))) 0 then 0
                    else dot (center (positions (length m))) (center (values m)) / dot (center (positions (length m))) (center (positions (length m))) in
        Model coef (average (values m) - average (positions (length m)) * coef))).
  { apply fit_Ok.
    - intros E. apply (f_equal (@length Q)) in E.
      rewrite positions_length in E. simpl in E. lia.
    - rewrite positions_length. unfold values. now rewrite length_map. }
  rewrite Hfit. eexists. split; [reflexivity|].
  simpl Py.bind. rewrite max_range_1 by lia. reflexivity.
Qed.

End Forecast.

(** ** From the DataFrame to the user's transactions *)

Section Query.

Import Pandas.

Lemma query_rows (d : db) (uid : Z) :
  _query_user_df d uid = map to_row (transactions_of d uid).
Proof. reflexivity. Qed.

Lemma of_type_query (t : string) (d : db) (uid : Z) :
  of_type t (_query_user_df d uid)
  = map to_row
      (filter (fun r => Z.eqb (user_id r) uid && String.eqb (ttype r) t) d).
Proof.
  unfold of_type, _query_user_df.
  induction d as [|r d IH]; simpl; [reflexivity|].
  destruct (Z.eqb (user_id r) uid); simpl; [|exact IH].
  destruct (String.eqb (ttype r) t); simpl; [f_equal|]; exact IH.
Qed.

Lemma amounts_rows (l : list Transaction) :
  amounts (map to_row l) = map amount l.
Proof.
  unfold amounts. rewrite map_map. reflexivity.
Qed.

Lemma total_income_query (d : db) (uid : Z) :
  Pandas.sum (amounts (of_type "income" (_query_user_df d uid)))
  = total_income d uid.
Proof.
  rewrite of_type_query, amounts_rows. reflexivity.
Qed.

Lemma total_expense_query (d : db) (uid : Z) :
  Pandas.sum (amounts (of_type "expense" (_query_user_df d uid)))
  = total_expense d uid.
Proof.
  rewrite of_type_query, amounts_rows. reflexivity.
Qed.

Lemma monthly_series_expenses (d : db) (uid : Z) :
  monthly_series d uid
  = groupby_sum (map (fun t => (ym (date_ t), amount t)) (expenses_of d uid)).
Proof.
  unfold monthly_series, monthly. rewrite of_type_query, map_map. reflexivity.
Qed.

Lemma category_series_query (d : db) (uid : Z) :
  groupby_sum (map (fun r => (r_category r, r_amount r))
                   (of_type "expense" (_query_user_df d uid)))
  = category_series d uid.
Proof.
  unfold category_series. rewrite of_type_query, map_map. reflexivity.
Qed.

(** The forecast is the forecast of the monthly expense series. *)
Lemma predict_forecast_of (d : db) (uid : Z) :
  predict_next_month_expense d uid = forecast_of (monthly_series d uid).
Proof.
  unfold predict_next_month_expense, monthly_series, monthly.
  destruct (_query_user_df d uid) as [|r df] eqn:Edf; [reflexivity|].
  cbn [empty].
  destruct (of_type "expense" (r :: df)) as [|e es]; reflexivity.
Qed.

End Query.

(** ** The shape of the recommendations *)

Section Shape.

Import Pandas.

Lemma py_lt_iff (a b : Q) : Py.lt a b = true <-> a < b.
Proof.
  unfold Py.lt. rewrite negb_true_iff.
  destruct (Qle_bool b a) eqn:E.
  - apply Qle_bool_iff in E. split; [discriminate | lra].
  - assert (~ b <= a) by (rewrite <- Qle_bool_iff; congruence).
    split; [lra | reflexivity].
Qed.

Lemma forecast_of_total (m : Series) : exists v, forecast_of m = Ok v.
Proof.
  destruct (Nat.lt_ge_cases (length m) 2) as [Hs|Hs].
  - destruct m as [|[k x] [|e m]]; [eexists; reflexivity ..|simpl in Hs; lia].
  - destruct (forecast_of_many m Hs) as (md & _ & ->). eexists; reflexivity.
Qed.

Lemma iloc_last_last (ys : list Q) :
  ys <> [] -> iloc_last ys = Ok (last ys 0).
Proof.
  intros H. destruct (exists_last H) as (l & a & ->).
  unfold iloc_last. rewrite rev_app_distr, last_last. reflexivity.
Qed.

Lemma mean_prior (ys : list Q) :
  (2 <= length ys)%nat -> mean (iloc_init ys) = Ok (prior_mean ys).
Proof.
  intros H. unfold mean, iloc_init, Py.div, prior_mean.
  fold (card (removelast ys)).
  assert (Hne : removelast ys <> []).
  { destruct ys as [|a [|b ys]]; simpl in *; try lia. discriminate. }
  pose proof (card_pos _ Hne) as Hp.
  destruct (Qeq_bool (card (removelast ys)) 0) eqn:E; [|reflexivity].
  apply Qeq_bool_iff in E. lra.
Qed.

Lemma fold_append (A : Type) (f : A -> string) (l : list A) (recs : list string) :
  fold_left (fun recs x => append recs (f x)) l recs = (recs ++ map f l)%list.
Proof.
  revert recs. induction l as [|x l IH]; intros recs; simpl.
  - now rewrite app_nil_r.
  - rewrite IH. unfold append. now rewrite <- app_assoc.
Qed.

(** The recommendations of a user with at least one transaction: the
    savings report, the category messages, the volatility warning if it
    applies, and the forecast message, in this order. *)
Lemma generate_shape (d : db) (uid : Z) :
  transactions_of d uid <> [] ->
  exists pred,
    predict_next_month_expense d uid = Ok pred
    /\ generate_recommendations d uid
       = Ok (rec_first d uid
               :: (map msg_high_spend (top_categories d uid)
                     ++ (if volatileb (values (monthly_series d uid))
                         then [msg_volatility] else [])
                     ++ [rec_last d uid pred])%list).
Proof.
  intros Hne.
  destruct (forecast_of_total (monthly_series d uid)) as [pred Hpred].
  rewrite <- predict_forecast_of in Hpred.
  exists pred. split; [exact Hpred|].
  unfold generate_recommendations.
  assert (Hdf : empty (_query_user_df d uid) = false).
  { rewrite query_rows. destruct (transactions_of d uid); [congruence|reflexivity]. }
  rewrite Hdf. cbv zeta.
  rewrite total_income_query, total_expense_query, category_series_query, Hpred.
  fold (top_categories d uid).
  change (groupby_sum
            (map (fun r => (ym (r_date r), r_amount r))
                 (of_type "expense" (_query_user_df d uid))))
    with (monthly_series d uid).
  (* the volatility block *)
  assert (Hvol :
    (forall recs : list string,
      (if negb (empty (of_type "expense" (_query_user_df d uid)))
       then
         if (2 <=? length (monthly_series d uid))%nat
         then
           last <- iloc_last (values (monthly_series d uid)) ;;
           prev_avg <- mean (iloc_init (values (monthly_series d uid))) ;;
           (if Py.lt ((6 # 5) * prev_avg) last
            then Ok (append recs msg_volatility) else Ok recs)
         else Ok recs
       else Ok recs)
      = Ok (recs ++ (if volatileb (values (monthly_series d uid))
                     then [msg_volatility] else []))%list)).
  { intros recs. unfold volatileb.
    assert (Hlen : length (values (monthly_series d uid))
                   = length (monthly_series d uid))
      by (unfold values; apply length_map).
    rewrite Hlen.
    destruct (empty (of_type "expense" (_query_user_df d uid))) eqn:Ee; cbn [negb].
    - assert (Hm : monthly_series d uid = []).
      { unfold monthly_series, monthly.
        destruct (of_type "expense" (_query_user_df d uid)); [reflexivity|discriminate]. }
      rewrite Hm. simpl. now rewrite app_nil_r.
    - destruct (Nat.leb_spec 2 (length (monthly_series d uid))) as [H2|H2];
        cbn [andb]; [|now rewrite app_nil_r].
      rewrite iloc_last_last
        by (intros E; rewrite E in Hlen; simpl in Hlen; lia).
      rewrite mean_prior by lia. cbn [Py.bind].
      destruct (Py.lt _ _); [reflexivity | now rewrite app_nil_r]. }
  unfold rec_first, rec_last.
  destruct (Py.lt 0 (total_income d uid)) eqn:Eti.
  - assert (Hd : Py.div (total_income d uid - total_expense d uid) (total_income d uid)
                 = Ok ((total_income d uid - total_expense d uid) / total_income d uid)).
    { unfold Py.div. apply py_lt_iff in Eti.
      destruct (Qeq_bool (total_income d uid) 0) eqn:E; [|reflexivity].
      apply Qeq_bool_iff in E. lra. }
    rewrite Hd. cbn [Py.bind]. rewrite fold_append, Hvol. cbn [Py.bind].
    unfold append. simpl app. rewrite <- app_assoc. reflexivity.
  - cbn [Py.bind]. rewrite fold_append, Hvol. cbn [Py.bind].
    unfold append. simpl app. rewrite <- app_assoc. reflexivity.
Qed.

End Shape.

(** ** Sorting by descending value *)

Section Sorting.

Import Pandas.







Lemma sorted_app_inv (A : Type) (R : A -> A -> Prop) (l1 l2 : list A) :
  StronglySorted R (l1 ++ l2) ->
  StronglySorted R l1 /\ (forall x y, In x l1 -> In y l2 -> R x y).
Proof.
  induction l1 as [|a l1 IH]; simpl; intros H.
  - split; [constructor | intros x y []].
  - inversion H as [|? ? Hs Hall]; subst.
    destruct (IH Hs) as [Hs1 Hx]. rewrite Forall_forall in Hall.
    split.
    + constructor; [exact Hs1|]. apply Forall_forall. intros x Hin.
      apply Hall, in_or_app. now left.
    + intros x y [<-|Hin] Hy; [|now apply Hx].
      apply Hall, in_or_app. now right.
Qed.

Lemma ascending_NoDup (s : Series) : ascending s -> NoDup (index s).
Proof.
  unfold ascending. generalize (index s). intros l.
  induction 1 as [|a l Hs IH Hall]; constructor; auto.
  intros Hin. rewrite Forall_forall in Hall.
  exact (str_lt_irrefl a (Hall a Hin)).
Qed.

Lemma total_absent (k : string) (s : Series) :
  ~ In k (index s) -> total k s == 0.
Proof.
  induction s as [|[k0 v] s IH]; simpl; intros H; [reflexivity|].
  rewrite total_cons.
  destruct (String.eqb_spec k0 k) as [->|Hne]; [tauto|].
  rewrite IH by tauto. ring.
Qed.

(** In a series with distinct labels the entry labelled [k] is the sum
    of the entries labelled [k]. *)
Lemma total_present (k : string) (x : Q) (s : Series) :
  NoDup (index s) -> In (k, x) s -> total k s == x.
Proof.
  induction s as [|[k0 v] s IH]; simpl; intros Hnd Hin; [destruct Hin|].
  inversion Hnd as [|? ? Hnotin Hnd']; subst.
  rewrite total_cons. destruct Hin as [E|Hin].
  - injection E as -> ->. rewrite String.eqb_refl.
    rewrite total_absent by exact Hnotin. ring.
  - destruct (String.eqb_spec k0 k) as [->|Hne].
    + exfalso. apply Hnotin. unfold index.
      change k with (fst (k, x)). now apply in_map.
    + rewrite IH by assumption. ring.
Qed.

Lemma total_map (A : Type) (f : A -> string) (g : A -> Q) (k : string) (l : list A) :
  total k (map (fun t => (f t, g t)) l)
  = sum (map g (filter (fun t => String.eqb (f t) k) l)).
Proof.
  unfold total. induction l as [|a l IH]; simpl; [reflexivity|].
  destruct (String.eqb (f a) k); simpl; now rewrite IH.
Qed.

(** An entry of the monthly series is what the user spent that month. *)
Lemma monthly_series_total (d : db) (uid : Z) (k : string) (x : Q) :
  In (k, x) (monthly_series d uid) -> x == month_total d uid k.
Proof.
  intros Hin. rewrite monthly_series_expenses in Hin.
  rewrite <- (total_present k x _ (ascending_NoDup _ (groupby_sum_ascending _)) Hin).
  rewrite total_groupby_sum, total_map. reflexivity.
Qed.

(** The months of the monthly series are the months in which the user
    spent. *)
Lemma monthly_series_index (d : db) (uid : Z) (k : string) :
  In k (index (monthly_series d uid))
  <-> exists t, In t (expenses_of d uid) /\ ym (date_ t) = k.
Proof.
  rewrite monthly_series_expenses, groupby_sum_index, map_map. simpl.
  rewrite in_map_iff. split; intros (t & H1 & H2); exists t; tauto.
Qed.


End Sorting.

(** ** The forecast *)

(** C2.  When the monthly expense series has exactly one point, of
    total [X], the forecast is [X] itself, and [X] is what the user spent
    in that month. *)
Theorem predict_single_month (d : db) (uid : Z) (k : string) (X : Q) :
  monthly_series d uid = [(k, X)] ->
  predict_next_month_expense d uid = Ok X /\ X == month_total d uid k.
Proof.
  intros H. split.
  - rewrite predict_forecast_of, H. reflexivity.
  - apply monthly_series_total. rewrite H. now left.
Qed.

Lemma predict_single_month_witness :
  monthly_series Examples.one_month 1 = [("2024-05", 100)]
  /\ predict_next_month_expense Examples.one_month 1 = Ok 100
  /\ 100 == month_total Examples.one_month 1 "2024-05".
Proof.
  assert (H : monthly_series Examples.one_month 1 = [("2024-05", 100)])
    by reflexivity.
  split; [exact H|].
  exact (predict_single_month Examples.one_month 1 "2024-05" 100 H).
Defined.

(** C3.  For a user without any transaction the forecast is zero and
    the recommendations are the guard message alone; neither call
    raises. *)
Theorem empty_transactions (d : db) (uid : Z) :
  transactions_of d uid = [] ->
  predict_next_month_expense d uid = Ok 0
  /\ generate_recommendations d uid = Ok [msg_no_data].
Proof.
  intros H.
  unfold predict_next_month_expense, generate_recommendations.
  rewrite query_rows, H. split; reflexivity.
Qed.

Lemma empty_transactions_witness :
  (predict_next_month_expense [] 1 = Ok 0
   /\ generate_recommendations [] 1 = Ok [msg_no_data])
  /\ (predict_next_month_expense Examples.other_user_only 1 = Ok 0
      /\ generate_recommendations Examples.other_user_only 1 = Ok [msg_no_data]).
Proof.
  split.
  - exact (empty_transactions [] 1 eq_refl).
  - exact (empty_transactions Examples.other_user_only 1 eq_refl).
Defined.

(** ** Order of the stored rows *)

Lemma filter_perm (A : Type) (f : A -> bool) (l l' : list A) :
  Permutation l l' -> Permutation (filter f l) (filter f l').
Proof.
  induction 1 as [| x l l' _ IH | x y l | l1 l2 l3 _ IH1 _ IH2]; simpl.
  - constructor.
  - destruct (f x); [now constructor | assumption].
  - destruct (f x), (f y); try reflexivity. apply perm_swap.
  - now transitivity (filter f l2).
Qed.

(** ** The recommendations *)




(** ** Fixed-point formatting *)

Section Formatting.

Import Fmt.







End Formatting.



(** ** The category messages *)

Section Categories.

Import Pandas.








End Categories.



(* ================================================================= *)
(** * Further properties of the engine *)

(** ** Equal rationals print alike *)

Section Printing.



End Printing.

(** ** More on the forecast *)

Section ForecastMore.

Import Pandas LinearRegression.

Lemma last_in_series (s : Series) :
  s <> [] -> In (last (index s) EmptyString, last (values s) 0) s.
Proof.
  induction s as [|[k v] s IH]; [congruence|]. intros _.
  destruct s as [|e s]; [now left|].
  right. apply IH. discriminate.
Qed.

Lemma sorted_last_max (l : list string) (x : string) :
  StronglySorted String_as_OT.lt l -> In x l ->
  x = last l EmptyString \/ String_as_OT.lt x (last l EmptyString).
Proof.
  intros Hs. revert x.
  induction Hs as [|a l Hs IH Hall]; intros x Hin; [destruct Hin|].
  destruct l as [|b l]; simpl in Hin.
  - destruct Hin as [<-|[]]. now left.
  - change (last (a :: b :: l) EmptyString) with (last (b :: l) EmptyString).
    destruct Hin as [<-|Hin]; [|now apply IH].
    right. rewrite Forall_forall in Hall.
    destruct (IH b (or_introl eq_refl)) as [E|L].
    + rewrite <- E. apply Hall. now left.
    + apply (str_lt_trans a b); [apply Hall; now left | exact L].
Qed.

End ForecastMore.

(** X3.  A user who has transactions but no expense gets a forecast of
    zero and exactly two recommendations: the savings message and the
    forecast message, which states an expense of 0; no category message
    and no warning. *)
Theorem no_expense_recommendations (d : db) (uid : Z) :
  transactions_of d uid <> [] ->
  expenses_of d uid = [] ->
  predict_next_month_expense d uid = Ok 0
  /\ generate_recommendations d uid = Ok [rec_first d uid; rec_last d uid 0]
  /\ Fmt.fixed 0 0 = "0".
Proof.
  intros Hne He.
  assert (Hm : monthly_series d uid = [])
    by (rewrite monthly_series_expenses, He; reflexivity).
  assert (Hp : predict_next_month_expense d uid = Ok 0)
    by (rewrite predict_forecast_of, Hm; reflexivity).
  split; [exact Hp|]. split; [|reflexivity].
  destruct (generate_shape d uid Hne) as (p & Hp' & ->).
  rewrite Hp in Hp'. injection Hp' as <-.
  rewrite Hm. unfold top_categories, category_series. rewrite He.
  reflexivity.
Qed.

Lemma no_expense_recommendations_witness :
  transactions_of Samples.income_only 1 <> []
  /\ expenses_of Samples.income_only 1 = []
  /\ generate_recommendations Samples.income_only 1
     = Ok [ "Your overall savings rate is 100.0%. Aim for 20%+ as a baseline.";
            "Predicted next month expense: ₹0. Set a savings target of at least ₹180." ].
Proof.
  assert (H : transactions_of Samples.income_only 1 <> []) by discriminate.
  assert (He : expenses_of Samples.income_only 1 = []) by reflexivity.
  split; [exact H|]. split; [exact He|].
  rewrite (proj1 (proj2 (no_expense_recommendations _ 1%Z H He))).
  vm_compute. reflexivity.
Defined.



(** X6.  When the dates of the user's expenses are on the calendar, the
    last point of the monthly series is the latest month in which the
    user spent: its token is the token of an expense that no other
    expense of the user follows, and its value is what the user spent in
    that month. *)
Theorem last_point_is_latest_month (d : db) (uid : Z) :
  expenses_of d uid <> [] ->
  (forall t, In t (expenses_of d uid) -> on_calendar (date_ t)) ->
  exists t_last,
    In t_last (expenses_of d uid)
    /\ last (Pandas.index (monthly_series d uid)) EmptyString = ym (date_ t_last)
    /\ last (Pandas.values (monthly_series d uid)) 0
       == month_total d uid (ym (date_ t_last))
    /\ (forall t, In t (expenses_of d uid) ->
                  (month_index (date_ t) <= month_index (date_ t_last))%Z).
Proof.
  intros Hne Hcal.
  assert (Hs : monthly_series d uid <> []).
  { destruct (expenses_of d uid) as [|t ts] eqn:E; [congruence|].
    assert (Hin : In (ym (date_ t)) (Pandas.index (monthly_series d uid))).
    { apply monthly_series_index. exists t. rewrite E. split; [now left | reflexivity]. }
    intros E0. rewrite E0 in Hin. destruct Hin. }
  pose proof (last_in_series _ Hs) as Hlast.
  assert (Hk : In (last (Pandas.index (monthly_series d uid)) EmptyString)
                  (Pandas.index (monthly_series d uid))).
  { unfold Pandas.index at 2.
    change (last (Pandas.index (monthly_series d uid)) EmptyString)
      with (fst (last (Pandas.index (monthly_series d uid)) EmptyString,
                 last (Pandas.values (monthly_series d uid)) 0)).
    now apply in_map. }
  apply monthly_series_index in Hk. destruct Hk as (t_last & Hin & Hym).
  exists t_last. split; [exact Hin|]. split; [now symmetry|].
  split.
  { apply monthly_series_total. rewrite Hym. exact Hlast. }
  intros t Ht.
  assert (Htk : In (ym (date_ t)) (Pandas.index (monthly_series d uid))).
  { apply monthly_series_index. now exists t. }
  assert (Hasc : ascending (monthly_series d uid)).
  { rewrite monthly_series_expenses. apply groupby_sum_ascending. }
  pose proof (ym_compare _ _ (Hcal t Ht) (Hcal t_last Hin)) as Hc.
  destruct (sorted_last_max _ _ Hasc Htk) as [E|L].
  - rewrite <- Hym in E. rewrite E, str_compare_refl in Hc.
    symmetry in Hc. apply Z.compare_eq_iff in Hc. lia.
  - rewrite <- Hym in L. unfold String_as_OT.lt in L. rewrite L in Hc.
    symmetry in Hc. apply Z.lt_le_incl. exact Hc.
Qed.

Lemma last_point_is_latest_month_witness :
  expenses_of Examples.two_months_up 1 <> []
  /\ (forall t, In t (expenses_of Examples.two_months_up 1) -> on_calendar (date_ t))
  /\ exists t_last,
       In t_last (expenses_of Examples.two_months_up 1)
       /\ last (Pandas.index (monthly_series Examples.two_months_up 1)) EmptyString
          = ym (date_ t_last).
Proof.
  assert (H : expenses_of Examples.two_months_up 1 <> []) by discriminate.
  assert (Hc : forall t, In t (expenses_of Examples.two_months_up 1) ->
                         on_calendar (date_ t)).
  { intros t [<-|[<-|[<-|[<-|[]]]]]; vm_compute; intuition discriminate. }
  split; [exact H|]. split; [exact Hc|].
  destruct (last_point_is_latest_month _ 1%Z H Hc) as (t & Hin & Hk & _).
  exists t. auto.
Defined.

(* ================================================================= *)
(** * The endpoints of [app.py] *)

Import App AppSpec.

(** ** Year and month labels *)

Section Labels.

Lemma fmt_0d_nonneg (w : nat) (n : Z) :
  (0 <= n)%Z -> fmt_0d w n = Fmt.zfill w (Fmt.digits n).
Proof.
  intros H. unfold fmt_0d.
  destruct (Z.ltb_spec n 0); [lia | reflexivity].
Qed.

Lemma strftime_Y_token (d : date) : strftime_Y d = year_token (year d).
Proof. reflexivity. Qed.

Lemma strftime_m_token (d : date) : strftime_m d = month_token (month d).
Proof. reflexivity. Qed.

Lemma year_token_inj (y y' : Z) :
  (0 <= y <= 9999)%Z -> (0 <= y' <= 9999)%Z ->
  year_token y = year_token y' -> y = y'.
Proof.
  intros Hy Hy' E.
  destruct (Z.lt_trichotomy y y') as [L|[?|L]]; [|assumption|].
  - pose proof (year_token_lt y y' ltac:(lia) ltac:(lia)) as H.
    rewrite E in H. destruct (str_lt_irrefl _ H).
  - pose proof (year_token_lt y' y ltac:(lia) ltac:(lia)) as H.
    rewrite E in H. destruct (str_lt_irrefl _ H).
Qed.

Lemma month_token_inj (m m' : Z) :
  (1 <= m <= 12)%Z -> (1 <= m' <= 12)%Z ->
  month_token m = month_token m' -> m = m'.
Proof.
  intros Hm Hm' E.
  destruct (Z.lt_trichotomy m m') as [L|[?|L]]; [|assumption|].
  - pose proof (month_token_lt m m' ltac:(lia) ltac:(lia)) as H.
    rewrite E in H. destruct (str_lt_irrefl _ H).
  - pose proof (month_token_lt m' m ltac:(lia) ltac:(lia)) as H.
    rewrite E in H. destruct (str_lt_irrefl _ H).
Qed.

Lemma year_label_eqb (d : date) (y : Z) :
  on_calendar d -> (1 <= y <= 9999)%Z ->
  String.eqb (strftime_Y d) (fmt_0d 4 y) = (year d =? y)%Z.
Proof.
  intros [Hy _] Hr. rewrite fmt_0d_nonneg by lia.
  fold (year_token y). rewrite strftime_Y_token.
  destruct (Z.eqb_spec (year d) y) as [->|Hne].
  - apply String.eqb_refl.
  - apply String.eqb_neq. intros E. apply Hne.
    apply year_token_inj; [lia | lia | exact E].
Qed.

Lemma month_label_eqb (d : date) (m : Z) :
  on_calendar d -> (1 <= m <= 12)%Z ->
  String.eqb (strftime_m d) (fmt_0d 2 m) = (month d =? m)%Z.
Proof.
  intros [_ Hm] Hr. rewrite fmt_0d_nonneg by lia.
  fold (month_token m). rewrite strftime_m_token.
  destruct (Z.eqb_spec (month d) m) as [->|Hne].
  - apply String.eqb_refl.
  - apply String.eqb_neq. intros E. apply Hne.
    apply month_token_inj; [lia | lia | exact E].
Qed.

Lemma filter_ext_in_bool (A : Type) (f g : A -> bool) (l : list A) :
  (forall a, In a l -> f a = g a) -> filter f l = filter g l.
Proof.
  induction l as [|a l IH]; intros H; simpl; [reflexivity|].
  rewrite (H a (or_introl eq_refl)), IH; [reflexivity|].
  intros b Hb. apply H. now right.
Qed.

Lemma filter_filter (A : Type) (f g : A -> bool) (l : list A) :
  filter f (filter g l) = filter (fun a => g a && f a) l.
Proof.
  induction l as [|a l IH]; simpl; [reflexivity|].
  destruct (g a); simpl; [destruct (f a)|]; now rewrite IH.
Qed.

Lemma filter_true (A : Type) (l : list A) : filter (fun _ => true) l = l.
Proof.
  induction l as [|a l IH]; simpl; [reflexivity | now rewrite IH].
Qed.

Lemma in_year_selects (y : Z) (q : list Transaction) :
  (forall t, In t q -> on_calendar (date_ t)) -> (1 <= y <= 9999)%Z ->
  in_year y q = filter (fun t => (year (date_ t) =? y)%Z) q.
Proof.
  intros Hcal Hy. unfold in_year. apply filter_ext_in_bool.
  intros t Ht. now apply year_label_eqb; [apply Hcal|].
Qed.

Lemma in_month_selects (m : Z) (q : list Transaction) :
  (forall t, In t q -> on_calendar (date_ t)) -> (1 <= m <= 12)%Z ->
  in_month m q = filter (fun t => (month (date_ t) =? m)%Z) q.
Proof.
  intros Hcal Hm. unfold in_month. apply filter_ext_in_bool.
  intros t Ht. now apply month_label_eqb; [apply Hcal|].
Qed.

(** The filters of the endpoints, on rows with dates on the calendar. *)
Lemma filters_select (q : list Transaction) (year month : option Z) :
  (forall t, In t q -> on_calendar (date_ t)) ->
  absent_or_within 1 9999 year ->
  absent_or_within 1 12 month ->
  _apply_year_month_filters q year month = filter (selected year month) q.
Proof.
  intros Hcal Hy Hm. unfold _apply_year_month_filters, selected.
  assert (Hcal' : forall q', (forall t, In t q' -> In t q) ->
                             forall t, In t q' -> on_calendar (date_ t))
    by (intros q' Hsub t Ht; apply Hcal, Hsub, Ht).
  assert (Hyq :
    match year with
    | Some y => if truthy year then in_year y q else q
    | None => q
    end = filter (fun t => passes year (Models.year (date_ t))) q).
  { destruct year as [y|]; simpl; [|now rewrite filter_true].
    destruct (Z.eqb_spec y 0) as [->|Hne]; simpl; [now rewrite filter_true|].
    simpl in Hy. apply in_year_selects; [exact Hcal | lia]. }
  rewrite Hyq.
  set (q1 := filter (fun t => passes year (Models.year (date_ t))) q).
  assert (Hsub : forall t, In t q1 -> In t q)
    by (intros t Ht; apply filter_In in Ht; tauto).
  assert (Hmq :
    match month with
    | Some m => if truthy month then in_month m q1 else q1
    | None => q1
    end = filter (fun t => passes month (Models.month (date_ t))) q1).
  { destruct month as [m|]; simpl; [|now rewrite filter_true].
    destruct (Z.eqb_spec m 0) as [->|Hne]; simpl; [now rewrite filter_true|].
    simpl in Hm. apply in_month_selects; [apply Hcal', Hsub | lia]. }
  rewrite Hmq. unfold q1. apply filter_filter.
Qed.

End Labels.

(** X7.  On rows whose dates are on the calendar,
    [_apply_year_month_filters] keeps, in their order, exactly the rows
    of the requested year and month; an argument that is absent or zero
    requests no filter. *)
Theorem year_month_filters_select (q : list Transaction) (year month : option Z) :
  (forall t, In t q -> on_calendar (date_ t)) ->
  absent_or_within 1 9999 year ->
  absent_or_within 1 12 month ->
  _apply_year_month_filters q year month
  = filter (fun t =>
              match year with
              | Some y => (y =? 0)%Z || (Models.year (date_ t) =? y)%Z
              | None => true
              end
              && match month with
                 | Some m => (m =? 0)%Z || (Models.month (date_ t) =? m)%Z
                 | None => true
                 end) q.
Proof.
  intros Hcal Hy Hm. apply (filters_select q year month Hcal Hy Hm).
Qed.

Lemma year_month_filters_select_witness :
  (forall t, In t Samples.ledger -> on_calendar (date_ t))
  /\ map id (_apply_year_month_filters Samples.ledger (Some 2024%Z) (Some 0%Z))
     = [2; 3; 4; 5; 6]%Z.
Proof.
  assert (Hcal : forall t, In t Samples.ledger -> on_calendar (date_ t)).
  { intros t [<-|[<-|[<-|[<-|[<-|[<-|[]]]]]]]; vm_compute; intuition discriminate. }
  split; [exact Hcal|].
  assert (Hy : absent_or_within 1 9999 (Some 2024%Z)) by (right; lia).
  assert (Hm : absent_or_within 1 12 (Some 0%Z)) by (left; reflexivity).
  rewrite (year_month_filters_select Samples.ledger _ _ Hcal Hy Hm).
  reflexivity.
Defined.

(** ** [api_summary] *)

Section Summary.

Lemma or_0_sql_sum (l : list Q) : or_0 (sql_sum l) == Pandas.sum l.
Proof.
  destruct l as [|x l]; [reflexivity|].
  unfold sql_sum, or_0.
  destruct (Qeq_bool (Pandas.sum (x :: l)) 0) eqn:E; [|reflexivity].
  apply Qeq_bool_iff in E. now symmetry.
Qed.

Lemma sum_case_ttype (t : string) (l : list Transaction) :
  Pandas.sum (map (case_ttype t) l) == Pandas.sum (map amount (of_ttype t l)).
Proof.
  unfold of_ttype, case_ttype.
  induction l as [|r l IH]; simpl; [reflexivity|].
  destruct (String.eqb (ttype r) t); simpl; rewrite IH; ring.
Qed.

Lemma filter_comm (A : Type) (f g : A -> bool) (l : list A) :
  filter f (filter g l) = filter g (filter f l).
Proof.
  rewrite !filter_filter. apply filter_ext_in_bool.
  intros a _. apply andb_comm.
Qed.

Lemma filters_of_ttype (t : string) (q : list Transaction) (year month : option Z) :
  _apply_year_month_filters (of_ttype t q) year month
  = of_ttype t (_apply_year_month_filters q year month).
Proof.
  unfold _apply_year_month_filters, of_ttype, in_year, in_month.
  destruct year as [y|], month as [m|]; simpl;
    repeat match goal with
           | |- context [if ?b then _ else _] => destruct b
           end;
    try reflexivity;
    repeat (rewrite (filter_comm _ _ (fun r => String.eqb (ttype r) t)));
    reflexivity.
Qed.

(** The user's amounts of type [t] that pass the filters of the
    endpoints. *)
Lemma summary_sums (d : db) (uid : Z) (year month : option Z) (t_type : option string) :
  let S := fun t =>
    Pandas.sum
      (map amount (of_ttype t (_apply_year_month_filters (of_user uid d) year month))) in
  let s := api_summary d uid year month t_type in
  income s == (if match t_type with Some t => String.eqb t "expense" | None => false end
               then 0 else S "income")
  /\ expense s == (if match t_type with Some t => String.eqb t "income" | None => false end
                  then 0 else S "expense")
  /\ balance s == income s - expense s.
Proof.
  cbv zeta. unfold api_summary.
  destruct (match t_type with Some t => String.eqb t "income" | None => false end)
    eqn:Ei.
  - assert (Ee : match t_type with Some t => String.eqb t "expense" | None => false end
                 = false).
    { destruct t_type as [t|]; [|reflexivity].
      apply String.eqb_eq in Ei. subst t. reflexivity. }
    rewrite Ee. cbn [income expense balance].
    rewrite filters_of_ttype, or_0_sql_sum.
    split; [reflexivity|]. split; [reflexivity | ring].
  - destruct (match t_type with Some t => String.eqb t "expense" | None => false end).
    + cbn [income expense balance].
      rewrite filters_of_ttype, or_0_sql_sum.
      split; [reflexivity|]. split; [reflexivity | ring].
    + cbn [income expense balance].
      rewrite !or_0_sql_sum, !sum_case_ttype.
      split; [reflexivity|]. split; [reflexivity | ring].
Qed.

Lemma selected_rows (d : db) (uid : Z) (year month : option Z) (t : string) :
  of_ttype t (filter (selected year month) (of_user uid d))
  = filter (fun r => Z.eqb (user_id r) uid && selected year month r
                     && String.eqb (ttype r) t) d.
Proof.
  unfold of_ttype, of_user. rewrite !filter_filter.
  apply filter_ext_in_bool. intros r _.
  destruct (Z.eqb (user_id r) uid), (selected year month r); reflexivity.
Qed.

End Summary.

(** X8.  On transactions with dates on the calendar, [api_summary]
    reports as income what the user received and as expense what the
    user spent in the requested year and month; with [type=income]
    (resp. [type=expense]) the other side is zero; the balance is always
    income minus expense.  Nothing is raised when no row is selected:
    the sums are then zero. *)
Theorem api_summary_totals
    (d : db) (uid : Z) (year month : option Z) (t_type : option string) :
  (forall t, In t d -> user_id t = uid -> on_calendar (date_ t)) ->
  absent_or_within 1 9999 year ->
  absent_or_within 1 12 month ->
  income (api_summary d uid year month t_type)
  == (if match t_type with Some t => String.eqb t "expense" | None => false end
      then 0 else selected_total d uid year month "income")
  /\ expense (api_summary d uid year month t_type)
     == (if match t_type with Some t => String.eqb t "income" | None => false end
         then 0 else selected_total d uid year month "expense")
  /\ balance (api_summary d uid year month t_type)
     == income (api_summary d uid year month t_type)
        - expense (api_summary d uid year month t_type).
Proof.
  intros Hcal Hy Hm.
  pose proof (summary_sums d uid year month t_type) as H. cbv zeta in H.
  assert (Hq : _apply_year_month_filters (of_user uid d) year month
               = filter (selected year month) (of_user uid d)).
  { apply filters_select; [|exact Hy|exact Hm].
    intros t Ht. unfold of_user in Ht. apply filter_In in Ht.
    destruct Ht as [Ht Hu]. apply Z.eqb_eq in Hu. now apply Hcal. }
  rewrite Hq, !selected_rows in H. exact H.
Qed.

Lemma api_summary_totals_witness :
  (forall t, In t Samples.ledger -> user_id t = 1%Z -> on_calendar (date_ t))
  /\ income (api_summary Samples.ledger 1 (Some 2024%Z) None None) == 2000
  /\ expense (api_summary Samples.ledger 1 (Some 2024%Z) None None) == 650
  /\ balance (api_summary Samples.ledger 1 (Some 2024%Z) None None) == 1350.
Proof.
  assert (Hcal : forall t, In t Samples.ledger -> user_id t = 1%Z ->
                           on_calendar (date_ t)).
  { intros t [<-|[<-|[<-|[<-|[<-|[<-|[]]]]]]] _; vm_compute; intuition discriminate. }
  split; [exact Hcal|].
  assert (Hy : absent_or_within 1 9999 (Some 2024%Z)) by (right; lia).
  destruct (api_summary_totals Samples.ledger 1%Z (Some 2024%Z) None None Hcal Hy I)
    as (Hi & He & Hb).
  split; [rewrite Hi; reflexivity|].
  split; [rewrite He; reflexivity|].
  rewrite Hb, Hi, He. reflexivity.
Defined.

(** ** [api_category_breakdown] *)

Section Breakdown.

Import Pandas.

Lemma filter_map_comm (A B : Type) (f : B -> bool) (g : A -> B) (l : list A) :
  filter f (map g l) = map g (filter (fun a => f (g a)) l).
Proof.
  induction l as [|a l IH]; simpl; [reflexivity|].
  destruct (f (g a)); simpl; now rewrite IH.
Qed.

Lemma NoDup_index_filter (f : string * Q -> bool) (s : Series) :
  NoDup (index s) -> NoDup (index (filter f s)).
Proof.
  unfold index. induction s as [|e s IH]; simpl; intros H; [constructor|].
  inversion H as [|? ? Hnotin Hnd]; subst.
  destruct (f e); simpl; [|now apply IH].
  constructor; [|now apply IH].
  intros Hin. apply Hnotin. apply in_map_iff in Hin.
  destruct Hin as (x & Hx & Hin). apply filter_In in Hin.
  apply in_map_iff. exists x. tauto.
Qed.

Lemma or_0_some (v : Q) : or_0 (Some v) == v.
Proof.
  unfold or_0. destruct (Qeq_bool v 0) eqn:E; [|reflexivity].
  apply Qeq_bool_iff in E. now symmetry.
Qed.

Lemma breakdown_rows (d : db) (uid : Z) (year month : option Z) :
  api_category_breakdown d uid year month
  = map (fun r => (fst r, or_0 (Some (snd r))))
        (filter (fun r => Py.lt 0 (or_0 (Some (snd r))))
                (groupby_sum
                   (map (fun t => (category t, case_ttype "expense" t))
                        (_apply_year_month_filters (of_user uid d) year month)))).
Proof.
  unfold api_category_breakdown. cbv zeta.
  rewrite filter_map_comm, map_map. reflexivity.
Qed.

Lemma group_spent (d : db) (uid : Z) (year month : option Z) (c : string) :
  total c (map (fun t => (category t, case_ttype "expense" t))
               (filter (selected year month) (of_user uid d)))
  == spent_in d uid year month c.
Proof.
  rewrite total_map, sum_case_ttype. unfold spent_in, of_ttype, of_user.
  rewrite !filter_filter.
  match goal with
  | |- sum (map amount ?l) == sum (map amount ?l') =>
      assert (E : l = l'); [|rewrite E; reflexivity]
  end.
  apply filter_ext_in_bool. intros r _.
  destruct (Z.eqb (user_id r) uid), (selected year month r),
    (String.eqb (category r) c), (String.eqb (ttype r) "expense"); reflexivity.
Qed.

End Breakdown.

(** X10.  On transactions with dates on the calendar,
    [api_category_breakdown] lists each category once, lists a category
    exactly when the user's expenses in it, in the requested year and
    month, sum to more than zero, and reports that sum.  Categories that
    hold income only are not listed. *)
Theorem category_breakdown_spec (d : db) (uid : Z) (year month : option Z) :
  (forall t, In t d -> user_id t = uid -> on_calendar (date_ t)) ->
  absent_or_within 1 9999 year ->
  absent_or_within 1 12 month ->
  NoDup (map fst (api_category_breakdown d uid year month))
  /\ (forall c,
        In c (map fst (api_category_breakdown d uid year month))
        <-> 0 < spent_in d uid year month c)
  /\ (forall c v,
        In (c, v) (api_category_breakdown d uid year month) ->
        v == spent_in d uid year month c).
Proof.
  intros Hcal Hy Hm.
  rewrite breakdown_rows.
  assert (Hq : _apply_year_month_filters (of_user uid d) year month
               = filter (selected year month) (of_user uid d)).
  { apply filters_select; [|exact Hy|exact Hm].
    intros t Ht. unfold of_user in Ht. apply filter_In in Ht.
    destruct Ht as [Ht Hu]. apply Z.eqb_eq in Hu. now apply Hcal. }
  rewrite Hq.
  set (rows := map (fun t => (category t, case_ttype "expense" t))
                   (filter (selected year month) (of_user uid d))).
  set (G := Pandas.groupby_sum rows).
  assert (Hnd : NoDup (Pandas.index G))
    by apply ascending_NoDup, groupby_sum_ascending.
  assert (Hval : forall c v, In (c, v) G -> v == spent_in d uid year month c).
  { intros c v Hin.
    rewrite <- (total_present c v G Hnd Hin).
    unfold G. rewrite total_groupby_sum. apply group_spent. }
  assert (Hfst : forall l : Pandas.Series,
             map fst (map (fun r => (fst r, or_0 (Some (snd r)))) l) = map fst l)
    by (intros l; rewrite map_map; reflexivity).
  split; [|split].
  - rewrite Hfst. apply (NoDup_index_filter _ G Hnd).
  - intros c. rewrite Hfst. split.
    + intros Hin. apply in_map_iff in Hin. destruct Hin as ([c' v] & Hc & Hin).
      simpl in Hc. subst c'. apply filter_In in Hin. destruct Hin as [Hin Hpos].
      apply py_lt_iff in Hpos. cbn [snd] in Hpos.
      rewrite or_0_some in Hpos. now rewrite <- (Hval c v Hin).
    + intros Hpos.
      assert (Hc : In c (Pandas.index G)).
      { destruct (in_dec string_dec c (Pandas.index G)) as [Hc|Hc]; [exact Hc|].
        exfalso. pose proof (total_absent c G Hc) as H0.
        unfold G in H0. rewrite total_groupby_sum in H0.
        unfold rows in H0. rewrite group_spent in H0. lra. }
      unfold Pandas.index in Hc. apply in_map_iff in Hc.
      destruct Hc as ([c' v] & Hc & Hin). simpl in Hc. subst c'.
      apply in_map_iff. exists (c, v). split; [reflexivity|].
      apply filter_In. split; [exact Hin|].
      apply py_lt_iff. cbn [snd]. rewrite or_0_some, (Hval c v Hin). exact Hpos.
  - intros c v Hin. apply in_map_iff in Hin.
    destruct Hin as ([c' v'] & E & Hin). cbn [fst snd] in E. injection E as -> <-.
    apply filter_In in Hin. destruct Hin as [Hin _].
    change (or_0 (Some v') == spent_in d uid year month c).
    rewrite or_0_some. now apply Hval.
Qed.

Lemma category_breakdown_spec_witness :
  (forall t, In t Samples.ledger -> user_id t = 1%Z -> on_calendar (date_ t))
  /\ NoDup (map fst (api_category_breakdown Samples.ledger 1 (Some 2024%Z) None))
  /\ (In "Salary" (map fst (api_category_breakdown Samples.ledger 1 (Some 2024%Z) None))
      <-> 0 < spent_in Samples.ledger 1 (Some 2024%Z) None "Salary").
Proof.
  assert (Hcal : forall t, In t Samples.ledger -> user_id t = 1%Z ->
                           on_calendar (date_ t)).
  { intros t [<-|[<-|[<-|[<-|[<-|[<-|[]]]]]]] _; vm_compute; intuition discriminate. }
  split; [exact Hcal|].
  assert (Hy : absent_or_within 1 9999 (Some 2024%Z)) by (right; lia).
  destruct (category_breakdown_spec Samples.ledger 1%Z (Some 2024%Z) None Hcal Hy I)
    as (Hnd & Hiff & _).
  split; [exact Hnd | exact (Hiff "Salary")].
Defined.

(** ** Distinct labels in order *)

Section Distinct.

Lemma insert_distinct_in (x k : string) (l : list string) :
  In x (insert_distinct k l) <-> x = k \/ In x l.
Proof.
  induction l as [|k' l IH]; simpl.
  - intuition.
  - destruct (String_as_OT.compare_spec k k') as [E|L|G];
      unfold String_as_OT.eq in *; simpl; try rewrite IH; subst; intuition.
Qed.

Lemma insert_distinct_sorted (k : string) (l : list string) :
  StronglySorted String_as_OT.lt l ->
  StronglySorted String_as_OT.lt (insert_distinct k l).
Proof.
  induction l as [|k' l IH]; simpl; intros H.
  - repeat constructor.
  - inversion H as [|? ? Hs Hall]; subst.
    destruct (String_as_OT.compare_spec k k') as [E|L|G].
    + exact H.
    + constructor; [exact H|]. constructor; [exact L|].
      eapply Forall_impl; [|exact Hall]. intros a Ha.
      now apply (str_lt_trans k k' a).
    + constructor; [now apply IH|].
      apply Forall_forall. intros x Hx. apply insert_distinct_in in Hx.
      destruct Hx as [->|Hx]; [exact G|].
      rewrite Forall_forall in Hall. now apply Hall.
Qed.

Lemma distinct_fold_in (x : string) (l acc : list string) :
  In x (fold_left (fun acc k => insert_distinct k acc) l acc)
  <-> In x acc \/ In x l.
Proof.
  revert acc. induction l as [|k l IH]; intros acc; simpl.
  - intuition.
  - rewrite IH, insert_distinct_in. intuition.
Qed.

Lemma distinct_order_by_in (x : string) (l : list string) :
  In x (distinct_order_by l) <-> In x l.
Proof.
  unfold distinct_order_by. rewrite distinct_fold_in. simpl. intuition.
Qed.

Lemma distinct_order_by_sorted (l : list string) :
  StronglySorted String_as_OT.lt (distinct_order_by l).
Proof.
  unfold distinct_order_by.
  assert (G : forall acc, StronglySorted String_as_OT.lt acc ->
                          StronglySorted String_as_OT.lt
                            (fold_left (fun acc k => insert_distinct k acc) l acc)).
  { induction l as [|k l IH]; intros acc H; simpl; [exact H|].
    apply IH, insert_distinct_sorted, H. }
  apply G. constructor.
Qed.

Lemma enum_from_in (n : nat) (lo x : Z) :
  (lo <= x < lo + Z.of_nat n)%Z -> In x (enum_from (fun i => i) n lo).
Proof.
  intros H.
  replace x with (nth (Z.to_nat (x - lo)) (enum_from (fun i => i) n lo) 0%Z).
  - apply nth_In. rewrite enum_from_length. lia.
  - rewrite enum_from_nth by lia. lia.
Qed.

Lemma int_year_tokens :
  forallb (fun y => match int (year_token y) with
                    | Return z => (z =? y)%Z
                    | Fail _ => false
                    end)
          (enum_from (fun i => i) (Z.to_nat 10000) 0) = true.
Proof. vm_compute. reflexivity. Qed.

(** Reading back the year label of a year. *)
Lemma int_year_token (y : Z) :
  (0 <= y <= 9999)%Z -> int (year_token y) = Return y.
Proof.
  intros Hy. pose proof int_year_tokens as H.
  rewrite forallb_forall in H.
  specialize (H y (enum_from_in (Z.to_nat 10000) 0 y ltac:(lia))).
  destruct (int (year_token y)) as [z|f]; [|discriminate].
  apply Z.eqb_eq in H. now subst.
Qed.

Lemma year_token_lt_inv (y y' : Z) :
  (0 <= y <= 9999)%Z -> (0 <= y' <= 9999)%Z ->
  String_as_OT.lt (year_token y) (year_token y') -> (y < y')%Z.
Proof.
  intros Hy Hy' L.
  destruct (Z.lt_trichotomy y y') as [?|[E|G]]; [assumption| |].
  - subst. destruct (str_lt_irrefl _ L).
  - pose proof (year_token_lt y' y ltac:(lia) ltac:(lia)) as L'.
    destruct (str_lt_irrefl _ (str_lt_trans _ _ _ L L')).
Qed.

Lemma ints_year_tokens (ys : list Z) :
  Forall (fun y => (0 <= y <= 9999)%Z) ys ->
  ints (map year_token ys) = Return ys.
Proof.
  induction 1 as [|y ys Hy _ IH]; simpl; [reflexivity|].
  now rewrite (int_year_token y Hy), IH.
Qed.

(** The year labels of rows with dates on the calendar, read as years. *)
Lemma year_labels (rows : list Transaction) :
  (forall t, In t rows -> on_calendar (date_ t)) ->
  exists ys,
    distinct_order_by (map (fun t => strftime_Y (date_ t)) rows) = map year_token ys
    /\ StronglySorted Z.lt ys
    /\ (forall y, In y ys <-> exists t, In t rows /\ year (date_ t) = y).
Proof.
  intros Hcal.
  set (L := distinct_order_by (map (fun t => strftime_Y (date_ t)) rows)).
  assert (Hmem : forall s, In s L <-> exists t, In t rows /\ year_token (year (date_ t)) = s).
  { intros s. unfold L. rewrite distinct_order_by_in, in_map_iff.
    split; intros (t & H1 & H2); exists t; tauto. }
  assert (Hsrt : StronglySorted String_as_OT.lt L) by apply distinct_order_by_sorted.
  clearbody L.
  assert (Hys : exists ys, L = map year_token ys
                           /\ Forall (fun y => (0 <= y <= 9999)%Z) ys).
  { assert (Hall : forall s, In s L -> exists y, (0 <= y <= 9999)%Z /\ s = year_token y).
    { intros s Hs. apply Hmem in Hs. destruct Hs as (t & Ht & <-).
      exists (year (date_ t)). split; [apply (Hcal t Ht) | reflexivity]. }
    clear Hmem Hsrt. induction L as [|s L IH].
    - exists []. split; [reflexivity | constructor].
    - destruct (Hall s (or_introl eq_refl)) as (y & Hy & ->).
      destruct IH as (ys & -> & Hf); [intros s Hs; apply Hall; now right|].
      exists (y :: ys). split; [reflexivity | now constructor]. }
  destruct Hys as (ys & -> & Hrange).
  exists ys. split; [reflexivity|]. split.
  - clear Hmem. induction ys as [|y ys IH]; [constructor|].
    inversion Hsrt as [|? ? Hs Hall]; subst.
    inversion Hrange as [|? ? Hy Hr]; subst.
    constructor; [now apply IH|].
    rewrite Forall_forall in *. intros y' Hy'.
    apply year_token_lt_inv; [exact Hy | now apply Hr|].
    apply Hall. now apply in_map.
  - intros y. split.
    + intros Hy.
      destruct (proj1 (Hmem (year_token y)) (in_map year_token ys y Hy))
        as (t & Ht & E).
      exists t. split; [exact Ht|].
      apply year_token_inj; [apply (Hcal t Ht)| |exact E].
      rewrite Forall_forall in Hrange. now apply Hrange.
    + intros (t & Ht & <-).
      assert (Hin : In (year_token (year (date_ t))) (map year_token ys))
        by (apply Hmem; now exists t).
      apply in_map_iff in Hin. destruct Hin as (y' & E & Hy').
      rewrite Forall_forall in Hrange.
      rewrite <- (year_token_inj y' (year (date_ t))
                    (Hrange y' Hy') (proj1 (Hcal t Ht)) E).
      exact Hy'.
Qed.

Lemma year_labels_range (rows : list Transaction) (ys : list Z) :
  (forall t, In t rows -> on_calendar (date_ t)) ->
  (forall y, In y ys <-> exists t, In t rows /\ year (date_ t) = y) ->
  Forall (fun y => (0 <= y <= 9999)%Z) ys.
Proof.
  intros Hcal Hmem. apply Forall_forall. intros y Hy.
  apply Hmem in Hy. destruct Hy as (t & Ht & <-). apply (Hcal t Ht).
Qed.

Lemma of_user_in (uid : Z) (d : db) (t : Transaction) :
  In t (of_user uid d) <-> In t d /\ user_id t = uid.
Proof.
  unfold of_user. rewrite filter_In, Z.eqb_eq. reflexivity.
Qed.

End Distinct.

(** X11.  [api_available_years], for a user whose transactions have
    dates on the calendar: without transactions the answer is the current
    year alone; otherwise it is the years in which the user has
    transactions, each once, in ascending order. *)
Theorem available_years_spec (now_year : Z) (d : db) (uid : Z) :
  (forall t, In t d -> user_id t = uid -> on_calendar (date_ t)) ->
  exists years,
    api_available_years now_year d uid = Return years
    /\ (of_user uid d = [] -> years = [now_year])
    /\ (of_user uid d <> [] ->
        StronglySorted Z.lt years
        /\ forall y, In y years
                     <-> exists t, In t d /\ user_id t = uid /\ year (date_ t) = y).
Proof.
  intros Hcal.
  assert (Hcal' : forall t, In t (of_user uid d) -> on_calendar (date_ t)).
  { intros t Ht. apply of_user_in in Ht. now apply Hcal. }
  destruct (year_labels (of_user uid d) Hcal') as (ys & HL & Hsrt & Hmem).
  pose proof (year_labels_range _ _ Hcal' Hmem) as Hr.
  unfold api_available_years. cbv zeta.
  rewrite HL, (ints_year_tokens ys Hr).
  destruct ys as [|y ys].
  - exists [now_year]. split; [reflexivity|]. split; [reflexivity|].
    intros Hne. exfalso.
    destruct (of_user uid d) as [|t ts]; [congruence|].
    apply (proj2 (Hmem (year (date_ t)))). exists t. split; [now left | reflexivity].
  - exists (y :: ys). split; [reflexivity|]. split.
    + intros E. rewrite E in Hmem.
      destruct (proj1 (Hmem y) (or_introl eq_refl)) as (t & [] & _).
    + intros _. split; [exact Hsrt|].
      intros y'. rewrite Hmem. split.
      * intros (t & Ht & E). apply of_user_in in Ht. exists t. tauto.
      * intros (t & Ht & Hu & E). exists t. rewrite of_user_in. tauto.
Qed.

Lemma available_years_spec_witness :
  (forall t, In t Samples.ledger -> user_id t = 1%Z -> on_calendar (date_ t))
  /\ api_available_years 2030 Samples.ledger 1 = Return [2023; 2024]%Z
  /\ api_available_years 2030 Samples.ledger 3 = Return [2030]%Z
  /\ exists years, api_available_years 2030 Samples.ledger 1 = Return years.
Proof.
  assert (Hcal : forall t, In t Samples.ledger -> user_id t = 1%Z ->
                           on_calendar (date_ t)).
  { intros t [<-|[<-|[<-|[<-|[<-|[<-|[]]]]]]] _; vm_compute; intuition discriminate. }
  split; [exact Hcal|]. split; [reflexivity|]. split; [reflexivity|].
  destruct (available_years_spec 2030%Z Samples.ledger 1%Z Hcal) as (years & H & _).
  exists years. exact H.
Defined.

(** ** [api_monthly_trend] *)

Section Trend.

Lemma dict_get_set (V : Type) (d : dict V) (m k : string) (x : V) :
  dict_get (dict_set d m x) k
  = if String.eqb m k then Return x else dict_get d k.
Proof.
  induction d as [|[k' v'] d IH]; simpl.
  - reflexivity.
  - destruct (String.eqb_spec k' m) as [->|Hne]; simpl.
    + destruct (String.eqb m k); reflexivity.
    + rewrite IH. destruct (String.eqb_spec k' k) as [->|Hne'].
      * destruct (String.eqb_spec m k) as [->|_]; [congruence | reflexivity].
      * reflexivity.
Qed.

Lemma dict_keys_set (V : Type) (d : dict V) (m : string) (x : V) :
  In m (dict_keys d) -> dict_keys (dict_set d m x) = dict_keys d.
Proof.
  unfold dict_keys. induction d as [|[k' v'] d IH]; simpl; intros H; [destruct H|].
  destruct (String.eqb_spec k' m) as [->|Hne]; simpl; [reflexivity|].
  rewrite IH; [reflexivity|]. destruct H; [congruence | assumption].
Qed.

Lemma dict_fold_get (V : Type) (v : string -> V) (keys : list string) :
  forall (d : dict V) (k : string),
    dict_get (fold_left (fun d m => dict_set d m (v m)) keys d) k
    = if existsb (fun m => String.eqb m k) keys then Return (v k) else dict_get d k.
Proof.
  induction keys as [|m keys IH]; intros d k; simpl; [reflexivity|].
  rewrite IH, dict_get_set.
  destruct (existsb (fun m0 => String.eqb m0 k) keys);
    [now rewrite orb_true_r|].
  rewrite orb_false_r.
  destruct (String.eqb_spec m k) as [->|_]; reflexivity.
Qed.

Lemma dict_fold_keys (V : Type) (v : string -> V) (keys : list string) :
  forall d : dict V,
    (forall m, In m keys -> In m (dict_keys d)) ->
    dict_keys (fold_left (fun d m => dict_set d m (v m)) keys d) = dict_keys d.
Proof.
  induction keys as [|m keys IH]; intros d H; simpl; [reflexivity|].
  rewrite IH.
  - apply dict_keys_set, H. now left.
  - intros m' Hm'. rewrite dict_keys_set by (apply H; now left).
    apply H. now right.
Qed.

Lemma fold_left_map_arg (A B C : Type) (f : A -> B -> A) (g : C -> B) (l : list C) :
  forall a, fold_left f (map g l) a = fold_left (fun a x => f a (g x)) l a.
Proof.
  induction l as [|x l IH]; intros a; simpl; [reflexivity | apply IH].
Qed.

Lemma trend_items_total (year : Z) (monthly : dict (Q * Q)) (keys : list string) :
  (forall k, In k keys -> exists v, dict_get monthly k = Return v) ->
  trend_items year monthly keys
  = Return (map (fun k =>
                   {| t_month := str_int year ++ "-" ++ k;
                      t_income := fst (match dict_get monthly k with
                                       | Return v => v
                                       | Fail _ => (0, 0)
                                       end);
                      t_expense := snd (match dict_get monthly k with
                                        | Return v => v
                                        | Fail _ => (0, 0)
                                        end) |}) keys).
Proof.
  induction keys as [|k keys IH]; intros H; simpl; [reflexivity|].
  destruct (H k (or_introl eq_refl)) as (v & Hv). rewrite Hv.
  rewrite IH by (intros k' Hk'; apply H; now right). reflexivity.
Qed.

Lemma existsb_eqb_in (k : string) (l : list string) :
  existsb (fun m => String.eqb m k) l = true <-> In k l.
Proof.
  rewrite existsb_exists. split.
  - intros (m & Hm & E). apply String.eqb_eq in E. now subst.
  - intros H. exists k. split; [exact H | apply String.eqb_refl].
Qed.

Lemma filter_none (A : Type) (f : A -> bool) (l : list A) :
  (forall a, In a l -> f a = false) -> filter f l = [].
Proof.
  induction l as [|a l IH]; intros H; simpl; [reflexivity|].
  rewrite (H a (or_introl eq_refl)). apply IH. intros b Hb. apply H. now right.
Qed.

(** The twelve month labels. *)
Lemma month_labels :
  map (fun m => Fmt.zfill 2 (str_int m)) (Py.range 1 13)
  = ["01"; "02"; "03"; "04"; "05"; "06"; "07"; "08"; "09"; "10"; "11"; "12"].
Proof. reflexivity. Qed.

Lemma month_cases (m : Z) :
  (1 <= m <= 12)%Z ->
  (m = 1 \/ m = 2 \/ m = 3 \/ m = 4 \/ m = 5 \/ m = 6 \/ m = 7 \/ m = 8
   \/ m = 9 \/ m = 10 \/ m = 11 \/ m = 12)%Z.
Proof. lia. Qed.

Lemma month_label_in (m : Z) :
  (1 <= m <= 12)%Z ->
  In (fmt_0d 2 m)
     ["01"; "02"; "03"; "04"; "05"; "06"; "07"; "08"; "09"; "10"; "11"; "12"].
Proof.
  intros H. apply month_cases in H.
  repeat (destruct H as [->|H]; [simpl; tauto|]). subst. simpl. tauto.
Qed.

Lemma month_label_nth (m : Z) :
  (1 <= m <= 12)%Z ->
  nth_error
    ["01"; "02"; "03"; "04"; "05"; "06"; "07"; "08"; "09"; "10"; "11"; "12"]
    (Z.to_nat (m - 1)) = Some (fmt_0d 2 m).
Proof.
  intros H. apply month_cases in H.
  repeat (destruct H as [->|H]; [reflexivity|]). subst. reflexivity.
Qed.

End Trend.

(** X12.  [api_monthly_trend] for a requested year, over transactions
    whose months are on the calendar: the answer has twelve items, one
    per month in calendar order, labelled with the year and the two-digit
    month, and the item of a month carries the income and the expense
    that [api_summary] reports for that year and month; a month without
    transactions carries zeros.  Nothing is raised. *)
Theorem monthly_trend_spec (now_year : Z) (d : db) (uid : Z) (y : Z) :
  y <> 0%Z ->
  (forall t, In t d -> user_id t = uid -> (1 <= month (date_ t) <= 12)%Z) ->
  exists items,
    api_monthly_trend now_year d uid (Some y) = Return items
    /\ length items = 12%nat
    /\ forall m, (1 <= m <= 12)%Z ->
         exists item,
           nth_error items (Z.to_nat (m - 1)) = Some item
           /\ t_month item = str_int y ++ "-" ++ fmt_0d 2 m
           /\ t_income item = income (api_summary d uid (Some y) (Some m) None)
           /\ t_expense item = expense (api_summary d uid (Some y) (Some m) None).
Proof.
  intros Hy Hmonths.
  unfold api_monthly_trend. simpl truthy.
  destruct (Z.eqb_spec y 0) as [?|_]; [contradiction|]. cbn [negb]. cbv zeta.
  set (K := ["01"; "02"; "03"; "04"; "05"; "06"; "07"; "08"; "09"; "10"; "11"; "12"]).
  set (q := in_year y (of_user uid d)).
  set (keysR := distinct_order_by (map (fun t => strftime_m (date_ t)) q)).
  set (v := fun m : string =>
              (or_0 (sql_sum (map (case_ttype "income")
                                  (filter (fun t => String.eqb (strftime_m (date_ t)) m) q))),
               or_0 (sql_sum (map (case_ttype "expense")
                                  (filter (fun t => String.eqb (strftime_m (date_ t)) m) q))))).
  set (init := map (fun m : string => (m, (0, 0))) K : dict (Q * Q)).
  change (map (fun m : Z => (Fmt.zfill 2 (str_int m), (0, 0))) (Py.range 1 13))
    with init.
  assert (Hrows :
    fold_left
      (fun (monthly : dict (Q * Q)) (r : string * (option Q * option Q)) =>
         dict_set monthly (fst r) (or_0 (fst (snd r)), or_0 (snd (snd r))))
      (trend_rows d uid y) init
    = fold_left (fun dct m => dict_set dct m (v m)) keysR init).
  { unfold trend_rows. cbv zeta. fold q. fold keysR.
    rewrite fold_left_map_arg. reflexivity. }
  rewrite Hrows.
  set (monthly := fold_left (fun dct m => dict_set dct m (v m)) keysR init).
  assert (HkeysR : forall m, In m keysR -> In m K).
  { intros m Hm. unfold keysR in Hm. rewrite distinct_order_by_in in Hm.
    apply in_map_iff in Hm. destruct Hm as (t & <- & Ht).
    unfold q, in_year in Ht. apply filter_In in Ht. destruct Ht as [Ht _].
    apply of_user_in in Ht. destruct Ht as [Ht Hu].
    pose proof (Hmonths t Ht Hu) as Hr.
    unfold strftime_m.
    rewrite <- (fmt_0d_nonneg 2 (month (date_ t))) by lia.
    now apply month_label_in. }
  assert (Hkeys : dict_keys monthly = K).
  { unfold monthly. rewrite dict_fold_keys; [reflexivity|].
    intros m Hm. apply HkeysR in Hm. exact Hm. }
  rewrite Hkeys.
  change (sorted K) with K.
  assert (Hget : forall k, In k K ->
            dict_get monthly k = Return (v k)).
  { intros k Hk. unfold monthly. rewrite dict_fold_get.
    destruct (existsb (fun m => String.eqb m k) keysR) eqn:E; [reflexivity|].
    assert (Hnot : ~ In k keysR).
    { intros Hin. apply existsb_eqb_in in Hin. congruence. }
    assert (Hempty : filter (fun t => String.eqb (strftime_m (date_ t)) k) q = []).
    { apply filter_none. intros t Ht. apply String.eqb_neq. intros Ek.
      apply Hnot. unfold keysR. rewrite distinct_order_by_in.
      apply in_map_iff. exists t. tauto. }
    unfold v. rewrite Hempty.
    unfold K in Hk. simpl in Hk.
    repeat (destruct Hk as [<-|Hk]; [reflexivity|]). destruct Hk. }
  rewrite trend_items_total
    by (intros k Hk; exists (v k); now apply Hget).
  eexists. split; [reflexivity|].
  split; [reflexivity|].
  intros m Hm.
  pose proof (month_label_nth m Hm) as Hnth. fold K in Hnth.
  rewrite nth_error_map, Hnth. cbn [option_map].
  eexists. split; [reflexivity|].
  cbn [t_month t_income t_expense].
  rewrite (Hget (fmt_0d 2 m)) by (now apply month_label_in).
  split; [reflexivity|].
  unfold api_summary, _apply_year_month_filters. simpl truthy.
  destruct (Z.eqb_spec y 0) as [?|_]; [contradiction|].
  destruct (Z.eqb_spec m 0) as [?|_]; [lia|].
  cbn [negb income expense]. unfold v, in_month. fold q.
  split; reflexivity.
Qed.

Lemma monthly_trend_spec_witness :
  (forall t, In t Samples.ledger -> user_id t = 1%Z ->
             (1 <= month (date_ t) <= 12)%Z)
  /\ exists items,
       api_monthly_trend 2030 Samples.ledger 1 (Some 2024%Z) = Return items
       /\ length items = 12%nat
       /\ map t_month (firstn 3 items) = ["2024-01"; "2024-02"; "2024-03"]
       /\ map t_expense (firstn 3 items) = [600; 0; 50].
Proof.
  assert (Hm : forall t, In t Samples.ledger -> user_id t = 1%Z ->
                         (1 <= month (date_ t) <= 12)%Z).
  { intros t [<-|[<-|[<-|[<-|[<-|[<-|[]]]]]]] _; vm_compute; intuition discriminate. }
  split; [exact Hm|].
  assert (Hy : 2024%Z <> 0%Z) by discriminate.
  destruct (monthly_trend_spec 2030%Z Samples.ledger 1%Z 2024%Z Hy Hm)
    as (items & Hr & Hlen & _).
  exists items. split; [exact Hr|]. split; [exact Hlen|].
  assert (E : Return items
              = api_monthly_trend 2030 Samples.ledger 1 (Some 2024%Z))
    by (symmetry; exact Hr).
  vm_compute in E. injection E as ->. split; reflexivity.
Defined.

Section DefaultYear.

Lemma sorted_Z_last (ys r : list Z) (y x : Z) :
  StronglySorted Z.lt ys -> rev ys = y :: r -> In x ys -> (x <= y)%Z.
Proof.
  intros Hs Hrev Hin.
  assert (E : ys = (rev r ++ [y])%list).
  { rewrite <- (rev_involutive ys), Hrev. reflexivity. }
  subst ys. apply in_app_or in Hin. destruct Hin as [Hin|[<-|[]]]; [|lia].
  destruct (sorted_app_inv _ _ _ _ Hs) as [_ H].
  apply Z.lt_le_incl, H; [exact Hin | now left].
Qed.

End DefaultYear.

(** X13.  [api_monthly_trend] without a year (or with year 0) reports
    on a default year: the current year when the user has no
    transaction, and otherwise the latest year in which the user has
    one.  The dates are taken on the calendar, from year 1 on. *)
Theorem monthly_trend_default_year (now_year : Z) (d : db) (uid : Z) :
  now_year <> 0%Z ->
  (forall t, In t d -> user_id t = uid ->
             on_calendar (date_ t) /\ (1 <= year (date_ t))%Z) ->
  exists y,
    default_year now_year d uid = Return y
    /\ (of_user uid d = [] -> y = now_year)
    /\ (of_user uid d <> [] ->
        (exists t, In t d /\ user_id t = uid /\ year (date_ t) = y)
        /\ forall t, In t d -> user_id t = uid -> (year (date_ t) <= y)%Z)
    /\ api_monthly_trend now_year d uid None
       = api_monthly_trend now_year d uid (Some y)
    /\ api_monthly_trend now_year d uid (Some 0%Z)
       = api_monthly_trend now_year d uid (Some y).
Proof.
  intros Hnow Hcal.
  assert (Hcal' : forall t, In t (of_user uid d) -> on_calendar (date_ t)).
  { intros t Ht. apply of_user_in in Ht. now apply Hcal. }
  destruct (year_labels (of_user uid d) Hcal') as (ys & HL & Hsrt & Hmem).
  pose proof (year_labels_range _ _ Hcal' Hmem) as Hr.
  assert (Hdef : exists y,
             default_year now_year d uid = Return y
             /\ y <> 0%Z
             /\ (of_user uid d = [] -> y = now_year)
             /\ (of_user uid d <> [] ->
                 (exists t, In t d /\ user_id t = uid /\ year (date_ t) = y)
                 /\ forall t, In t d -> user_id t = uid -> (year (date_ t) <= y)%Z)).
  { unfold default_year. cbv zeta. rewrite HL, <- map_rev.
    destruct (rev ys) as [|y r] eqn:Erev.
    - exists now_year. split; [reflexivity|]. split; [exact Hnow|].
      split; [reflexivity|]. intros Hne. exfalso.
      assert (E : ys = []) by (rewrite <- (rev_involutive ys), Erev; reflexivity).
      subst ys. destruct (of_user uid d) as [|t ts]; [congruence|].
      apply (proj2 (Hmem (year (date_ t)))).
      exists t. split; [now left | reflexivity].
    - assert (Hy : In y ys) by (apply in_rev; rewrite Erev; now left).
      exists y. cbn [map]. rewrite int_year_token
        by (rewrite Forall_forall in Hr; now apply Hr).
      split; [reflexivity|].
      destruct (proj1 (Hmem y) Hy) as (t & Ht & Eyt).
      apply of_user_in in Ht. destruct Ht as [Ht Hu].
      split; [destruct (Hcal t Ht Hu); lia|].
      split.
      + intros E. rewrite E in Hmem.
        destruct (proj1 (Hmem y) Hy) as (t' & [] & _).
      + intros _. split; [exists t; tauto|].
        intros t' Ht' Hu'. apply (sorted_Z_last ys r y _ Hsrt Erev).
        apply Hmem. exists t'. split; [now apply of_user_in | reflexivity]. }
  destruct Hdef as (y & Hd & Hy0 & He & Hne).
  exists y. split; [exact Hd|]. split; [exact He|]. split; [exact Hne|].
  unfold api_monthly_trend. simpl truthy. rewrite Hd.
  destruct (Z.eqb_spec y 0) as [?|_]; [contradiction|].
  split; reflexivity.
Qed.

Lemma monthly_trend_default_year_witness :
  (forall t, In t Samples.ledger -> user_id t = 1%Z ->
             on_calendar (date_ t) /\ (1 <= year (date_ t))%Z)
  /\ exists y,
       default_year 2030 Samples.ledger 1 = Return y
       /\ api_monthly_trend 2030 Samples.ledger 1 None
          = api_monthly_trend 2030 Samples.ledger 1 (Some y).
Proof.
  assert (Hcal : forall t, In t Samples.ledger -> user_id t = 1%Z ->
                           on_calendar (date_ t) /\ (1 <= year (date_ t))%Z).
  { intros t [<-|[<-|[<-|[<-|[<-|[<-|[]]]]]]] _; vm_compute; intuition discriminate. }
  split; [exact Hcal|].
  assert (Hnow : 2030%Z <> 0%Z) by discriminate.
  destruct (monthly_trend_default_year 2030%Z Samples.ledger 1%Z Hnow Hcal)
    as (y & Hd & _ & _ & Ht & _).
  exists y. split; [exact Hd | exact Ht].
Defined.

(** ** [api_transactions] *)

Section Transactions.

Lemma two_digit_tokens_increasing :
  increasing (enum_from month_token 31 1) = true.
Proof. vm_compute. reflexivity. Qed.

Lemma two_digit_lt (a b : Z) :
  (1 <= a < b)%Z -> (b <= 31)%Z ->
  String_as_OT.lt (month_token a) (month_token b).
Proof.
  intros H H'. apply (enum_increasing _ _ 1 two_digit_tokens_increasing); lia.
Qed.

Lemma month_token_length (m : Z) :
  (1 <= m <= 12)%Z -> String.length (month_token m) = 2%nat.
Proof.
  intros H. apply month_cases in H.
  repeat (destruct H as [->|H]; [reflexivity|]). subst. reflexivity.
Qed.

Lemma two_digit_compare (a b : Z) :
  (1 <= a <= 31)%Z -> (1 <= b <= 31)%Z ->
  String_as_OT.compare (month_token a) (month_token b) = (a ?= b)%Z.
Proof.
  intros Ha Hb.
  destruct (Z.lt_trichotomy a b) as [L|[E|G]].
  - pose proof (two_digit_lt a b ltac:(lia) ltac:(lia)) as H.
    unfold String_as_OT.lt in H. rewrite H. symmetry. now apply Z.compare_lt_iff.
  - subst. rewrite str_compare_refl. symmetry. apply Z.compare_refl.
  - rewrite str_compare_gt by (apply two_digit_lt; lia).
    symmetry. apply Z.compare_gt_iff. lia.
Qed.

Lemma year_token_compare (a b : Z) :
  (0 <= a <= 9999)%Z -> (0 <= b <= 9999)%Z ->
  String_as_OT.compare (year_token a) (year_token b) = (a ?= b)%Z.
Proof.
  intros Ha Hb.
  destruct (Z.lt_trichotomy a b) as [L|[E|G]].
  - pose proof (year_token_lt a b ltac:(lia) ltac:(lia)) as H.
    unfold String_as_OT.lt in H. rewrite H. symmetry. now apply Z.compare_lt_iff.
  - subst. rewrite str_compare_refl. symmetry. apply Z.compare_refl.
  - rewrite str_compare_gt by (apply year_token_lt; lia).
    symmetry. apply Z.compare_gt_iff. lia.
Qed.

(** The stored text of a date orders as the date does. *)
Lemma isoformat_compare (d d' : date) :
  on_calendar_day d -> on_calendar_day d' ->
  String_as_OT.compare (isoformat d) (isoformat d')
  = (day_index d ?= day_index d')%Z.
Proof.
  intros [[Hy Hm] Hd] [[Hy' Hm'] Hd']. unfold isoformat, day_index, month_index.
  fold (year_token (year d)) (year_token (year d')).
  fold (month_token (month d)) (month_token (month d')).
  fold (month_token (day d)) (month_token (day d')).
  rewrite str_compare_app by (rewrite !year_token_length; auto).
  rewrite year_token_compare by assumption.
  cbn [String.append String_as_OT.compare].
  change (Ascii_as_OT.compare "-" "-") with Eq. cbv iota.
  rewrite str_compare_app by (rewrite !month_token_length; auto).
  rewrite (two_digit_compare (month d) (month d')) by lia.
  cbn [String.append String_as_OT.compare].
  change (Ascii_as_OT.compare "-" "-") with Eq. cbv iota.
  rewrite (two_digit_compare (day d) (day d')) by lia.
  destruct (Z.compare_spec (year d) (year d')) as [Ey|Ly|Gy].
  - destruct (Z.compare_spec (month d) (month d')) as [Em|Lm|Gm].
    + destruct (Z.compare_spec (day d) (day d')) as [Ed|Ld|Gd]; symmetry.
      * apply Z.compare_eq_iff. lia.
      * apply Z.compare_lt_iff. lia.
      * apply Z.compare_gt_iff. lia.
    + symmetry. apply Z.compare_lt_iff. lia.
    + symmetry. apply Z.compare_gt_iff. lia.
  - symmetry. apply Z.compare_lt_iff. lia.
  - symmetry. apply Z.compare_gt_iff. lia.
Qed.

Lemma insert_date_desc_perm (t : Transaction) (l : list Transaction) :
  Permutation (insert_date_desc t l) (t :: l).
Proof.
  induction l as [|t' l IH]; simpl; [reflexivity|].
  destruct (String_as_OT.compare _ _); try reflexivity;
    rewrite IH; apply perm_swap.
Qed.

Lemma order_by_date_desc_perm (q : list Transaction) :
  Permutation (order_by_date_desc q) q.
Proof.
  unfold order_by_date_desc.
  assert (G : forall acc,
             Permutation (fold_left (fun acc t => insert_date_desc t acc) q acc)
                         (q ++ acc)).
  { induction q as [|t q IH]; intros acc; simpl; [reflexivity|].
    rewrite IH, insert_date_desc_perm. symmetry. apply Permutation_middle. }
  rewrite G. now rewrite app_nil_r.
Qed.

Lemma insert_date_desc_sorted (t : Transaction) (l : list Transaction) :
  on_calendar_day (date_ t) ->
  (forall x, In x l -> on_calendar_day (date_ x)) ->
  StronglySorted (fun a b => (day_index (date_ b) <= day_index (date_ a))%Z) l ->
  StronglySorted (fun a b => (day_index (date_ b) <= day_index (date_ a))%Z)
                 (insert_date_desc t l).
Proof.
  intros Ht. induction l as [|t' l IH]; simpl; intros Hcal Hs.
  - repeat constructor.
  - inversion Hs as [|? ? Hs' Hall]; subst.
    rewrite (isoformat_compare _ _ Ht (Hcal t' (or_introl eq_refl))).
    assert (Hafter :
      (day_index (date_ t) <= day_index (date_ t'))%Z ->
      StronglySorted (fun a b => (day_index (date_ b) <= day_index (date_ a))%Z)
                     (t' :: insert_date_desc t l)).
    { intros Hle. constructor.
      - apply IH; [intros x Hx; apply Hcal; now right | exact Hs'].
      - apply Forall_forall. intros x Hx.
        apply (Permutation_in _ (insert_date_desc_perm t l)) in Hx.
        destruct Hx as [<-|Hx]; [exact Hle|].
        rewrite Forall_forall in Hall. now apply Hall. }
    destruct (Z.compare_spec (day_index (date_ t)) (day_index (date_ t')))
      as [E|L|G].
    + apply Hafter. lia.
    + apply Hafter. lia.
    + constructor; [exact Hs|].
      constructor; [lia|].
      eapply Forall_impl; [|exact Hall]. simpl. intros a Ha. lia.
Qed.

Lemma order_by_date_desc_sorted (q : list Transaction) :
  (forall x, In x q -> on_calendar_day (date_ x)) ->
  StronglySorted (fun a b => (day_index (date_ b) <= day_index (date_ a))%Z)
                 (order_by_date_desc q).
Proof.
  intros Hcal. unfold order_by_date_desc.
  assert (G : forall acc,
             (forall x, In x acc -> on_calendar_day (date_ x)) ->
             StronglySorted
               (fun a b => (day_index (date_ b) <= day_index (date_ a))%Z) acc ->
             StronglySorted
               (fun a b => (day_index (date_ b) <= day_index (date_ a))%Z)
               (fold_left (fun acc t => insert_date_desc t acc) q acc)).
  { induction q as [|t q IH]; intros acc Hacc Hs; simpl; [exact Hs|].
    apply IH.
    - intros x Hx. apply Hcal. now right.
    - intros x Hx. apply (Permutation_in _ (insert_date_desc_perm t acc)) in Hx.
      destruct Hx as [<-|Hx]; [apply Hcal; now left | now apply Hacc].
    - apply insert_date_desc_sorted; [apply Hcal; now left | exact Hacc | exact Hs]. }
  apply G; [intros x [] | constructor].
Qed.

Lemma transactions_query (d : db) (uid : Z) (year month : option Z) (t_type : option string) :
  (forall t, In t d -> user_id t = uid -> on_calendar (date_ t)) ->
  absent_or_within 1 9999 year ->
  absent_or_within 1 12 month ->
  api_transactions d uid year month t_type
  = map tx_item
      (order_by_date_desc
         (filter (fun t => Z.eqb (user_id t) uid && selected year month t
                           && type_selected t_type t) d)).
Proof.
  intros Hcal Hy Hm. unfold api_transactions. cbv zeta. do 2 f_equal.
  assert (Hq : forall t, In t (of_user uid d) -> on_calendar (date_ t)).
  { intros t Ht. apply of_user_in in Ht. now apply Hcal. }
  pose proof (filters_select (of_user uid d) year month Hq Hy Hm) as Hf.
  unfold _apply_year_month_filters in Hf. cbv zeta in Hf. rewrite Hf.
  assert (Ht : match t_type with
               | Some t =>
                   if String.eqb t "income" || String.eqb t "expense"
                   then of_ttype t (filter (selected year month) (of_user uid d))
                   else filter (selected year month) (of_user uid d)
               | None => filter (selected year month) (of_user uid d)
               end
               = filter (type_selected t_type)
                        (filter (selected year month) (of_user uid d))).
  { unfold type_selected, of_ttype. destruct t_type as [s|].
    - destruct (String.eqb s "income" || String.eqb s "expense");
        [reflexivity | now rewrite filter_true].
    - now rewrite filter_true. }
  rewrite Ht. unfold of_user. rewrite !filter_filter.
  apply filter_ext_in_bool. intros r _. now rewrite andb_assoc.
Qed.

End Transactions.

(** X14.  [api_transactions], over transactions with dates on the
    calendar: the items are those of the user's transactions of the
    requested year, month and type, each once, the latest date first.  A
    type other than [income] and [expense] requests no filter; an absent
    description is reported as the empty text. *)
Theorem api_transactions_spec
    (d : db) (uid : Z) (year month : option Z) (t_type : option string) :
  (forall t, In t d -> user_id t = uid -> on_calendar_day (date_ t)) ->
  absent_or_within 1 9999 year ->
  absent_or_within 1 12 month ->
  exists txs,
    api_transactions d uid year month t_type = map tx_item txs
    /\ Permutation txs
         (filter (fun t => Z.eqb (user_id t) uid && selected year month t
                           && type_selected t_type t) d)
    /\ StronglySorted
         (fun a b => (day_index (date_ b) <= day_index (date_ a))%Z) txs.
Proof.
  intros Hcal Hy Hm.
  eexists. split; [|split].
  - apply transactions_query; [|exact Hy|exact Hm].
    intros t Ht Hu. apply (Hcal t Ht Hu).
  - apply order_by_date_desc_perm.
  - apply order_by_date_desc_sorted.
    intros x Hx. apply filter_In in Hx. destruct Hx as [Hx Hb].
    apply andb_true_iff in Hb. destruct Hb as [Hb _].
    apply andb_true_iff in Hb. destruct Hb as [Hu _].
    apply Z.eqb_eq in Hu. now apply Hcal.
Qed.

Lemma api_transactions_spec_witness :
  (forall t, In t Samples.ledger -> user_id t = 1%Z -> on_calendar_day (date_ t))
  /\ map j_id (api_transactions Samples.ledger 1 (Some 2024%Z) None (Some "expense"))
     = [5; 6; 4]%Z
  /\ exists txs,
       api_transactions Samples.ledger 1 (Some 2024%Z) None (Some "expense")
       = map tx_item txs
       /\ StronglySorted
            (fun a b => (day_index (date_ b) <= day_index (date_ a))%Z) txs.
Proof.
  assert (Hcal : forall t, In t Samples.ledger -> user_id t = 1%Z ->
                           on_calendar_day (date_ t)).
  { intros t [<-|[<-|[<-|[<-|[<-|[<-|[]]]]]]] _; vm_compute; intuition discriminate. }
  split; [exact Hcal|]. split; [reflexivity|].
  assert (Hy : absent_or_within 1 9999 (Some 2024%Z)) by (right; lia).
  destruct (api_transactions_spec Samples.ledger 1%Z (Some 2024%Z) None
              (Some "expense") Hcal Hy I) as (txs & H & _ & Hs).
  exists txs. split; [exact H | exact Hs].
Defined.

(** ** The delete endpoints *)

Section Deleting.

Lemma unique_ids_inj (d : db) (a b : Transaction) :
  unique_ids d -> In a d -> In b d -> id a = id b -> a = b.
Proof.
  unfold unique_ids. induction d as [|x d IH]; simpl; intros Hnd Ha Hb E;
    [destruct Ha|].
  inversion Hnd as [|? ? Hnotin Hnd']; subst.
  destruct Ha as [<-|Ha], Hb as [<-|Hb].
  - reflexivity.
  - exfalso. apply Hnotin. rewrite E. now apply in_map.
  - exfalso. apply Hnotin. rewrite <- E. now apply in_map.
  - now apply IH.
Qed.

Lemma unique_ids_filter (f : Transaction -> bool) (d : db) :
  unique_ids d -> unique_ids (filter f d).
Proof.
  unfold unique_ids. induction d as [|x d IH]; simpl; intros H; [constructor|].
  inversion H as [|? ? Hnotin Hnd]; subst.
  destruct (f x); simpl; [|now apply IH].
  constructor; [|now apply IH].
  intros Hin. apply Hnotin. apply in_map_iff in Hin.
  destruct Hin as (r & E & Hr). apply filter_In in Hr.
  apply in_map_iff. exists r. tauto.
Qed.

Lemma fold_session_delete (txs : list Transaction) :
  forall d : db,
    fold_left (fun d t => session_delete t d) txs d
    = filter (fun r => negb (existsb (fun t => Z.eqb (id r) (id t)) txs)) d.
Proof.
  induction txs as [|t txs IH]; intros d; simpl.
  - now rewrite filter_true.
  - rewrite IH. unfold session_delete. rewrite filter_filter.
    apply filter_ext_in_bool. intros r _.
    now rewrite negb_orb.
Qed.

(** Deleting the rows selected by [P] leaves the rows not selected, when
    the primary key is a key. *)
Lemma delete_selected (P : Transaction -> bool) (d : db) :
  unique_ids d ->
  fold_left (fun d t => session_delete t d) (filter P d) d
  = filter (fun r => negb (P r)) d.
Proof.
  intros Hu. rewrite fold_session_delete.
  apply filter_ext_in_bool. intros r Hr. f_equal.
  destruct (P r) eqn:E.
  - apply existsb_exists. exists r. split.
    + apply filter_In. tauto.
    + apply Z.eqb_refl.
  - destruct (existsb _ _) eqn:Ex; [|reflexivity].
    apply existsb_exists in Ex. destruct Ex as (t & Ht & Hid).
    apply filter_In in Ht. destruct Ht as [Ht Pt].
    apply Z.eqb_eq in Hid.
    rewrite (unique_ids_inj d r t Hu Hr Ht Hid) in E. congruence.
Qed.

Lemma month_rows (d : db) (uid y m : Z) :
  (forall t, In t d -> user_id t = uid -> on_calendar (date_ t)) ->
  (1 <= y <= 9999)%Z -> (1 <= m <= 12)%Z ->
  in_month m (in_year y (of_user uid d))
  = filter (fun r => Z.eqb (user_id r) uid
                     && (year (date_ r) =? y)%Z && (month (date_ r) =? m)%Z) d.
Proof.
  intros Hcal Hy Hm. unfold in_month, in_year, of_user.
  rewrite !filter_filter. apply filter_ext_in_bool. intros r Hr.
  destruct (Z.eqb_spec (user_id r) uid) as [Hu|_]; [|reflexivity].
  cbn [andb].
  rewrite (year_label_eqb _ y (Hcal r Hr Hu) Hy).
  rewrite (month_label_eqb _ m (Hcal r Hr Hu) Hm). reflexivity.
Qed.

Lemma year_rows (d : db) (uid y : Z) :
  (forall t, In t d -> user_id t = uid -> on_calendar (date_ t)) ->
  (1 <= y <= 9999)%Z ->
  in_year y (of_user uid d)
  = filter (fun r => Z.eqb (user_id r) uid && (year (date_ r) =? y)%Z) d.
Proof.
  intros Hcal Hy. unfold in_year, of_user.
  rewrite !filter_filter. apply filter_ext_in_bool. intros r Hr.
  destruct (Z.eqb_spec (user_id r) uid) as [Hu|_]; [|reflexivity].
  cbn [andb]. now rewrite (year_label_eqb _ y (Hcal r Hr Hu) Hy).
Qed.

Lemma filter_length_split (A : Type) (f : A -> bool) (l : list A) :
  (length (filter (fun a => negb (f a)) l) + length (filter f l) = length l)%nat.
Proof.
  induction l as [|a l IH]; simpl; [reflexivity|].
  destruct (f a); simpl; lia.
Qed.

(** The database after [delete_month]. *)
Lemma delete_month_db (d : db) (uid y m : Z) :
  unique_ids d ->
  (forall t, In t d -> user_id t = uid -> on_calendar (date_ t)) ->
  (1 <= y <= 9999)%Z -> (1 <= m <= 12)%Z ->
  fst (delete_month d uid (Some y) (Some m))
  = filter (fun r => negb (Z.eqb (user_id r) uid
                           && (year (date_ r) =? y)%Z && (month (date_ r) =? m)%Z)) d.
Proof.
  intros Hu Hcal Hy Hm. unfold delete_month. simpl truthy.
  destruct (Z.eqb_spec y 0) as [?|_]; [lia|].
  destruct (Z.eqb_spec m 0) as [?|_]; [lia|].
  cbn [negb orb fst]. rewrite (month_rows d uid y m Hcal Hy Hm).
  now apply delete_selected.
Qed.

End Deleting.

(** X15.  [delete_month], when the primary key is a key and the user's
    dates are on the calendar: exactly the user's transactions of that
    year and month go; every other row, of this user or of another,
    stays, in its place; the message counts the rows that went; the
    primary key is still a key. *)
Theorem delete_month_spec (d : db) (uid y m : Z) :
  unique_ids d ->
  (forall t, In t d -> user_id t = uid -> on_calendar (date_ t)) ->
  (1 <= y <= 9999)%Z -> (1 <= m <= 12)%Z ->
  exists count : nat,
    delete_month d uid (Some y) (Some m)
    = (filter (fun r => negb (Z.eqb (user_id r) uid
                              && (year (date_ r) =? y)%Z
                              && (month (date_ r) =? m)%Z)) d,
       {| success := true;
          message := "Deleted " ++ str_int (Z.of_nat count)
                       ++ " transactions for " ++ str_int m ++ "/"
                       ++ str_int y ++ "." |})
    /\ (length (fst (delete_month d uid (Some y) (Some m))) + count = length d)%nat
    /\ unique_ids (fst (delete_month d uid (Some y) (Some m))).
Proof.
  intros Hu Hcal Hy Hm.
  pose proof (delete_month_db d uid y m Hu Hcal Hy Hm) as Hdb.
  exists (length (in_month m (in_year y (of_user uid d)))).
  split; [|split].
  - rewrite <- Hdb. unfold delete_month. simpl truthy.
    destruct (Z.eqb_spec y 0) as [?|_]; [lia|].
    destruct (Z.eqb_spec m 0) as [?|_]; [lia|].
    reflexivity.
  - rewrite Hdb, (month_rows d uid y m Hcal Hy Hm).
    apply filter_length_split.
  - rewrite Hdb. now apply unique_ids_filter.
Qed.

Lemma delete_month_spec_witness :
  unique_ids Samples.ledger
  /\ (forall t, In t Samples.ledger -> user_id t = 1%Z -> on_calendar (date_ t))
  /\ map id (fst (delete_month Samples.ledger 1 (Some 2024%Z) (Some 3%Z)))
     = [1; 2; 3; 4]%Z
  /\ message (snd (delete_month Samples.ledger 1 (Some 2024%Z) (Some 3%Z)))
     = "Deleted 2 transactions for 3/2024."
  /\ unique_ids (fst (delete_month Samples.ledger 1 (Some 2024%Z) (Some 3%Z))).
Proof.
  assert (Hu : unique_ids Samples.ledger).
  { unfold unique_ids. simpl.
    repeat (constructor; [simpl; intuition discriminate|]). constructor. }
  assert (Hcal : forall t, In t Samples.ledger -> user_id t = 1%Z ->
                           on_calendar (date_ t)).
  { intros t [<-|[<-|[<-|[<-|[<-|[<-|[]]]]]]] _; vm_compute; intuition discriminate. }
  split; [exact Hu|]. split; [exact Hcal|].
  split; [reflexivity|]. split; [reflexivity|].
  assert (Hy : (1 <= 2024 <= 9999)%Z) by lia.
  assert (Hm : (1 <= 3 <= 12)%Z) by lia.
  destruct (delete_month_spec Samples.ledger 1%Z 2024%Z 3%Z Hu Hcal Hy Hm)
    as (count & _ & _ & H).
  exact H.
Defined.

(** X16.  After [delete_month] the month is gone from every report on
    the user and nothing else has changed: [api_summary] of that year
    and month is zero, the monthly expense series of the recommender has
    no point for the month and the same totals for every other month,
    and the transactions of every other user are what they were. *)
Theorem delete_month_then_reports (d : db) (uid y m : Z) :
  unique_ids d ->
  (forall t, In t d -> user_id t = uid -> on_calendar (date_ t)) ->
  (1 <= y <= 9999)%Z -> (1 <= m <= 12)%Z ->
  income (api_summary (fst (delete_month d uid (Some y) (Some m)))
                      uid (Some y) (Some m) None) = 0
  /\ expense (api_summary (fst (delete_month d uid (Some y) (Some m)))
                          uid (Some y) (Some m) None) = 0
  /\ ~ In (ym (Date y m 1))
          (Pandas.index (monthly_series (fst (delete_month d uid (Some y) (Some m))) uid))
  /\ (forall k, k <> ym (Date y m 1) ->
                month_total (fst (delete_month d uid (Some y) (Some m))) uid k
                = month_total d uid k)
  /\ (forall u, u <> uid ->
                transactions_of (fst (delete_month d uid (Some y) (Some m))) u
                = transactions_of d u).
Proof.
  intros Hu Hcal Hy Hm.
  rewrite (delete_month_db d uid y m Hu Hcal Hy Hm).
  set (d' := filter (fun r => negb (Z.eqb (user_id r) uid
                                    && (year (date_ r) =? y)%Z
                                    && (month (date_ r) =? m)%Z)) d).
  set (P := fun r => Z.eqb (user_id r) uid
                     && (year (date_ r) =? y)%Z && (month (date_ r) =? m)%Z).
  assert (Hd' : d' = filter (fun r => negb (P r)) d) by reflexivity.
  clearbody d'. subst d'.
  set (d' := filter (fun r => negb (P r)) d).
  assert (Hcal' : forall t, In t d' -> user_id t = uid -> on_calendar (date_ t)).
  { intros t Ht. apply filter_In in Ht. now apply Hcal. }
  assert (Hempty : in_month m (in_year y (of_user uid d')) = []).
  { rewrite (month_rows d' uid y m Hcal' Hy Hm). fold P.
    apply filter_none. intros r Hr. apply filter_In in Hr.
    destruct Hr as [_ Hr]. now apply negb_true_iff in Hr. }
  assert (Hsum : api_summary d' uid (Some y) (Some m) None
                 = {| income := 0; expense := 0; balance := 0 - 0 |}).
  { unfold api_summary, _apply_year_month_filters. simpl truthy.
    destruct (Z.eqb_spec y 0) as [?|_]; [lia|].
    destruct (Z.eqb_spec m 0) as [?|_]; [lia|].
    cbn [negb]. rewrite Hempty. reflexivity. }
  rewrite Hsum. split; [reflexivity|]. split; [reflexivity|].
  assert (Hym : forall r, In r d -> user_id r = uid ->
                          ym (date_ r) = ym (Date y m 1) -> P r = true).
  { intros r Hr Hur E.
    assert (Hc1 : on_calendar (Date y m 1)) by (split; simpl; lia).
    pose proof (ym_compare _ _ (Hcal r Hr Hur) Hc1) as Hc.
    rewrite E, str_compare_refl in Hc. symmetry in Hc.
    apply Z.compare_eq_iff in Hc. unfold month_index in Hc. simpl in Hc.
    destruct (Hcal r Hr Hur) as [_ Hmr].
    unfold P. apply andb_true_iff. split; [apply andb_true_iff; split|].
    - now apply Z.eqb_eq.
    - apply Z.eqb_eq. lia.
    - apply Z.eqb_eq. lia. }
  split; [|split].
  - intros Hin. apply monthly_series_index in Hin.
    destruct Hin as (t & Ht & E).
    unfold expenses_of in Ht. apply filter_In in Ht. destruct Ht as [Ht Hb].
    apply andb_true_iff in Hb. destruct Hb as [Hut _]. apply Z.eqb_eq in Hut.
    unfold d' in Ht. apply filter_In in Ht. destruct Ht as [Ht Hn].
    rewrite (Hym t Ht Hut E) in Hn. discriminate.
  - intros k Hk. unfold month_total, expenses_of, d'.
    do 2 f_equal. rewrite !filter_filter.
    apply filter_ext_in_bool. intros r Hr.
    destruct (P r) eqn:EP; [|reflexivity]. cbn [negb andb].
    unfold P in EP. apply andb_true_iff in EP. destruct EP as [EP Emo].
    apply andb_true_iff in EP. destruct EP as [Eu Eyr].
    apply Z.eqb_eq in Eyr. apply Z.eqb_eq in Emo.
    assert (E : ym (date_ r) = ym (Date y m 1)).
    { unfold ym. simpl. now rewrite Eyr, Emo. }
    rewrite E. symmetry.
    destruct (String.eqb_spec (ym (Date y m 1)) k) as [Ek|_]; [congruence|].
    now rewrite andb_false_r.
  - intros u Hne. unfold transactions_of, d'. rewrite filter_filter.
    apply filter_ext_in_bool. intros r _.
    destruct (Z.eqb_spec (user_id r) u) as [Hur|_];
      [|now rewrite andb_false_r].
    rewrite andb_true_r. unfold P.
    destruct (Z.eqb_spec (user_id r) uid) as [Hur'|_]; [congruence | reflexivity].
Qed.

Lemma delete_month_then_reports_witness :
  unique_ids Samples.ledger
  /\ (forall t, In t Samples.ledger -> user_id t = 1%Z -> on_calendar (date_ t))
  /\ Pandas.index (monthly_series Samples.ledger 1) = ["2023-12"; "2024-01"; "2024-03"]
  /\ ~ In (ym (Date 2024 3 1))
          (Pandas.index
             (monthly_series (fst (delete_month Samples.ledger 1 (Some 2024%Z) (Some 3%Z))) 1)).
Proof.
  assert (Hu : unique_ids Samples.ledger).
  { unfold unique_ids. simpl.
    repeat (constructor; [simpl; intuition discriminate|]). constructor. }
  assert (Hcal : forall t, In t Samples.ledger -> user_id t = 1%Z ->
                           on_calendar (date_ t)).
  { intros t [<-|[<-|[<-|[<-|[<-|[<-|[]]]]]]] _; vm_compute; intuition discriminate. }
  split; [exact Hu|]. split; [exact Hcal|]. split; [reflexivity|].
  assert (Hy : (1 <= 2024 <= 9999)%Z) by lia.
  assert (Hm : (1 <= 3 <= 12)%Z) by lia.
  exact (proj1 (proj2 (proj2
           (delete_month_then_reports Samples.ledger 1%Z 2024%Z 3%Z Hu Hcal Hy Hm)))).
Defined.

(** X17.  [delete_year], when the primary key is a key and the user's
    dates are on the calendar: exactly the user's transactions of that
    year go and every other row stays in its place; the message counts
    the rows that went; the primary key is still a key; afterwards
    [api_summary] of that year is zero. *)
Theorem delete_year_spec (d : db) (uid y : Z) :
  unique_ids d ->
  (forall t, In t d -> user_id t = uid -> on_calendar (date_ t)) ->
  (1 <= y <= 9999)%Z ->
  exists count : nat,
    delete_year d uid (Some y)
    = (filter (fun r => negb (Z.eqb (user_id r) uid && (year (date_ r) =? y)%Z)) d,
       {| success := true;
          message := "Deleted " ++ str_int (Z.of_nat count)
                       ++ " transactions for year " ++ str_int y ++ "." |})
    /\ (length (fst (delete_year d uid (Some y))) + count = length d)%nat
    /\ unique_ids (fst (delete_year d uid (Some y)))
    /\ income (api_summary (fst (delete_year d uid (Some y))) uid (Some y) None None) = 0
    /\ expense (api_summary (fst (delete_year d uid (Some y))) uid (Some y) None None) = 0.
Proof.
  intros Hu Hcal Hy.
  assert (Hdb : fst (delete_year d uid (Some y))
                = filter (fun r => negb (Z.eqb (user_id r) uid
                                         && (year (date_ r) =? y)%Z)) d).
  { unfold delete_year. simpl truthy.
    destruct (Z.eqb_spec y 0) as [?|_]; [lia|].
    cbn [negb fst]. rewrite (year_rows d uid y Hcal Hy).
    now apply delete_selected. }
  exists (length (in_year y (of_user uid d))).
  split; [|split; [|split]].
  - rewrite <- Hdb. unfold delete_year. simpl truthy.
    destruct (Z.eqb_spec y 0) as [?|_]; [lia|]. reflexivity.
  - rewrite Hdb, (year_rows d uid y Hcal Hy). apply filter_length_split.
  - rewrite Hdb. now apply unique_ids_filter.
  - rewrite Hdb.
    set (d' := filter (fun r => negb (Z.eqb (user_id r) uid
                                      && (year (date_ r) =? y)%Z)) d).
    assert (Hcal' : forall t, In t d' -> user_id t = uid -> on_calendar (date_ t)).
    { intros t Ht. apply filter_In in Ht. now apply Hcal. }
    assert (Hempty : in_year y (of_user uid d') = []).
    { rewrite (year_rows d' uid y Hcal' Hy).
      apply filter_none. intros r Hr. apply filter_In in Hr.
      destruct Hr as [_ Hr]. now apply negb_true_iff in Hr. }
    unfold api_summary, _apply_year_month_filters. simpl truthy.
    destruct (Z.eqb_spec y 0) as [?|_]; [lia|].
    cbn [negb]. rewrite Hempty. split; reflexivity.
Qed.

Lemma delete_year_spec_witness :
  unique_ids Samples.ledger
  /\ (forall t, In t Samples.ledger -> user_id t = 1%Z -> on_calendar (date_ t))
  /\ map id (fst (delete_year Samples.ledger 1 (Some 2024%Z))) = [1; 2]%Z
  /\ message (snd (delete_year Samples.ledger 1 (Some 2024%Z)))
     = "Deleted 4 transactions for year 2024."
  /\ unique_ids (fst (delete_year Samples.ledger 1 (Some 2024%Z))).
Proof.
  assert (Hu : unique_ids Samples.ledger).
  { unfold unique_ids. simpl.
    repeat (constructor; [simpl; intuition discriminate|]). constructor. }
  assert (Hcal : forall t, In t Samples.ledger -> user_id t = 1%Z ->
                           on_calendar (date_ t)).
  { intros t [<-|[<-|[<-|[<-|[<-|[<-|[]]]]]]] _; vm_compute; intuition discriminate. }
  split; [exact Hu|]. split; [exact Hcal|].
  split; [reflexivity|]. split; [reflexivity|].
  assert (Hy : (1 <= 2024 <= 9999)%Z) by lia.
  destruct (delete_year_spec Samples.ledger 1%Z 2024%Z Hu Hcal Hy)
    as (count & _ & _ & H & _).
  exact H.
Defined.

(** X18.  [delete_transaction], when the primary key is a key: the row
    with the given id goes if and only if it belongs to the logged-in
    user, and then the answer reports success; in every other case the
    database is unchanged and the answer reports that nothing was found.
    No row of another user ever goes, and the primary key is still a
    key. *)
Theorem delete_transaction_spec (d : db) (uid txn_id : Z) :
  unique_ids d ->
  delete_transaction d uid txn_id
  = (filter (fun r => negb (Z.eqb (id r) txn_id && Z.eqb (user_id r) uid)) d,
     if existsb (fun r => Z.eqb (id r) txn_id && Z.eqb (user_id r) uid) d
     then {| success := true; message := "Transaction deleted." |}
     else {| success := false; message := "Transaction not found." |})
  /\ unique_ids (fst (delete_transaction d uid txn_id)).
Proof.
  intros Hu.
  assert (Hdel : delete_transaction d uid txn_id
    = (filter (fun r => negb (Z.eqb (id r) txn_id && Z.eqb (user_id r) uid)) d,
       if existsb (fun r => Z.eqb (id r) txn_id && Z.eqb (user_id r) uid) d
       then {| success := true; message := "Transaction deleted." |}
       else {| success := false; message := "Transaction not found." |})).
  { unfold delete_transaction.
    destruct (find (fun t => Z.eqb (id t) txn_id && Z.eqb (user_id t) uid) d)
      as [t|] eqn:Ef.
    - apply find_some in Ef. destruct Ef as [Ht Hp].
      assert (Hex : existsb (fun r => Z.eqb (id r) txn_id && Z.eqb (user_id r) uid) d
                    = true)
        by (apply existsb_exists; exists t; tauto).
      rewrite Hex. f_equal. unfold session_delete.
      apply filter_ext_in_bool. intros r Hr. f_equal.
      apply andb_true_iff in Hp. destruct Hp as [Hid Huser].
      apply Z.eqb_eq in Hid. apply Z.eqb_eq in Huser.
      destruct (Z.eqb_spec (id r) (id t)) as [E|Hne].
      + rewrite (unique_ids_inj d r t Hu Hr Ht E), Hid, Huser.
        now rewrite !Z.eqb_refl.
      + destruct (Z.eqb_spec (id r) txn_id) as [E'|_]; [congruence | reflexivity].
    - assert (Hnone : forall r, In r d ->
                (Z.eqb (id r) txn_id && Z.eqb (user_id r) uid) = false)
        by (intros r Hr; apply (find_none _ _ Ef r Hr)).
      assert (Hex : existsb (fun r => Z.eqb (id r) txn_id && Z.eqb (user_id r) uid) d
                    = false).
      { destruct (existsb _ d) eqn:E; [|reflexivity].
        apply existsb_exists in E. destruct E as (r & Hr & Hp).
        rewrite (Hnone r Hr) in Hp. discriminate. }
      rewrite Hex. f_equal.
      rewrite <- (filter_true _ d) at 1.
      apply filter_ext_in_bool. intros r Hr. now rewrite (Hnone r Hr). }
  split; [exact Hdel|].
  rewrite Hdel. now apply unique_ids_filter.
Qed.

Lemma delete_transaction_spec_witness :
  unique_ids Samples.ledger
  /\ map id (fst (delete_transaction Samples.ledger 1 4)) = [1; 2; 3; 5; 6]%Z
  /\ delete_transaction Samples.ledger 1 2
     = (Samples.ledger,
        {| success := false; message := "Transaction not found." |})
  /\ unique_ids (fst (delete_transaction Samples.ledger 1 4)).
Proof.
  assert (Hu : unique_ids Samples.ledger).
  { unfold unique_ids. simpl.
    repeat (constructor; [simpl; intuition discriminate|]). constructor. }
  split; [exact Hu|]. split; [reflexivity|]. split; [reflexivity|].
  exact (proj2 (delete_transaction_spec Samples.ledger 1%Z 4%Z Hu)).
Defined.

(** ** [add_transaction] *)

Section Adding.

Lemma fold_max_ge (l : list Z) :
  forall a, (a <= fold_left Z.max l a)%Z
            /\ forall x, In x l -> (x <= fold_left Z.max l a)%Z.
Proof.
  induction l as [|y l IH]; intros a; simpl.
  - split; [lia | intros x []].
  - destruct (IH (Z.max a y)) as [H1 H2]. split; [lia|].
    intros x [<-|Hx]; [lia | now apply H2].
Qed.

Lemma next_id_fresh (d : db) (r : Transaction) :
  In r d -> (id r < next_id d)%Z.
Proof.
  intros Hr. unfold next_id.
  pose proof (proj2 (fold_max_ge (map id d) 0) (id r) (in_map id d r Hr)). lia.
Qed.

Lemma unique_ids_snoc (d : db) (tx : Transaction) :
  unique_ids d -> (forall r, In r d -> (id r < id tx)%Z) ->
  unique_ids (d ++ [tx])%list.
Proof.
  unfold unique_ids. intros Hu Hfresh. rewrite map_app. simpl.
  apply NoDup_app; [exact Hu | |].
  - repeat constructor. intros [].
  - intros x Hx [E|[]]. apply in_map_iff in Hx.
    destruct Hx as (r & <- & Hr). pose proof (Hfresh r Hr). lia.
Qed.

(** What [add_transaction] does to the database. *)
Lemma add_transaction_cases
    (d d' : db) (uid : Z) (post : bool) (tdate : option date) (amount : option Q)
    (ttype category description : option string) (reply : Reply) :
  add_transaction d uid post tdate amount ttype category description
  = Ok (d', reply) ->
  d' = d
  \/ exists dt a ty,
       tdate = Some dt /\ amount = Some a /\ ttype = Some ty
       /\ (ty = "income" \/ ty = "expense")
       /\ page_ reply = Redirect "dashboard"
       /\ d' = (d ++ [ {| id := next_id d; user_id := uid; date_ := dt;
                          Models.amount := a; Models.ttype := ty;
                          Models.category :=
                            match category with Some c => c | None => "Other" end;
                          Models.description :=
                            Some (match description with
                                  | Some s => s
                                  | None => EmptyString
                                  end) |} ])%list.
Proof.
  unfold add_transaction. intros H.
  destruct post; [|injection H as <- _; now left].
  destruct tdate as [dt|]; [|injection H as <- _; now left].
  destruct amount as [a|]; [|discriminate].
  cbv zeta in H.
  destruct ttype as [ty|]; [|injection H as <- _; now left].
  destruct (String.eqb ty "income" || String.eqb ty "expense") eqn:E;
    cbn [negb] in H; [|injection H as <- _; now left].
  injection H as <- <-. right. exists dt, a, ty.
  repeat split; try reflexivity.
  apply orb_true_iff in E. destruct E as [E|E]; apply String.eqb_eq in E; tauto.
Qed.

Lemma filter_snoc (A : Type) (f : A -> bool) (l : list A) (x : A) :
  filter f (l ++ [x])%list = (filter f l ++ if f x then [x] else [])%list.
Proof.
  induction l as [|a l IH]; simpl; [reflexivity|].
  destruct (f a); simpl; now rewrite IH.
Qed.

End Adding.

(** X21.  Whatever the form holds, [add_transaction] either leaves the
    database as it is or appends one row of the logged-in user: it never
    stores a type other than [income] and [expense], never touches the
    transactions of another user, and keeps ids unique. *)
Theorem add_transaction_keeps_invariants
    (d d' : db) (uid : Z) (post : bool) (tdate : option date) (amount : option Q)
    (ttype category description : option string) (reply : Reply) :
  add_transaction d uid post tdate amount ttype category description
  = Ok (d', reply) ->
  (valid_types d -> valid_types d')
  /\ (unique_ids d -> unique_ids d')
  /\ (forall u, u <> uid -> transactions_of d' u = transactions_of d u)
  /\ (d' = d \/ exists tx, d' = (d ++ [tx])%list /\ user_id tx = uid).
Proof.
  intros H. apply add_transaction_cases in H.
  destruct H as [->|(dt & a & ty & _ & _ & _ & Hty & _ & ->)].
  - repeat split; auto.
  - split; [|split; [|split]].
    + intros Hv r Hr. apply in_app_or in Hr.
      destruct Hr as [Hr|[<-|[]]]; [now apply Hv | exact Hty].
    + intros Hu. apply unique_ids_snoc; [exact Hu|].
      intros r Hr. now apply next_id_fresh.
    + intros u Hne. unfold transactions_of. rewrite filter_snoc. simpl.
      destruct (Z.eqb_spec uid u) as [?|_]; [congruence|].
      now rewrite app_nil_r.
    + right. eexists. split; reflexivity.
Qed.

Lemma add_transaction_keeps_invariants_witness :
  add_transaction Samples.ledger 1 true (Some (Date 2024 4 1)) (Some 5)
                  (Some "transfer") None None
  = Ok (Samples.ledger,
        {| flashed := [("Type must be income or expense.", "error")];
           page_ := Render "add_transaction.html" |})
  /\ (unique_ids Samples.ledger -> unique_ids Samples.ledger)
  /\ (forall u, u <> 1%Z ->
                transactions_of Samples.ledger u = transactions_of Samples.ledger u).
Proof.
  assert (H : add_transaction Samples.ledger 1 true (Some (Date 2024 4 1)) (Some 5)
                (Some "transfer") None None
              = Ok (Samples.ledger,
                    {| flashed := [("Type must be income or expense.", "error")];
                       page_ := Render "add_transaction.html" |}))
    by reflexivity.
  split; [exact H|].
  destruct (add_transaction_keeps_invariants _ _ _ _ _ _ _ _ _ _ H)
    as (_ & Hu & Ho & _).
  split; [exact Hu | exact Ho].
Defined.

(** X22.  Adding transactions and the forecast: the first expense a
    user adds is the forecast afterwards, and adding an income never
    changes the forecast. *)
Theorem add_transaction_then_forecast
    (d : db) (uid : Z) (tdate : date) (a : Q) (category description : option string) :
  (expenses_of d uid = [] ->
   exists d' reply,
     add_transaction d uid true (Some tdate) (Some a) (Some "expense")
                     category description = Ok (d', reply)
     /\ predict_next_month_expense d' uid = Ok a)
  /\ (exists d' reply,
        add_transaction d uid true (Some tdate) (Some a) (Some "income")
                        category description = Ok (d', reply)
        /\ predict_next_month_expense d' uid = predict_next_month_expense d uid).
Proof.
  split.
  - intros He. do 2 eexists. split; [reflexivity|].
    rewrite predict_forecast_of, monthly_series_expenses.
    unfold expenses_of. rewrite filter_snoc. fold (expenses_of d uid).
    rewrite He. cbn [user_id Models.ttype]. rewrite Z.eqb_refl. reflexivity.
  - do 2 eexists. split; [reflexivity|].
    rewrite !predict_forecast_of, !monthly_series_expenses.
    unfold expenses_of. rewrite filter_snoc.
    cbn [user_id Models.ttype]. rewrite Z.eqb_refl. simpl.
    now rewrite app_nil_r.
Qed.

Lemma add_transaction_then_forecast_witness :
  expenses_of Samples.income_only 1 = []
  /\ exists d' reply,
       add_transaction Samples.income_only 1 true (Some (Date 2024 2 3)) (Some 42)
                       (Some "expense") (Some "Food") None = Ok (d', reply)
       /\ predict_next_month_expense d' 1 = Ok 42.
Proof.
  assert (He : expenses_of Samples.income_only 1 = []) by reflexivity.
  split; [exact He|].
  exact (proj1 (add_transaction_then_forecast Samples.income_only 1%Z
                  (Date 2024 2 3) 42 (Some "Food") None) He).
Defined.

(* ================================================================= *)
(** * The engine on IEEE doubles: theorems *)

Import Floats Library Ieee IeeeSpec.

(** ** Signs of doubles *)

Section DoubleFacts.

(** A double is not below zero unless it is a negative number or the
    negative infinity. *)
Lemma not_below_zero (x : float) :
  PrimFloat.ltb x 0%float = false
  <-> match Prim2SF x with
      | S754_finite true _ _ | S754_infinity true => False
      | _ => True
      end.
Proof.
  rewrite ltb_spec. change (Prim2SF 0%float) with (S754_zero false).
  destruct (Prim2SF x) as [s|s| |s m e]; unfold SFltb; simpl;
    try destruct s; intuition discriminate.
Qed.

Lemma at_least_zero (x : float) :
  PrimFloat.leb 0%float x = true -> PrimFloat.ltb x 0%float = false.
Proof.
  rewrite leb_spec, ltb_spec. change (Prim2SF 0%float) with (S754_zero false).
  destruct (Prim2SF x) as [s|s| |s m e]; unfold SFleb, SFltb; simpl;
    try destruct s; intuition discriminate.
Qed.

Lemma round_keeps_sign (m : positive) (e : Z) :
  match binary_round prec emax false m e with
  | S754_finite true _ _ | S754_infinity true => False
  | _ => True
  end.
Proof.
  unfold binary_round, binary_round_aux.
  destruct (shl_align _ _ _) as [mz ez].
  destruct (shr_fexp _ _ _ _ _) as [mrs e'].
  destruct (shr_fexp _ _ _ _ _) as [mrs' e''].
  destruct (shr_m mrs'); [exact I| |exact I].
  destruct (Z.leb _ _); exact I.
Qed.

(** The sum of two doubles that are not below zero is not below zero. *)
Lemma add_keeps_sign (a b : float) :
  PrimFloat.ltb a 0%float = false -> PrimFloat.ltb b 0%float = false ->
  PrimFloat.ltb (a + b)%float 0%float = false.
Proof.
  rewrite !not_below_zero, add_spec. unfold SF64add, SFadd.
  destruct (Prim2SF a) as [sa|sa| |sa ma ea], (Prim2SF b) as [sb|sb| |sb mb eb];
    try destruct sa; try destruct sb; try tauto; intros _ _.
  cbn [cond_Zopp]. unfold binary_normalize.
  destruct (shl_align ma ea _) as [m1 e1], (shl_align mb eb _) as [m2 e2].
  cbn [fst]. apply round_keeps_sign.
Qed.

Lemma fold_add_keeps_sign (l : list float) :
  forall acc : float,
    (forall x, In x l -> PrimFloat.ltb x 0%float = false) ->
    PrimFloat.ltb acc 0%float = false ->
    PrimFloat.ltb (fold_left PrimFloat.add l acc) 0%float = false.
Proof.
  induction l as [|x l IH]; intros acc Hl Hacc; simpl; [exact Hacc|].
  apply IH.
  - intros y Hy. apply Hl. now right.
  - apply add_keeps_sign; [exact Hacc | apply Hl; now left].
Qed.

Lemma loop_sum_keeps_sign : keeps_sign plain.
Proof.
  intros l Hl. cbn [group_sum plain]. unfold loop_sum.
  now apply fold_add_keeps_sign.
Qed.

(** [max(pred, 0.0)] is never below zero, and it is [0.0] whenever
    [pred] is. *)
Lemma max_zero_not_below (p : float) :
  PrimFloat.ltb (Double.max p 0%float) 0%float = false.
Proof.
  unfold Double.max. destruct (PrimFloat.ltb p 0%float) eqn:E; [reflexivity | exact E].
Qed.

End DoubleFacts.

(** ** Grouping rows by label *)

Section IeeeGrouping.

Lemma groups_index (k k' : string) (v : float) (g : list (string * list float)) :
  In k (map fst (Library.add_to_group k' v g)) <-> k = k' \/ In k (map fst g).
Proof.
  induction g as [|[k0 vs] g IH]; simpl.
  - intuition.
  - cmp_cases; try rewrite IH; intuition.
Qed.

Lemma groups_sorted (k : string) (v : float) (g : list (string * list float)) :
  StronglySorted String_as_OT.lt (map fst g) ->
  StronglySorted String_as_OT.lt (map fst (Library.add_to_group k v g)).
Proof.
  induction g as [|[k0 vs] g IH]; simpl; intros H.
  - repeat constructor.
  - inversion H as [|? ? Hs Hall]; subst.
    cmp_cases.
    + constructor; auto.
    + constructor; [constructor; auto|].
      constructor; auto.
      eapply Forall_impl; [|exact Hall]. intros a Ha.
      eapply str_lt_trans; eauto.
    + constructor; [apply IH; auto|].
      apply Forall_forall. intros x Hx.
      apply groups_index in Hx. destruct Hx as [->|Hx]; auto.
      rewrite Forall_forall in Hall. auto.
Qed.

(** Where a row went: into a new group of its own, at the end of the
    group of its label, and nowhere else. *)
Lemma groups_rows (k : string) (v : float) (g : list (string * list float)) :
  StronglySorted String_as_OT.lt (map fst g) ->
  forall k' vs, In (k', vs) (Library.add_to_group k v g) ->
    (k' = k /\ ((~ In k (map fst g) /\ vs = [v])
                \/ exists vs0, In (k, vs0) g /\ vs = (vs0 ++ [v])%list))
    \/ (k' <> k /\ In (k', vs) g).
Proof.
  induction g as [|[k0 vs0] g IH]; simpl; intros Hs k' vs Hin.
  - destruct Hin as [E|[]]. injection E as <- <-. left. split; [reflexivity|]. left. tauto.
  - inversion Hs as [|? ? Hs' Hall]; subst. rewrite Forall_forall in Hall.
    assert (Hback : forall x ws, In (x, ws) g -> String_as_OT.lt k0 x).
    { intros x ws Hx. apply Hall. change x with (fst (x, ws)). now apply in_map. }
    revert Hin. cmp_cases; intros Hin.
    + destruct Hin as [E|Hin].
      * injection E as <- <-. left. split; [reflexivity|]. right. exists vs0. split; [now left | reflexivity].
      * right. split; [|now right].
        intros ->. pose proof (Hback _ _ Hin). str_absurd.
    + destruct Hin as [E|Hin].
      * injection E as <- <-. left. split; [reflexivity|]. left. split; [|reflexivity].
        intros [E|Hk]; [subst; str_absurd|].
        pose proof (Hall _ Hk). str_absurd.
      * right. split; [|exact Hin].
        intros ->. destruct Hin as [E|Hin].
        -- injection E as -> _. str_absurd.
        -- pose proof (Hback _ _ Hin). str_absurd.
    + destruct Hin as [E|Hin].
      * injection E as <- <-. right. split; [|now left]. intros ->. str_absurd.
      * destruct (IH Hs' k' vs Hin) as [[-> [[Hn ->]|(ws & Hw & ->)]]|[Hne Hg]].
        -- left. split; [reflexivity|]. left. split; [|reflexivity].
           intros [E|Hk]; [subst; str_absurd | contradiction].
        -- left. split; [reflexivity|]. right. exists ws. split; [now right | reflexivity].
        -- right. split; [exact Hne | now right].
Qed.

Lemma groupby_snoc (rows : list (string * float)) (kv : string * float) :
  Library.groupby (rows ++ [kv])%list
  = Library.add_to_group (fst kv) (snd kv) (Library.groupby rows).
Proof.
  unfold Library.groupby. now rewrite fold_left_app.
Qed.

Lemma groupby_sorted (rows : list (string * float)) :
  StronglySorted String_as_OT.lt (map fst (Library.groupby rows)).
Proof.
  induction rows as [|kv rows IH] using rev_ind.
  - constructor.
  - rewrite groupby_snoc. now apply groups_sorted.
Qed.

Lemma groupby_index (rows : list (string * float)) (k : string) :
  In k (map fst (Library.groupby rows)) <-> In k (map fst rows).
Proof.
  induction rows as [|kv rows IH] using rev_ind.
  - reflexivity.
  - rewrite groupby_snoc, groups_index, IH, map_app, in_app_iff. simpl. intuition.
Qed.

Lemma filter_absent (rows : list (string * float)) (k : string) :
  ~ In k (map fst rows) ->
  filter (fun kv => String.eqb (fst kv) k) rows = [].
Proof.
  induction rows as [|kv rows IH]; simpl; intros H; [reflexivity|].
  destruct (String.eqb_spec (fst kv) k) as [E|_]; [tauto|].
  apply IH. tauto.
Qed.

(** Every group holds the amounts of the rows with its label, in row
    order. *)
Lemma groupby_rows (rows : list (string * float)) (k : string) (vs : list float) :
  In (k, vs) (Library.groupby rows) ->
  vs = map snd (filter (fun kv => String.eqb (fst kv) k) rows).
Proof.
  revert k vs. induction rows as [|kv rows IH] using rev_ind; intros k vs Hin.
  - destruct Hin.
  - rewrite groupby_snoc in Hin.
    apply groups_rows in Hin; [|apply groupby_sorted].
    rewrite filter_app, map_app. simpl.
    destruct Hin as [[-> [[Hn ->]|(ws & Hw & ->)]]|[Hne Hg]].
    + rewrite String.eqb_refl, filter_absent; [reflexivity|].
      now rewrite <- groupby_index.
    + rewrite String.eqb_refl. now rewrite <- (IH _ _ Hw).
    + destruct (String.eqb_spec (fst kv) k) as [E|_]; [congruence|].
      rewrite app_nil_r. now apply IH.
Qed.

(** Two strictly ascending lists with the same elements are equal. *)
Lemma sorted_same_elements (l l' : list string) :
  StronglySorted String_as_OT.lt l -> StronglySorted String_as_OT.lt l' ->
  (forall x, In x l <-> In x l') -> l = l'.
Proof.
  revert l'. induction l as [|a l IH]; intros [|b l'] Hl Hl' Hin.
  - reflexivity.
  - exfalso. apply (proj2 (Hin b)). now left.
  - exfalso. apply (proj1 (Hin a)). now left.
  - inversion Hl as [|? ? Hs Ha]; subst. inversion Hl' as [|? ? Hs' Hb]; subst.
    rewrite Forall_forall in Ha, Hb.
    assert (E : a = b).
    { destruct (proj1 (Hin a) (or_introl eq_refl)) as [E|Hal']; [now symmetry|].
      destruct (proj2 (Hin b) (or_introl eq_refl)) as [E|Hbl]; [exact E|].
      pose proof (Ha _ Hbl). pose proof (Hb _ Hal'). str_absurd. }
    subst b. f_equal. apply IH; auto.
    intros x. split; intros Hx.
    + destruct (proj1 (Hin x) (or_intror Hx)) as [E|H]; [|exact H].
      subst x. pose proof (Ha _ Hx). str_absurd.
    + destruct (proj2 (Hin x) (or_intror Hx)) as [E|H]; [|exact H].
      subst x. pose proof (Hb _ Hx). str_absurd.
Qed.

Lemma groups_by_label (f : string -> list float) (g : list (string * list float)) :
  (forall k vs, In (k, vs) g -> vs = f k) ->
  g = map (fun k => (k, f k)) (map fst g).
Proof.
  induction g as [|[k vs] g IH]; simpl; intros H; [reflexivity|].
  f_equal.
  - f_equal. apply H. now left.
  - apply IH. intros k' vs' Hin. apply H. now right.
Qed.

End IeeeGrouping.

(** ** The monthly totals *)

Section IeeeQuery.

Lemma query_rows64 (d : db) (uid : Z) :
  _query_user_df d uid = map to_row (transactions_of d uid).
Proof. reflexivity. Qed.

Lemma of_type_query64 (t : string) (d : db) (uid : Z) :
  of_type t (_query_user_df d uid)
  = map to_row
      (filter (fun r => Z.eqb (user_id r) uid && String.eqb (ttype r) t) d).
Proof.
  unfold of_type, _query_user_df.
  induction d as [|r d IH]; simpl; [reflexivity|].
  destruct (Z.eqb (user_id r) uid); simpl; [|exact IH].
  destruct (String.eqb (ttype r) t); simpl; [f_equal|]; exact IH.
Qed.

Lemma month_rows64 (d : db) (uid : Z) :
  map (fun r => (Recommender.ym (r_date r), r_amount r))
      (of_type "expense" (_query_user_df d uid))
  = map (fun t => (Recommender.ym (date_ t), amount t)) (expenses_of d uid).
Proof.
  rewrite of_type_query64, map_map. reflexivity.
Qed.

Lemma month_amounts_rows (d : db) (uid : Z) (m : string) :
  map snd (filter (fun kv => String.eqb (fst kv) m)
             (map (fun t => (Recommender.ym (date_ t), amount t)) (expenses_of d uid)))
  = month_amounts d uid m.
Proof.
  unfold month_amounts.
  induction (expenses_of d uid) as [|t l IH]; simpl; [reflexivity|].
  destruct (String.eqb (Recommender.ym (date_ t)) m); simpl; now rewrite IH.
Qed.

(** The months of a user, computed. *)
Lemma month_list_computed (d : db) (uid : Z) :
  month_list d uid
    (map fst (Library.groupby
                (map (fun t => (Recommender.ym (date_ t), amount t))
                     (expenses_of d uid)))).
Proof.
  split; [apply groupby_sorted|].
  intros m. rewrite groupby_index, map_map. simpl.
  rewrite in_map_iff. split; intros (t & H1 & H2); exists t; tauto.
Qed.

Lemma month_list_exists (d : db) (uid : Z) :
  exists months, month_list d uid months.
Proof.
  eexists. apply month_list_computed.
Qed.

(** The monthly expense series of the engine: one point per month of
    the user, in ascending order, holding the library's total of the
    amounts the user spent in that month. *)
Lemma monthly_by_months (k : kernels) (d : db) (uid : Z) (months : list string) :
  month_list d uid months ->
  groupby_sum k
    (map (fun r => (Recommender.ym (r_date r), r_amount r))
         (of_type "expense" (_query_user_df d uid)))
  = map (fun m => (m, group_sum k (month_amounts d uid m))) months.
Proof.
  intros [Hs Hin]. rewrite month_rows64. unfold groupby_sum.
  set (rows := map (fun t => (Recommender.ym (date_ t), amount t)) (expenses_of d uid)).
  assert (Hm : map fst (Library.groupby rows) = months).
  { apply sorted_same_elements; [apply groupby_sorted | exact Hs |].
    intros m. rewrite groupby_index, Hin. unfold rows. rewrite map_map. simpl.
    rewrite in_map_iff. split; intros (t & H1 & H2); exists t; tauto. }
  rewrite (groups_by_label (month_amounts d uid) (Library.groupby rows)).
  - rewrite Hm, map_map. reflexivity.
  - intros m vs Hg. rewrite (groupby_rows _ _ _ Hg). apply month_amounts_rows.
Qed.

(** The same for the categories. *)
Lemma category_rows64 (d : db) (uid : Z) :
  map (fun r => (r_category r, r_amount r))
      (of_type "expense" (_query_user_df d uid))
  = map (fun t => (category t, amount t)) (expenses_of d uid).
Proof.
  rewrite of_type_query64, map_map. reflexivity.
Qed.

Lemma category_amounts_rows (d : db) (uid : Z) (c : string) :
  map snd (filter (fun kv => String.eqb (fst kv) c)
             (map (fun t => (category t, amount t)) (expenses_of d uid)))
  = category_amounts d uid c.
Proof.
  unfold category_amounts.
  induction (expenses_of d uid) as [|t l IH]; simpl; [reflexivity|].
  destruct (String.eqb (category t) c); simpl; now rewrite IH.
Qed.

Lemma category_list_computed (d : db) (uid : Z) :
  category_list d uid
    (map fst (Library.groupby
                (map (fun t => (category t, amount t)) (expenses_of d uid)))).
Proof.
  split; [apply groupby_sorted|].
  intros m. rewrite groupby_index, map_map. simpl.
  rewrite in_map_iff. split; intros (t & H1 & H2); exists t; tauto.
Qed.

Lemma categories_by_labels (k : kernels) (d : db) (uid : Z) (cats : list string) :
  category_list d uid cats ->
  groupby_sum k (map (fun t => (category t, amount t)) (expenses_of d uid))
  = map (fun c => (c, group_sum k (category_amounts d uid c))) cats.
Proof.
  intros [Hs Hin]. unfold groupby_sum.
  set (rows := map (fun t => (category t, amount t)) (expenses_of d uid)).
  assert (Hm : map fst (Library.groupby rows) = cats).
  { apply sorted_same_elements; [apply groupby_sorted | exact Hs |].
    intros m. rewrite groupby_index, Hin. unfold rows. rewrite map_map. simpl.
    rewrite in_map_iff. split; intros (t & H1 & H2); exists t; tauto. }
  rewrite (groups_by_label (category_amounts d uid) (Library.groupby rows)).
  - rewrite Hm, map_map. reflexivity.
  - intros m vs Hg. rewrite (groupby_rows _ _ _ Hg). apply category_amounts_rows.
Qed.

Lemma monthly_values (k : kernels) (d : db) (uid : Z) (months : list string) :
  Library.values (map (fun m => (m, group_sum k (month_amounts d uid m))) months)
  = month_totals k d uid months.
Proof.
  unfold Library.values, month_totals. now rewrite map_map.
Qed.

Lemma no_expense_no_month (d : db) (uid : Z) (months : list string) :
  month_list d uid months -> expenses_of d uid = [] -> months = [].
Proof.
  intros [_ Hin] He. destruct months as [|m months]; [reflexivity|].
  destruct (proj1 (Hin m) (or_introl eq_refl)) as (t & Ht & _).
  rewrite He in Ht. destruct Ht.
Qed.

End IeeeQuery.

(** ** The shape of the forecast and of the recommendations *)

Section IeeeShape.

Lemma iloc_last_last64 (ys : list float) :
  ys <> [] -> Library.iloc_last ys = Ok (last ys 0%float).
Proof.
  intros H. unfold Library.iloc_last.
  destruct (exists_last H) as (l & x & ->).
  now rewrite rev_app_distr, last_last.
Qed.

Lemma amounts_rows64 (l : list Transaction) :
  amounts (map to_row l) = map amount l.
Proof.
  unfold amounts. rewrite map_map. reflexivity.
Qed.

Lemma expense_rows64 (d : db) (uid : Z) :
  of_type "expense" (_query_user_df d uid) = map to_row (expenses_of d uid).
Proof. apply of_type_query64. Qed.

Lemma no_transaction_no_expense (d : db) (uid : Z) :
  transactions_of d uid = [] -> expenses_of d uid = [].
Proof.
  unfold transactions_of, expenses_of. intros H.
  induction d as [|t d IH]; simpl in *; [reflexivity|].
  destruct (Z.eqb (user_id t) uid); simpl in *; [discriminate | now apply IH].
Qed.

Lemma month_totals_length (k : kernels) (d : db) (uid : Z) (months : list string) :
  length (month_totals k d uid months) = length months.
Proof. apply length_map. Qed.

(** The forecast is a function of the monthly totals. *)
Lemma predict_forecast (k : kernels) (d : db) (uid : Z) (months : list string) :
  month_list d uid months ->
  predict_next_month_expense k d uid = forecast k (month_totals k d uid months).
Proof.
  intros Hm. unfold predict_next_month_expense. cbv zeta.
  rewrite (monthly_by_months k d uid months Hm), monthly_values, expense_rows64.
  rewrite query_rows64.
  destruct (transactions_of d uid) as [|t ts] eqn:Et.
  - rewrite (no_expense_no_month d uid months Hm (no_transaction_no_expense d uid Et)).
    reflexivity.
  - cbn [map empty].
    destruct (expenses_of d uid) as [|e es] eqn:Ee.
    + rewrite (no_expense_no_month d uid months Hm Ee). reflexivity.
    + cbn [map empty]. unfold forecast.
      rewrite length_map, month_totals_length.
      destruct (Nat.ltb_spec (length months) 2) as [H2|H2]; [reflexivity|].
      fold (positions (length months)).
      destruct (fit k (positions (length months)) (month_totals k d uid months));
        [|reflexivity].
      cbn [Py.bind]. unfold positions. rewrite max_range_1 by lia. reflexivity.
Qed.

(** The recommendations of a user with transactions: the savings
    message, the category messages, the warning if the check fires and
    the forecast message, provided the forecast returns. *)
Lemma generate_shape64 (k : kernels) (d : db) (uid : Z) (months : list string) :
  transactions_of d uid <> [] ->
  month_list d uid months ->
  generate_recommendations k d uid
  = (pred <- predict_next_month_expense k d uid ;;
     Ok (rec_first k d uid
           :: (map msg_high_spend (top_categories k d uid)
                 ++ (if exceeds_average k (month_totals k d uid months)
                     then [Recommender.msg_volatility] else [])
                 ++ [rec_last k d uid pred])%list)).
Proof.
  intros Hne Hm.
  unfold generate_recommendations.
  assert (Hdf : empty (_query_user_df d uid) = false).
  { rewrite query_rows64. destruct (transactions_of d uid); [congruence|reflexivity]. }
  rewrite Hdf. cbv zeta.
  rewrite (monthly_by_months k d uid months Hm), monthly_values.
  rewrite !of_type_query64, !amounts_rows64.
  fold (expenses_of d uid). fold (total_income k d uid). fold (total_expense k d uid).
  rewrite !map_map. cbn [to_row r_category r_amount].
  fold (top_categories k d uid).
  rewrite fold_append.
  (* the volatility block *)
  assert (Hvol :
    forall recs : list string,
      (if negb (empty (map to_row (expenses_of d uid)))
       then
         if (2 <=? length (map (fun m => (m, group_sum k (month_amounts d uid m))) months))%nat
         then
           last <- Library.iloc_last (month_totals k d uid months) ;;
           (if Double.gt last (1.2 * series_mean k (Library.iloc_init (month_totals k d uid months)))%float
            then Ok (append recs Recommender.msg_volatility) else Ok recs)
         else Ok recs
       else Ok recs)
      = Ok (recs ++ (if exceeds_average k (month_totals k d uid months)
                     then [Recommender.msg_volatility] else []))%list).
  { intros recs. unfold exceeds_average.
    rewrite length_map, month_totals_length.
    destruct (expenses_of d uid) as [|e es] eqn:Ee; cbn [map empty negb].
    - rewrite (no_expense_no_month d uid months Hm Ee). simpl. now rewrite app_nil_r.
    - destruct (Nat.leb_spec 2 (length months)) as [H2|H2];
        cbn [andb]; [|now rewrite app_nil_r].
      rewrite iloc_last_last64.
      2:{ intros E. pose proof (month_totals_length k d uid months) as Hl.
          rewrite E in Hl. simpl in Hl. lia. }
      cbn [Py.bind]. unfold Double.gt, Library.iloc_init.
      destruct (PrimFloat.ltb _ _); [reflexivity | now rewrite app_nil_r]. }
  rewrite Hvol. cbn [Py.bind].
  destruct (predict_next_month_expense k d uid) as [pred|e]; [|reflexivity].
  cbn [Py.bind]. unfold rec_first, rec_last.
  destruct (Double.gt (total_income k d uid) 0%float);
    unfold append; simpl app; rewrite <- !app_assoc; reflexivity.
Qed.

Lemma last_recommendation (a z : string) (l1 l2 : list string) :
  last (a :: l1 ++ l2 ++ [z])%list EmptyString = z.
Proof.
  change (a :: l1 ++ l2 ++ [z])%list with ((a :: l1) ++ l2 ++ [z])%list.
  now rewrite !app_assoc, last_last.
Qed.

Lemma warning_iff_check (a z : string) (l1 : list string) (b : bool) :
  a <> Recommender.msg_volatility -> z <> Recommender.msg_volatility ->
  ~ In Recommender.msg_volatility l1 ->
  (In Recommender.msg_volatility
      (a :: l1 ++ (if b then [Recommender.msg_volatility] else []) ++ [z])%list
   <-> b = true).
Proof.
  intros Ha Hz Hl. split.
  - intros [H|H]; [congruence|].
    apply in_app_or in H. destruct H as [H|H]; [contradiction|].
    apply in_app_or in H. destruct H as [H|[H|[]]]; [|congruence].
    destruct b; [reflexivity | destruct H].
  - intros ->. right. apply in_or_app. right. now left.
Qed.

End IeeeShape.

(** ** Doubles are dyadic *)

Section Dyadic.

Lemma pow2_mod3 (p : positive) :
  (Z.pos (2 ^ p) mod 3 = 1 \/ Z.pos (2 ^ p) mod 3 = 2)%Z.
Proof.
  induction p as [|p IH] using Pos.peano_ind.
  - right. reflexivity.
  - rewrite Pos.pow_succ_r, Pos2Z.inj_mul, Z.mul_mod by lia.
    destruct IH as [-> | ->]; [right | left]; reflexivity.
Qed.

Lemma pos_pow_1_l (p : positive) : (1 ^ p)%positive = 1%positive.
Proof.
  apply Pos2Z.inj. rewrite Pos2Z.inj_pow. apply Z.pow_1_l. lia.
Qed.

(** No double stands for 7/3: the value of a double is an integer
    times a power of two. *)
Lemma no_double_is_seven_thirds (x : float) : ~ Double.value x == 7 # 3.
Proof.
  unfold Double.value.
  destruct (Prim2SF x) as [s|s| |s m e]; try (unfold Qeq; simpl; lia).
  rewrite Qred_correct.
  generalize (cond_Zopp s (Z.pos m)) as z. intros z.
  destruct e as [|p|p].
  - unfold Qeq. simpl. lia.
  - rewrite (Qpower.Qpower_decomp_pos p 2 1), pos_pow_1_l.
    unfold Qeq, Qmult. cbn [Qnum Qden inject_Z].
    generalize (2 ^ Z.pos p)%Z as w. intros w. nia.
  - rewrite (Qpower.Qpower_decomp_neg_pos p 2 1), Z.pow_1_l by lia.
    unfold Qeq, Qmult. cbn [Qnum Qden inject_Z].
    pose proof (pow2_mod3 p) as Hp.
    pose proof (Z.div_mod (Z.pos (2 ^ p)) 3 ltac:(lia)) as Hd.
    rewrite Pos.mul_1_l. lia.
Qed.

End Dyadic.

(* ================================================================= *)
(** * The forecast and the recommendations on doubles *)

Section IeeeForecast.

Lemma forecast_cases (k : kernels) (ys : list float) :
  ((length ys < 2)%nat -> forecast k ys = Ok (last ys 0%float))
  /\ ((2 <= length ys)%nat ->
      forecast k ys
      = (model <- fit k (positions (length ys)) ys ;;
         Ok (Double.max (predict k model (Z.of_nat (length ys) + 1)) 0%float))).
Proof.
  unfold forecast. split; intros H.
  - destruct (Nat.ltb_spec (length ys) 2) as [_|?]; [|lia].
    destruct ys as [|y ys]; [reflexivity|].
    now rewrite iloc_last_last64.
  - destruct (Nat.ltb_spec (length ys) 2) as [?|_]; [lia | reflexivity].
Qed.

Lemma empty_rows_guard64 (k : kernels) (d : db) (uid : Z) :
  transactions_of d uid = [] ->
  predict_next_month_expense k d uid = Ok 0%float
  /\ generate_recommendations k d uid = Ok [Recommender.msg_no_data].
Proof.
  intros H. unfold predict_next_month_expense, generate_recommendations.
  rewrite query_rows64, H. split; reflexivity.
Qed.

(** The forecast raises exactly when there are two months or more and
    the fit raises. *)
Lemma predict_raises (k : kernels) (d : db) (uid : Z) (months : list string) :
  month_list d uid months ->
  forall e,
    predict_next_month_expense k d uid = Raise e
    <-> (2 <= length months)%nat
        /\ fit k (positions (length months)) (month_totals k d uid months) = Raise e.
Proof.
  intros Hm e. rewrite (predict_forecast k d uid months Hm).
  pose proof (month_totals_length k d uid months) as Hl.
  destruct (forecast_cases k (month_totals k d uid months)) as [H1 H2].
  rewrite Hl in H1, H2.
  destruct (Nat.lt_ge_cases (length months) 2) as [Hs|Hs].
  - rewrite (H1 Hs). split; [discriminate | lia].
  - rewrite (H2 Hs).
    destruct (fit k (positions (length months)) (month_totals k d uid months)) as [md|e'];
      cbn [Py.bind]; split.
    + discriminate.
    + intros [_ H]. discriminate.
    + intros H. injection H as ->. split; [exact Hs | reflexivity].
    + intros [_ H]. injection H as ->. reflexivity.
Qed.

Lemma generate_raises (k : kernels) (d : db) (uid : Z) :
  forall e,
    generate_recommendations k d uid = Raise e
    <-> predict_next_month_expense k d uid = Raise e.
Proof.
  intros e.
  destruct (transactions_of d uid) as [|t ts] eqn:Et.
  - destruct (empty_rows_guard64 k d uid Et) as [-> ->]. split; discriminate.
  - destruct (month_list_exists d uid) as [months Hm].
    rewrite (generate_shape64 k d uid months) by (congruence || assumption).
    destruct (predict_next_month_expense k d uid) as [p|e']; cbn [Py.bind];
      split; congruence.
Qed.

(** Two databases in which the user has the same months and the same
    total in every month give the same forecast. *)
Lemma predict_same_totals
    (k : kernels) (d d' : db) (uid uid' : Z) (months : list string) :
  month_list d uid months ->
  month_list d' uid' months ->
  (forall m, In m months ->
     group_sum k (month_amounts d uid m) = group_sum k (month_amounts d' uid' m)) ->
  predict_next_month_expense k d uid = predict_next_month_expense k d' uid'.
Proof.
  intros Hm Hm' Hsum.
  rewrite (predict_forecast k d uid months Hm), (predict_forecast k d' uid' months Hm').
  f_equal. unfold month_totals. apply map_ext_in. exact Hsum.
Qed.

Lemma expenses_perm (d d' : db) (uid : Z) :
  Permutation d d' -> Permutation (expenses_of d uid) (expenses_of d' uid).
Proof.
  intros H. unfold expenses_of. now apply filter_perm.
Qed.

Lemma month_list_perm (d d' : db) (uid : Z) (months : list string) :
  Permutation d d' -> month_list d uid months -> month_list d' uid months.
Proof.
  intros Hp [Hs Hin]. pose proof (expenses_perm d d' uid Hp) as He.
  split; [exact Hs|].
  intros m. rewrite Hin. split; intros (t & Ht & E); exists t; split; auto.
  - now apply (Permutation_in _ He).
  - now apply (Permutation_in _ (Permutation_sym He)).
Qed.

Lemma category_list_perm (d d' : db) (uid : Z) (cats : list string) :
  Permutation d d' -> category_list d uid cats -> category_list d' uid cats.
Proof.
  intros Hp [Hs Hin]. pose proof (expenses_perm d d' uid Hp) as He.
  split; [exact Hs|].
  intros m. rewrite Hin. split; intros (t & Ht & E); exists t; split; auto.
  - now apply (Permutation_in _ He).
  - now apply (Permutation_in _ (Permutation_sym He)).
Qed.

End IeeeForecast.

(** C1.  When the user has expenses in two months or more, the forecast
    is what the fitted [LinearRegression] predicts, floored by
    [max(pred, 0.0)]: the model is fitted to the positions 1..n against
    the monthly totals, one point per month in which the user spent, in
    ascending month order (a month without expenses takes no position),
    and it is evaluated at n+1.  The fit and the prediction are those of
    the library, in double precision. *)
Theorem forecast_is_clamped_regression
    (k : kernels) (d : db) (uid : Z) (months : list string) :
  month_list d uid months ->
  (2 <= length months)%nat ->
  positions (length months) = map Z.of_nat (seq 1 (length months))
  /\ predict_next_month_expense k d uid
     = (model <- fit k (positions (length months)) (month_totals k d uid months) ;;
        Ok (Double.max (predict k model (Z.of_nat (length months) + 1)) 0%float)).
Proof.
  intros Hm Hn. split.
  - unfold positions. rewrite range_1, <- seq_shift, map_map.
    apply map_ext. intros i. lia.
  - rewrite (predict_forecast k d uid months Hm).
    destruct (forecast_cases k (month_totals k d uid months)) as [_ H].
    rewrite month_totals_length in H. now apply H.
Qed.

Lemma forecast_is_clamped_regression_witness :
  month_list IeeeSamples.two_months_up 1 ["2024-01"; "2024-03"]
  /\ month_totals plain IeeeSamples.two_months_up 1 ["2024-01"; "2024-03"]
     = [100; 200]%float
  /\ predict_next_month_expense plain IeeeSamples.two_months_up 1
     = (model <- fit plain [1; 2]%Z [100; 200]%float ;;
        Ok (Double.max (predict plain model 3) 0%float)).
Proof.
  assert (Hm : month_list IeeeSamples.two_months_up 1 ["2024-01"; "2024-03"])
    by exact (month_list_computed IeeeSamples.two_months_up 1).
  split; [exact Hm|]. split; [reflexivity|].
  exact (proj2 (forecast_is_clamped_regression plain IeeeSamples.two_months_up 1%Z
                  ["2024-01"; "2024-03"] Hm (le_n 2))).
Defined.

(** The claim C1 as it is stated fails: the least-squares line through
    the monthly totals 1, 1, 2 at the positions 1, 2, 3 has the value
    7/3 at position 4, and no double stands for 7/3, so that whatever
    the library computes, the forecast is not that value. *)
Lemma least_squares_forecast_is_no_double :
  month_list IeeeSamples.one_one_two 1 ["2024-01"; "2024-02"; "2024-03"]
  /\ map (fun m => map Double.value (month_amounts IeeeSamples.one_one_two 1 m))
         ["2024-01"; "2024-02"; "2024-03"]
     = [[1]; [1]; [2]]
  /\ (forall a b, Spec.least_squares a b [1; 1; 2] -> Qmax (a * 4 + b) 0 == 7 # 3)
  /\ (forall (k : kernels) (v : float),
         predict_next_month_expense k IeeeSamples.one_one_two 1 = Ok v ->
         ~ Double.value v == 7 # 3).
Proof.
  split; [exact (month_list_computed IeeeSamples.one_one_two 1)|].
  split; [reflexivity|]. split.
  - intros a b Hls.
    assert (Hfit : exists m,
               LinearRegression.fit (Spec.positions 3) [1; 1; 2] = Ok m
               /\ LinearRegression.coef_ m == 1 # 2
               /\ LinearRegression.intercept_ m == 1 # 3).
    { eexists. split; [vm_compute; reflexivity|]. split; vm_compute; reflexivity. }
    destruct Hfit as (m & Hfit & Hc & Hi).
    destruct (fit_unique _ _ m a b Hfit (positions_spread 3 (le_S _ _ (le_n 2))))
      as [Ha Hb].
    { intros a' b'.
      pose proof (sse_positions a b [1; 1; 2]) as E1.
      pose proof (sse_positions a' b' [1; 1; 2]) as E2.
      cbn [length] in E1, E2. rewrite <- E1, <- E2. apply Hls. }
    rewrite Ha, Hb, Hc, Hi. reflexivity.
  - intros k v _. apply no_double_is_seven_thirds.
Qed.

(** C4.  When no amount is below zero, the forecast is never below
    zero, and the forecast returns unless the fit raises.  With fewer
    than two months of expenses it is [0.0] or the single month's total.
    With two months or more it is [max(pred, 0.0)] of the fitted
    prediction [pred]: exactly [0.0] when the line extrapolates below
    zero, as for 500 and then 100, and [pred] itself otherwise, also when
    [pred] is [nan], which is not below zero either.  The totals are
    assumed to keep the sign of the amounts. *)
Theorem forecast_never_below_zero :
  (forall (k : kernels) (d : db) (uid : Z) (months : list string),
      keeps_sign k ->
      amounts_nonnegative d ->
      month_list d uid months ->
      ((length months < 2)%nat ->
       exists v, predict_next_month_expense k d uid = Ok v
                 /\ PrimFloat.ltb v 0%float = false)
      /\ (forall md,
             (2 <= length months)%nat ->
             fit k (positions (length months)) (month_totals k d uid months) = Ok md ->
             predict_next_month_expense k d uid
             = Ok (Double.max (predict k md (Z.of_nat (length months) + 1)) 0%float)
             /\ PrimFloat.ltb
                  (Double.max (predict k md (Z.of_nat (length months) + 1)) 0%float)
                  0%float = false
             /\ (PrimFloat.ltb (predict k md (Z.of_nat (length months) + 1)) 0%float = true ->
                 predict_next_month_expense k d uid = Ok 0%float))
      /\ (forall e,
             (2 <= length months)%nat ->
             fit k (positions (length months)) (month_totals k d uid months) = Raise e ->
             predict_next_month_expense k d uid = Raise e))
  /\ month_totals plain IeeeSamples.two_months_down 1 ["2024-01"; "2024-02"]
     = [500; 100]%float
  /\ predict_next_month_expense plain IeeeSamples.two_months_down 1 = Ok 0%float.
Proof.
  split; [|split; [reflexivity | vm_compute; reflexivity]].
  intros k d uid months Hk Hd Hm.
  pose proof (predict_forecast k d uid months Hm) as Hp.
  pose proof (month_totals_length k d uid months) as Hl.
  destruct (forecast_cases k (month_totals k d uid months)) as [H1 H2].
  rewrite Hl in H1, H2.
  split; [|split].
  - intros Hs. rewrite Hp, (H1 Hs). eexists. split; [reflexivity|].
    destruct months as [|m [|m' months]]; [reflexivity| |simpl in Hs; lia].
    cbn [month_totals map last]. apply Hk. intros x Hx.
    unfold month_amounts in Hx. apply in_map_iff in Hx.
    destruct Hx as (t & <- & Ht). apply filter_In in Ht. destruct Ht as [Ht _].
    unfold expenses_of in Ht. apply filter_In in Ht. destruct Ht as [Ht _].
    apply at_least_zero. now apply Hd.
  - intros md Hn Hfit. rewrite Hp, (H2 Hn), Hfit. cbn [Py.bind].
    split; [reflexivity|]. split; [apply max_zero_not_below|].
    intros Hneg. unfold Double.max. now rewrite Hneg.
  - intros e Hn Hfit. rewrite Hp, (H2 Hn), Hfit. reflexivity.
Qed.

Lemma forecast_never_below_zero_witness :
  keeps_sign plain
  /\ amounts_nonnegative IeeeSamples.two_months_down
  /\ month_list IeeeSamples.two_months_down 1 ["2024-01"; "2024-02"]
  /\ fit plain (positions 2) [500; 100]%float
     = Ok {| coef_ := (-400)%float; intercept_ := 900%float |}
  /\ predict plain {| coef_ := (-400)%float; intercept_ := 900%float |} 3
     = (-300)%float
  /\ predict_next_month_expense plain IeeeSamples.two_months_down 1 = Ok 0%float.
Proof.
  assert (Hd : amounts_nonnegative IeeeSamples.two_months_down).
  { intros t [<-|[<-|[]]]; reflexivity. }
  assert (Hm : month_list IeeeSamples.two_months_down 1 ["2024-01"; "2024-02"])
    by exact (month_list_computed IeeeSamples.two_months_down 1).
  assert (Hfit : fit plain (positions 2)
                   (month_totals plain IeeeSamples.two_months_down 1
                      ["2024-01"; "2024-02"])
                 = Ok {| coef_ := (-400)%float; intercept_ := 900%float |})
    by (vm_compute; reflexivity).
  split; [exact loop_sum_keeps_sign|]. split; [exact Hd|]. split; [exact Hm|].
  split; [exact Hfit|]. split; [vm_compute; reflexivity|].
  destruct (proj1 forecast_never_below_zero plain IeeeSamples.two_months_down 1%Z
              ["2024-01"; "2024-02"] loop_sum_keeps_sign Hd Hm) as (_ & H & _).
  destruct (H _ (le_n 2) Hfit) as (_ & _ & H0).
  apply H0. vm_compute. reflexivity.
Defined.

(** The claim C4 as it is stated fails on amounts that are not below
    zero.  Two expenses of 1e308 in one month add up to infinity, and
    with a second month the fit refuses the infinite total: the forecast
    returns no value.  And 1e308 in one month followed by 1 in the next
    makes the intercept overflow, the prediction is [nan], [max(nan,
    0.0)] is [nan], and [nan] is not at least zero. *)
Lemma forecast_without_a_nonnegative_value :
  (amounts_nonnegative IeeeSamples.two_huge_then_one
   /\ amounts_finite IeeeSamples.two_huge_then_one
   /\ month_totals plain IeeeSamples.two_huge_then_one 1 ["2024-01"; "2024-02"]
      = [infinity; 1]%float
   /\ month_totals compensated IeeeSamples.two_huge_then_one 1 ["2024-01"; "2024-02"]
      = [infinity; 1]%float
   /\ predict_next_month_expense plain IeeeSamples.two_huge_then_one 1
      = Raise ValueError
   /\ predict_next_month_expense compensated IeeeSamples.two_huge_then_one 1
      = Raise ValueError)
  /\ (amounts_nonnegative IeeeSamples.huge_then_one
      /\ amounts_finite IeeeSamples.huge_then_one
      /\ predict_next_month_expense plain IeeeSamples.huge_then_one 1 = Ok nan
      /\ PrimFloat.leb 0%float nan = false).
Proof.
  split.
  - split; [intros t [<-|[<-|[<-|[]]]]; reflexivity|].
    split; [intros t [<-|[<-|[<-|[]]]]; reflexivity|].
    repeat split; vm_compute; reflexivity.
  - split; [intros t [<-|[<-|[]]]; reflexivity|].
    split; [intros t [<-|[<-|[]]]; reflexivity|].
    split; vm_compute; reflexivity.
Qed.

(** C8.  On a permutation of the stored rows the engine finds the same
    months, and in each month the same amounts, in another order.  The
    forecast is the same whenever the library's total of every month is
    the same for both orders; it depends on the order of the rows in no
    other way. *)
Theorem forecast_depends_on_order_through_totals
    (k : kernels) (d d' : db) (uid : Z) (months : list string) :
  Permutation d d' ->
  month_list d uid months ->
  month_list d' uid months
  /\ (forall m, Permutation (month_amounts d uid m) (month_amounts d' uid m))
  /\ ((forall m, In m months ->
         group_sum k (month_amounts d uid m) = group_sum k (month_amounts d' uid m)) ->
      predict_next_month_expense k d uid = predict_next_month_expense k d' uid).
Proof.
  intros Hp Hm.
  pose proof (month_list_perm d d' uid months Hp Hm) as Hm'.
  split; [exact Hm'|]. split.
  - intros m. unfold month_amounts. apply Permutation_map.
    apply filter_perm. now apply expenses_perm.
  - intros Hsum. now apply (predict_same_totals k d d' uid uid months).
Qed.

Lemma forecast_depends_on_order_through_totals_witness :
  Permutation IeeeSamples.two_months_up (rev IeeeSamples.two_months_up)
  /\ month_list IeeeSamples.two_months_up 1 ["2024-01"; "2024-03"]
  /\ month_amounts IeeeSamples.two_months_up 1 "2024-01" = [60; 40]%float
  /\ month_amounts (rev IeeeSamples.two_months_up) 1 "2024-01" = [40; 60]%float
  /\ predict_next_month_expense plain IeeeSamples.two_months_up 1
     = predict_next_month_expense plain (rev IeeeSamples.two_months_up) 1.
Proof.
  assert (Hp : Permutation IeeeSamples.two_months_up (rev IeeeSamples.two_months_up))
    by apply Permutation_rev.
  assert (Hm : month_list IeeeSamples.two_months_up 1 ["2024-01"; "2024-03"])
    by exact (month_list_computed IeeeSamples.two_months_up 1).
  split; [exact Hp|]. split; [exact Hm|]. split; [reflexivity|]. split; [reflexivity|].
  destruct (forecast_depends_on_order_through_totals plain _ _ 1%Z _ Hp Hm)
    as (_ & _ & H).
  apply H. intros m [<-|[<-|[]]]; vm_compute; reflexivity.
Defined.

(** The claim C8 as it is stated fails: three expenses of one month, of
    0.25, 2^53 and 1, forecast 9007199254740992 when stored in this order
    and 9007199254740994 when the last two are exchanged, whether the
    month is added up by a plain loop or with compensation. *)
Lemma forecast_depends_on_row_order :
  Permutation IeeeSamples.quarter_big_one IeeeSamples.quarter_one_big
  /\ predict_next_month_expense plain IeeeSamples.quarter_big_one 1
     = Ok 9007199254740992%float
  /\ predict_next_month_expense plain IeeeSamples.quarter_one_big 1
     = Ok 9007199254740994%float
  /\ predict_next_month_expense compensated IeeeSamples.quarter_big_one 1
     = Ok 9007199254740992%float
  /\ predict_next_month_expense compensated IeeeSamples.quarter_one_big 1
     = Ok 9007199254740994%float.
Proof.
  split; [apply perm_skip, perm_swap|].
  repeat split; vm_compute; reflexivity.
Qed.

(** C9.  [generate_recommendations] raises in one case only: the user
    has expenses in two months or more and [LinearRegression.fit], called
    by the forecast on the positions and the monthly totals, raises; the
    exception is then the one of the fit, and the forecast raises it too.
    In every other case both return.  No division and no indexing raises:
    the quotient of the savings rate is a quotient of doubles, the last
    total is read from a series of two points or more, and a user without
    transactions gets the guard message.  No assumption on the stored
    rows is needed for this. *)
Theorem recommendations_raise_only_in_fit
    (k : kernels) (d : db) (uid : Z) (months : list string) :
  month_list d uid months ->
  (forall e,
      generate_recommendations k d uid = Raise e
      <-> (2 <= length months)%nat
          /\ fit k (positions (length months)) (month_totals k d uid months) = Raise e)
  /\ (forall e,
         predict_next_month_expense k d uid = Raise e
         <-> (2 <= length months)%nat
             /\ fit k (positions (length months)) (month_totals k d uid months) = Raise e)
  /\ ((length months < 2)%nat
      \/ (exists md,
             fit k (positions (length months)) (month_totals k d uid months) = Ok md) ->
      (exists recs, generate_recommendations k d uid = Ok recs)
      /\ (exists v, predict_next_month_expense k d uid = Ok v)).
Proof.
  intros Hm.
  assert (Hg : forall e,
             generate_recommendations k d uid = Raise e
             <-> (2 <= length months)%nat
                 /\ fit k (positions (length months)) (month_totals k d uid months)
                    = Raise e).
  { intros e. rewrite generate_raises. now apply predict_raises. }
  split; [exact Hg|]. split; [now apply predict_raises|].
  intros Hok.
  assert (Hno : forall e,
             ~ ((2 <= length months)%nat
                /\ fit k (positions (length months)) (month_totals k d uid months)
                   = Raise e)).
  { intros e [Hn Hfit]. destruct Hok as [Hs|[md Hmd]]; [lia | congruence]. }
  split.
  - destruct (generate_recommendations k d uid) as [recs|e] eqn:E;
      [now exists recs|].
    exfalso. apply (Hno e). now apply Hg.
  - destruct (predict_next_month_expense k d uid) as [v|e] eqn:E; [now exists v|].
    exfalso. apply (Hno e). now apply (predict_raises k d uid months Hm).
Qed.

Lemma recommendations_raise_only_in_fit_witness :
  month_list IeeeSamples.two_months_up 1 ["2024-01"; "2024-03"]
  /\ (exists md, fit plain (positions 2) [100; 200]%float = Ok md)
  /\ (exists recs, generate_recommendations plain IeeeSamples.two_months_up 1 = Ok recs)
  /\ (exists v, predict_next_month_expense plain IeeeSamples.two_months_up 1 = Ok v).
Proof.
  assert (Hm : month_list IeeeSamples.two_months_up 1 ["2024-01"; "2024-03"])
    by exact (month_list_computed IeeeSamples.two_months_up 1).
  assert (Hfit : exists md,
             fit plain (positions (length ["2024-01"; "2024-03"]))
               (month_totals plain IeeeSamples.two_months_up 1 ["2024-01"; "2024-03"])
             = Ok md)
    by (eexists; vm_compute; reflexivity).
  split; [exact Hm|]. split; [exact Hfit|].
  exact (proj2 (proj2 (recommendations_raise_only_in_fit plain
                         IeeeSamples.two_months_up 1%Z _ Hm))
           (or_intror Hfit)).
Defined.

(** The claim C9 as it is stated fails on validated input: the amounts
    of the three expenses below are finite and not below zero, their
    kinds and dates are valid, two of them add up to infinity in January,
    and the fit refuses the infinite total with [ValueError], which
    neither function catches. *)
Lemma recommendations_raise_on_overflow :
  amounts_nonnegative IeeeSamples.two_huge_then_one
  /\ amounts_finite IeeeSamples.two_huge_then_one
  /\ valid_types IeeeSamples.two_huge_then_one
  /\ (forall t, In t IeeeSamples.two_huge_then_one -> AppSpec.on_calendar_day (date_ t))
  /\ month_amounts IeeeSamples.two_huge_then_one 1 "2024-01" = [1e308; 1e308]%float
  /\ (1e308 + 1e308 = infinity)%float
  /\ generate_recommendations plain IeeeSamples.two_huge_then_one 1 = Raise ValueError
  /\ generate_recommendations compensated IeeeSamples.two_huge_then_one 1
     = Raise ValueError.
Proof.
  split; [intros t [<-|[<-|[<-|[]]]]; reflexivity|].
  split; [intros t [<-|[<-|[<-|[]]]]; reflexivity|].
  split; [intros t [<-|[<-|[<-|[]]]]; simpl; tauto|].
  split; [intros t [<-|[<-|[<-|[]]]]; vm_compute; intuition discriminate|].
  repeat split; vm_compute; reflexivity.
Qed.

(** C7.  For a user with transactions whose forecast returns, the
    volatility warning is among the recommendations exactly when the user
    has expenses in two months or more and the total of the most recent
    month is above the product, computed in double precision, of 1.2 and
    the library's mean of the totals of the earlier months.  When the
    forecast raises, so does [generate_recommendations].  Monthly
    expenses of 100, 100, 100, 300 raise the warning; 100, 100, 100, 110
    do not. *)
Theorem volatility_warning_in_doubles :
  (forall (k : kernels) (d : db) (uid : Z) (months : list string),
      transactions_of d uid <> [] ->
      month_list d uid months ->
      (forall pred,
          predict_next_month_expense k d uid = Ok pred ->
          exists recs,
            generate_recommendations k d uid = Ok recs
            /\ (In Recommender.msg_volatility recs
                <-> (2 <= length months)%nat
                    /\ PrimFloat.ltb
                         (1.2 * series_mean k
                                  (removelast (month_totals k d uid months)))%float
                         (last (month_totals k d uid months) 0%float) = true))
      /\ (forall e,
             predict_next_month_expense k d uid = Raise e ->
             generate_recommendations k d uid = Raise e))
  /\ (month_totals plain (IeeeSamples.three_flat_then 300) 1
        ["2024-01"; "2024-02"; "2024-03"; "2024-04"]
      = [100; 100; 100; 300]%float
      /\ exists recs,
           generate_recommendations plain (IeeeSamples.three_flat_then 300) 1 = Ok recs
           /\ In Recommender.msg_volatility recs)
  /\ (month_totals plain (IeeeSamples.three_flat_then 110) 1
        ["2024-01"; "2024-02"; "2024-03"; "2024-04"]
      = [100; 100; 100; 110]%float
      /\ exists recs,
           generate_recommendations plain (IeeeSamples.three_flat_then 110) 1 = Ok recs
           /\ ~ In Recommender.msg_volatility recs).
Proof.
  split; [|split].
  - intros k d uid months Hne Hm.
    pose proof (generate_shape64 k d uid months Hne Hm) as Hg.
    split.
    + intros pred Hp. rewrite Hp in Hg. cbn [Py.bind] in Hg.
      eexists. split; [exact Hg|].
      rewrite warning_iff_check.
      * unfold exceeds_average. rewrite month_totals_length, andb_true_iff.
        rewrite Nat.leb_le. reflexivity.
      * unfold rec_first. destruct (Double.gt _ _); discriminate.
      * unfold rec_last. destruct (Double.gt _ _); discriminate.
      * intros H. apply in_map_iff in H. destruct H as (cv & H & _). discriminate.
    + intros e Hp. rewrite Hp in Hg. exact Hg.
  - split; [reflexivity|].
    eexists. split; [vm_compute; reflexivity|].
    right; right; left. reflexivity.
  - split; [reflexivity|].
    eexists. split; [vm_compute; reflexivity|].
    intros [H|[H|[H|[]]]]; discriminate.
Qed.

Lemma volatility_warning_in_doubles_witness :
  transactions_of (IeeeSamples.three_flat_then 300) 1 <> []
  /\ month_list (IeeeSamples.three_flat_then 300) 1
       ["2024-01"; "2024-02"; "2024-03"; "2024-04"]
  /\ predict_next_month_expense plain (IeeeSamples.three_flat_then 300) 1
     = Ok 300%float
  /\ exists recs,
       generate_recommendations plain (IeeeSamples.three_flat_then 300) 1 = Ok recs
       /\ (In Recommender.msg_volatility recs
           <-> (2 <= 4)%nat
               /\ PrimFloat.ltb (1.2 * series_mean plain [100; 100; 100])%float
                    300%float = true).
Proof.
  assert (Hne : transactions_of (IeeeSamples.three_flat_then 300) 1 <> [])
    by discriminate.
  assert (Hm : month_list (IeeeSamples.three_flat_then 300) 1
                 ["2024-01"; "2024-02"; "2024-03"; "2024-04"])
    by exact (month_list_computed (IeeeSamples.three_flat_then 300) 1).
  assert (Hp : predict_next_month_expense plain (IeeeSamples.three_flat_then 300) 1
               = Ok 300%float)
    by (vm_compute; reflexivity).
  split; [exact Hne|]. split; [exact Hm|]. split; [exact Hp|].
  exact (proj1 (proj1 volatility_warning_in_doubles plain
                  (IeeeSamples.three_flat_then 300) 1%Z _ Hne Hm) _ Hp).
Defined.

(** The claim C7 as it is stated fails: after 7.0 in January, the 8.4
    of February is stored as a double slightly above 8.4 and so exceeds
    1.2 times the mean 7.0 of the earlier months, but the product of the
    doubles 1.2 and 7.0 rounds up to that very double, the comparison is
    not strict, and no warning is given. *)
Lemma volatility_product_is_rounded :
  month_list IeeeSamples.seven_then_8_4 1 ["2024-01"; "2024-02"]
  /\ month_totals plain IeeeSamples.seven_then_8_4 1 ["2024-01"; "2024-02"]
     = [7; 8.4]%float
  /\ month_totals compensated IeeeSamples.seven_then_8_4 1 ["2024-01"; "2024-02"]
     = [7; 8.4]%float
  /\ exceeds_average_exactly [7; 8.4]%float
  /\ (1.2 * 7 = 8.4)%float
  /\ (exists recs,
         generate_recommendations plain IeeeSamples.seven_then_8_4 1 = Ok recs
         /\ ~ In Recommender.msg_volatility recs)
  /\ (exists recs,
         generate_recommendations compensated IeeeSamples.seven_then_8_4 1 = Ok recs
         /\ ~ In Recommender.msg_volatility recs).
Proof.
  split; [exact (month_list_computed IeeeSamples.seven_then_8_4 1)|].
  split; [reflexivity|]. split; [reflexivity|].
  split; [split; [simpl; lia | vm_compute; reflexivity]|].
  split; [vm_compute; reflexivity|].
  split; eexists; (split; [vm_compute; reflexivity|]);
    intros [H|[H|[H|[]]]]; discriminate.
Qed.

(* ================================================================= *)
(** * The endpoints that read or store a double *)

(** X19.  [api_recommendations] answers unless [LinearRegression.fit]
    raises on the monthly totals of a user with expenses in two months
    or more; the exception of the fit then escapes.  When it answers it
    carries the recommendations and the forecast, and for a user with
    transactions the forecast message, the last recommendation, is built
    from the very double returned as the forecast. *)
Theorem api_recommendations_on_doubles
    (k : kernels) (d : db) (uid : Z) (months : list string) :
  month_list d uid months ->
  (forall e,
      IeeeApp.api_recommendations k d uid = Raise e
      <-> (2 <= length months)%nat
          /\ fit k (positions (length months)) (month_totals k d uid months) = Raise e)
  /\ (forall pred,
         predict_next_month_expense k d uid = Ok pred ->
         exists recs,
           IeeeApp.api_recommendations k d uid
           = Ok {| IeeeApp.recommendations := recs;
                   IeeeApp.next_month_expense_prediction := pred |}
           /\ generate_recommendations k d uid = Ok recs
           /\ (transactions_of d uid = [] ->
               recs = [Recommender.msg_no_data] /\ pred = 0%float)
           /\ (transactions_of d uid <> [] ->
               last recs EmptyString = rec_last k d uid pred)).
Proof.
  intros Hm. split.
  - intros e. rewrite <- (predict_raises k d uid months Hm e).
    unfold IeeeApp.api_recommendations.
    destruct (generate_recommendations k d uid) as [recs|e'] eqn:Eg; cbn [Py.bind].
    + destruct (predict_next_month_expense k d uid) as [p|e'']; cbn [Py.bind];
        split; congruence.
    + apply generate_raises in Eg. rewrite Eg. split; congruence.
  - intros pred Hp. unfold IeeeApp.api_recommendations.
    destruct (transactions_of d uid) as [|t ts] eqn:Et.
    + destruct (empty_rows_guard64 k d uid Et) as [Hp0 Hg].
      rewrite Hp0 in Hp. injection Hp as <-.
      exists [Recommender.msg_no_data]. rewrite Hg, Hp0.
      split; [reflexivity|]. split; [reflexivity|]. split; [tauto | congruence].
    + assert (Hne : transactions_of d uid <> []) by congruence.
      pose proof (generate_shape64 k d uid months Hne Hm) as Hg.
      rewrite Hp in Hg. cbn [Py.bind] in Hg.
      eexists. rewrite Hg, Hp. cbn [Py.bind].
      split; [reflexivity|]. split; [reflexivity|]. split; [congruence|].
      intros _. apply last_recommendation.
Qed.

Lemma api_recommendations_on_doubles_witness :
  month_list IeeeSamples.seven_then_8_4 1 ["2024-01"; "2024-02"]
  /\ predict_next_month_expense plain IeeeSamples.seven_then_8_4 1
     = Ok 9.8000000000000007%float
  /\ exists recs,
       IeeeApp.api_recommendations plain IeeeSamples.seven_then_8_4 1
       = Ok {| IeeeApp.recommendations := recs;
               IeeeApp.next_month_expense_prediction := 9.8000000000000007%float |}
       /\ generate_recommendations plain IeeeSamples.seven_then_8_4 1 = Ok recs.
Proof.
  assert (Hm : month_list IeeeSamples.seven_then_8_4 1 ["2024-01"; "2024-02"])
    by exact (month_list_computed IeeeSamples.seven_then_8_4 1).
  assert (Hp : predict_next_month_expense plain IeeeSamples.seven_then_8_4 1
               = Ok 9.8000000000000007%float)
    by (vm_compute; reflexivity).
  split; [exact Hm|]. split; [exact Hp|].
  destruct (proj2 (api_recommendations_on_doubles plain IeeeSamples.seven_then_8_4
                     1%Z _ Hm) _ Hp) as (recs & Ha & Hg & _).
  exists recs. split; [exact Ha | exact Hg].
Defined.

Section IeeeAdding.

Lemma next_id_fresh64 (d : db) (r : Transaction) :
  In r d -> (id r < IeeeApp.next_id d)%Z.
Proof.
  intros Hr. unfold IeeeApp.next_id.
  pose proof (proj2 (fold_max_ge (map id d) 0) (id r) (in_map id d r Hr)). lia.
Qed.

Lemma unique_ids_snoc64 (d : db) (tx : Transaction) :
  unique_ids d -> (forall r, In r d -> (id r < id tx)%Z) ->
  unique_ids (d ++ [tx])%list.
Proof.
  unfold unique_ids. intros Hu Hfresh. rewrite map_app. simpl.
  apply NoDup_app; [exact Hu | |].
  - repeat constructor. intros [].
  - intros x Hx [E|[]]. apply in_map_iff in Hx.
    destruct Hx as (r & <- & Hr). pose proof (Hfresh r Hr). lia.
Qed.

End IeeeAdding.

(** X20.  [add_transaction] on a form whose date and amount parse and
    whose type is [income] or [expense].  When the parsed amount is a
    number, whatever its sign and also when it is infinite, one row is
    appended for the logged-in user with the given date, type and that
    very amount (the amount is not checked), under an id larger than
    every id in use, so that ids stay unique; the view flashes success
    and redirects to the dashboard.  When the parsed amount is [nan], the
    commit fails on the NOT NULL column and no row is stored. *)
Theorem add_transaction_stores_the_parsed_double
    (d : db) (uid : Z) (tdate : Models.date) (amount : float) (ty : string)
    (category description : option string) :
  ty = "income" \/ ty = "expense" ->
  (PrimFloat.is_nan amount = false ->
   exists tx,
     IeeeApp.add_transaction d uid true (Some tdate) (Some amount) (Some ty)
                             category description
     = IeeeApp.Answer ((d ++ [tx])%list,
                       {| flashed := [("Transaction added.", "success")];
                          page_ := Redirect "dashboard" |})
     /\ user_id tx = uid
     /\ date_ tx = tdate
     /\ Ieee.amount tx = amount
     /\ ttype tx = ty
     /\ (forall r, In r d -> (id r < id tx)%Z)
     /\ (unique_ids d -> unique_ids (d ++ [tx])%list))
  /\ (PrimFloat.is_nan amount = true ->
      IeeeApp.add_transaction d uid true (Some tdate) (Some amount) (Some ty)
                              category description
      = IeeeApp.Escapes IeeeApp.IntegrityError).
Proof.
  intros Hty.
  assert (E : String.eqb ty "income" || String.eqb ty "expense" = true)
    by (destruct Hty as [->| ->]; reflexivity).
  split; intros Hnan.
  - eexists. split.
    + unfold IeeeApp.add_transaction. cbv zeta. rewrite E, Hnan. cbn [negb]. reflexivity.
    + cbn [user_id date_ Ieee.amount ttype id].
      repeat (split; [reflexivity|]).
      split; [intros r Hr; now apply next_id_fresh64|].
      intros Hu. apply unique_ids_snoc64; [exact Hu|].
      intros r Hr. now apply next_id_fresh64.
  - unfold IeeeApp.add_transaction. cbv zeta. rewrite E, Hnan. reflexivity.
Qed.

Lemma add_transaction_stores_the_parsed_double_witness :
  (exists tx,
      IeeeApp.add_transaction IeeeSamples.two_months_up 1 true
        (Some (Models.Date 2024 4 1)) (Some (-5)%float) (Some "expense") None None
      = IeeeApp.Answer ((IeeeSamples.two_months_up ++ [tx])%list,
                        {| flashed := [("Transaction added.", "success")];
                           page_ := Redirect "dashboard" |})
      /\ Ieee.amount tx = (-5)%float)
  /\ (exists tx,
         IeeeApp.add_transaction IeeeSamples.two_months_up 1 true
           (Some (Models.Date 2024 4 1)) (Some infinity) (Some "expense") None None
         = IeeeApp.Answer ((IeeeSamples.two_months_up ++ [tx])%list,
                           {| flashed := [("Transaction added.", "success")];
                              page_ := Redirect "dashboard" |})
         /\ Ieee.amount tx = infinity)
  /\ IeeeApp.add_transaction IeeeSamples.two_months_up 1 true
       (Some (Models.Date 2024 4 1)) (Some nan) (Some "expense") None None
     = IeeeApp.Escapes IeeeApp.IntegrityError.
Proof.
  split; [|split].
  - destruct (proj1 (add_transaction_stores_the_parsed_double
                       IeeeSamples.two_months_up 1%Z (Models.Date 2024 4 1) (-5)%float
                       "expense" None None (or_intror eq_refl)) eq_refl)
      as (tx & H & _ & _ & Ha & _).
    exists tx. split; [exact H | exact Ha].
  - destruct (proj1 (add_transaction_stores_the_parsed_double
                       IeeeSamples.two_months_up 1%Z (Models.Date 2024 4 1) infinity
                       "expense" None None (or_intror eq_refl)) eq_refl)
      as (tx & H & _ & _ & Ha & _).
    exists tx. split; [exact H | exact Ha].
  - exact (proj2 (add_transaction_stores_the_parsed_double
                    IeeeSamples.two_months_up 1%Z (Models.Date 2024 4 1) nan
                    "expense" None None (or_intror eq_refl)) eq_refl).
Defined.

(* ================================================================= *)
(** * The engine on doubles: what the results depend on *)

(** X1.  The recommendations depend on the order of the stored rows
    through the library's totals only: on a permutation of the rows
    [generate_recommendations] returns the very same list of strings,
    provided the total of every month and of every category, the total
    income and the total expense are the same doubles for both orders. *)
Theorem recommendations_depend_on_order_through_totals
    (k : kernels) (d d' : db) (uid : Z) (months cats : list string) :
  Permutation d d' ->
  month_list d uid months ->
  category_list d uid cats ->
  (forall m, In m months ->
     group_sum k (month_amounts d uid m) = group_sum k (month_amounts d' uid m)) ->
  (forall c, In c cats ->
     group_sum k (category_amounts d uid c) = group_sum k (category_amounts d' uid c)) ->
  total_income k d uid = total_income k d' uid ->
  total_expense k d uid = total_expense k d' uid ->
  generate_recommendations k d uid = generate_recommendations k d' uid.
Proof.
  intros Hp Hm Hc Hms Hcs Hti Hte.
  pose proof (month_list_perm d d' uid months Hp Hm) as Hm'.
  pose proof (category_list_perm d d' uid cats Hp Hc) as Hc'.
  assert (Ht : Permutation (transactions_of d uid) (transactions_of d' uid)).
  { unfold transactions_of. now apply filter_perm. }
  destruct (transactions_of d uid) as [|t ts] eqn:Et.
  - apply Permutation_nil in Ht.
    destruct (empty_rows_guard64 k d uid Et) as [_ ->].
    destruct (empty_rows_guard64 k d' uid Ht) as [_ ->]. reflexivity.
  - assert (Hne : transactions_of d uid <> []) by congruence.
    assert (Hne' : transactions_of d' uid <> []).
    { intros E. rewrite E in Ht. apply Permutation_sym, Permutation_nil in Ht.
      congruence. }
    rewrite (generate_shape64 k d uid months Hne Hm).
    rewrite (generate_shape64 k d' uid months Hne' Hm').
    rewrite (predict_same_totals k d d' uid uid months Hm Hm' Hms).
    assert (Etot : month_totals k d uid months = month_totals k d' uid months)
      by (unfold month_totals; now apply map_ext_in).
    assert (Etop : top_categories k d uid = top_categories k d' uid).
    { unfold top_categories.
      rewrite (categories_by_labels k d uid cats Hc).
      rewrite (categories_by_labels k d' uid cats Hc').
      do 2 f_equal. apply map_ext_in. intros c Hin. f_equal. now apply Hcs. }
    unfold rec_first, rec_last. rewrite Etot, Etop, Hti, Hte. reflexivity.
Qed.

Lemma recommendations_depend_on_order_through_totals_witness :
  Permutation IeeeSamples.two_months_up (rev IeeeSamples.two_months_up)
  /\ month_list IeeeSamples.two_months_up 1 ["2024-01"; "2024-03"]
  /\ category_list IeeeSamples.two_months_up 1 ["Food"; "Rent"]
  /\ generate_recommendations plain IeeeSamples.two_months_up 1
     = generate_recommendations plain (rev IeeeSamples.two_months_up) 1.
Proof.
  assert (Hp : Permutation IeeeSamples.two_months_up (rev IeeeSamples.two_months_up))
    by apply Permutation_rev.
  assert (Hm : month_list IeeeSamples.two_months_up 1 ["2024-01"; "2024-03"])
    by exact (month_list_computed IeeeSamples.two_months_up 1).
  assert (Hc : category_list IeeeSamples.two_months_up 1 ["Food"; "Rent"])
    by exact (category_list_computed IeeeSamples.two_months_up 1).
  split; [exact Hp|]. split; [exact Hm|]. split; [exact Hc|].
  apply (recommendations_depend_on_order_through_totals plain _ _ 1%Z _ _ Hp Hm Hc).
  - intros m [<-|[<-|[]]]; vm_compute; reflexivity.
  - intros c [<-|[<-|[]]]; vm_compute; reflexivity.
  - vm_compute. reflexivity.
  - vm_compute. reflexivity.
Defined.

(** X5.  The forecast depends on the stored rows through the amounts
    the user spent in each month, in stored order, only: two users, in
    the same database or not, with expenses in the same months and the
    same amounts in the same order within each month get the same
    forecast, whatever the categories, days, descriptions and ids of
    their rows, their income rows, the rows of other users and the way the
    rows of different months interleave. *)
Theorem forecast_depends_on_month_amounts
    (k : kernels) (d d' : db) (uid uid' : Z) (months : list string) :
  month_list d uid months ->
  month_list d' uid' months ->
  (forall m, In m months -> month_amounts d uid m = month_amounts d' uid' m) ->
  predict_next_month_expense k d uid = predict_next_month_expense k d' uid'.
Proof.
  intros Hm Hm' Ha. apply (predict_same_totals k d d' uid uid' months Hm Hm').
  intros m Hin. now rewrite (Ha m Hin).
Qed.

Lemma forecast_depends_on_month_amounts_witness :
  month_list IeeeSamples.two_months_up 1 ["2024-01"; "2024-03"]
  /\ month_list IeeeSamples.two_months_other 7 ["2024-01"; "2024-03"]
  /\ month_amounts IeeeSamples.two_months_up 1 "2024-01" = [60; 40]%float
  /\ month_amounts IeeeSamples.two_months_other 7 "2024-01" = [60; 40]%float
  /\ predict_next_month_expense plain IeeeSamples.two_months_up 1
     = predict_next_month_expense plain IeeeSamples.two_months_other 7.
Proof.
  assert (Hm : month_list IeeeSamples.two_months_up 1 ["2024-01"; "2024-03"])
    by exact (month_list_computed IeeeSamples.two_months_up 1).
  assert (Hm' : month_list IeeeSamples.two_months_other 7 ["2024-01"; "2024-03"])
    by exact (month_list_computed IeeeSamples.two_months_other 7).
  split; [exact Hm|]. split; [exact Hm'|]. split; [reflexivity|]. split; [reflexivity|].
  apply (forecast_depends_on_month_amounts plain _ _ 1%Z 7%Z _ Hm Hm').
  intros m [<-|[<-|[]]]; reflexivity.
Defined.
